(** * nix-ai-help: the MCP socket test scripts and the VS Code diagnostic tool

    A shallow embedding of the Python scripts under [tests/mcp], [tests/vscode]
    and [tests/providers], and of [test-raw-socket.py] and
    [test-simple-socket.py].  The scripts talk JSON-RPC 2.0 to a server
    behind a Unix socket, inspect the host (process table, socket file,
    editor settings, editor extensions) and print what they find.

    Layout:
    - Python values and the dynamic operations the scripts apply to them;
    - [json.dumps];
    - the host: file system, external commands, the server's behaviour;
    - a monad for code that prints, raises, and may block for ever;
    - the scripts, one module per source file;
    - the properties. *)

From Stdlib Require Import ZArith String Ascii List Bool Lia DecimalString.
From stdpp Require Import base strings gmap.

Local Open Scope string_scope.
Local Set Warnings "-register-all".

(** ** Characters and strings

    A Python [str] is modelled as a [string] of code points below 256. *)

Definition LF : ascii := "010"%char.
Definition CR : ascii := "013"%char.
Definition DQUOTE : ascii := "034"%char.
Definition BACKSLASH : ascii := "092"%char.

Definition str1 (c : ascii) : string := String c EmptyString.

(** [needle in hay] on two strings. *)
Fixpoint contains (needle hay : string) : bool :=
  String.prefix needle hay ||
  match hay with
  | EmptyString => false
  | String _ rest => contains needle rest
  end.

(** [sep.join(parts)]. *)
Fixpoint join (sep : string) (parts : list string) : string :=
  match parts with
  | [] => EmptyString
  | [p] => p
  | p :: rest => p ++ sep ++ join sep rest
  end.

(** [str.isspace] on one code point below 256. *)
Definition is_space (c : ascii) : bool :=
  let n := nat_of_ascii c in
  (((9 <=? n) && (n <=? 13)) || ((28 <=? n) && (n <=? 32))
   || (n =? 133) || (n =? 160))%nat.

Fixpoint lstrip (s : string) : string :=
  match s with
  | EmptyString => EmptyString
  | String c rest => if is_space c then lstrip rest else s
  end.

Fixpoint rstrip (s : string) : string :=
  match s with
  | EmptyString => EmptyString
  | String c rest =>
      match rstrip rest with
      | EmptyString => if is_space c then EmptyString else str1 c
      | r => String c r
      end
  end.

(** [s.strip()]. *)
Definition strip (s : string) : string := rstrip (lstrip s).

(** [s.lower()] on the ASCII letters. *)
Definition lower_char (c : ascii) : ascii :=
  let n := nat_of_ascii c in
  if ((65 <=? n) && (n <=? 90))%nat then ascii_of_nat (n + 32) else c.

Fixpoint lower (s : string) : string :=
  match s with
  | EmptyString => EmptyString
  | String c rest => String (lower_char c) (lower rest)
  end.

(** The line boundaries [str.splitlines] knows among the code points below
    256: LF, CR, CR LF, VT, FF, FS, GS, RS and NEL. *)
Definition is_linebreak (c : ascii) : bool :=
  let n := nat_of_ascii c in
  (((10 <=? n) && (n <=? 13)) || ((28 <=? n) && (n <=? 30)) || (n =? 133))%nat.

Fixpoint splitlines_from (acc s : string) : list string :=
  match s with
  | EmptyString =>
      match acc with EmptyString => [] | _ => [acc] end
  | String c rest =>
      if is_linebreak c then
        acc :: match rest with
               | String c' rest' =>
                   if Ascii.eqb c CR && Ascii.eqb c' LF
                   then splitlines_from EmptyString rest'
                   else splitlines_from EmptyString rest
               | EmptyString => splitlines_from EmptyString rest
               end
      else splitlines_from (acc ++ str1 c) rest
  end.

(** [s.splitlines()]. *)
Definition splitlines (s : string) : list string :=
  splitlines_from EmptyString s.

(** [module_name.split('.')[-1]]. *)
Fixpoint last_component (acc s : string) : string :=
  match s with
  | EmptyString => acc
  | String c rest =>
      if Ascii.eqb c "."%char then last_component EmptyString rest
      else last_component (acc ++ str1 c) rest
  end.

(** The last character of a string, if any. *)
Fixpoint last_char (s : string) : option ascii :=
  match s with
  | EmptyString => None
  | String c EmptyString => Some c
  | String _ rest => last_char rest
  end.

(** [os.path.join(a, b)] for a relative [b]. *)
Definition path_join (a b : string) : string :=
  match last_char a with
  | None => b
  | Some c => if Ascii.eqb c "/"%char then a ++ b else a ++ "/" ++ b
  end.

(** The number of LF characters a string ends with. *)
Fixpoint leading_newlines (l : list ascii) : nat :=
  match l with
  | c :: rest => if Ascii.eqb c LF then S (leading_newlines rest) else 0
  | [] => 0
  end.

Definition trailing_newlines (s : string) : nat :=
  leading_newlines (rev (list_ascii_of_string s)).

Example strip_keeps_inner_blanks : strip "  12 34  " = "12 34". Proof. reflexivity. Qed.
Example splitlines_crlf :
  splitlines ("a" ++ str1 LF ++ str1 CR ++ str1 LF ++ "b" ++ str1 LF) = ["a"; EmptyString; "b"].
Proof. reflexivity. Qed.
Example trailing_newlines_counts_the_end : trailing_newlines ("a" ++ str1 LF ++ "b" ++ str1 LF ++ str1 LF) = 2%nat.
Proof. reflexivity. Qed.
Example last_component_of_a_module : last_component EmptyString "tests.mcp.test_mcp_protocol" = "test_mcp_protocol".
Proof. reflexivity. Qed.
Example path_join_adds_a_slash : path_join "/home/u" ".vscode" = "/home/u/.vscode". Proof. reflexivity. Qed.

(** ** Python values

    What [json.loads] can return, which is also what the request literals
    of the scripts are made of. *)

Inductive json : Type :=
  | JNull
  | JBool (b : bool)
  | JNum (n : Z)
  | JStr (s : string)
  | JArr (xs : list json)
  | JObj (kvs : list (string * json)).

(** The exceptions the scripts can meet. *)
Inductive exn : Type :=
  | JSONDecodeError
  | UnicodeDecodeError
  | SocketTimeout
  | OSError
  | FileNotFoundError
  | ModuleNotFoundError
  | TypeError
  | KeyError
  | IndexError
  | AttributeError.

(** The result of a Python expression: a value or a raised exception. *)
Inductive res (A : Type) : Type :=
  | Ok (a : A)
  | Err (e : exn).
Arguments Ok {A} a.
Arguments Err {A} e.

Definition res_bind {A B} (r : res A) (k : A -> res B) : res B :=
  match r with
  | Ok a => k a
  | Err e => Err e
  end.

(** A dict is a list of bindings; a key is looked up from the front. *)
Fixpoint assoc {A} (k : string) (kvs : list (string * A)) : option A :=
  match kvs with
  | [] => None
  | (k', v) :: rest => if String.eqb k k' then Some v else assoc k rest
  end.

Definition has_key {A} (k : string) (kvs : list (string * A)) : bool :=
  match assoc k kvs with
  | Some _ => true
  | None => false
  end.

(** [v == s] for a string literal [s]. *)
Definition eq_str (v : json) (s : string) : bool :=
  match v with
  | JStr s' => String.eqb s' s
  | _ => false
  end.

(** [k in v] for a string literal [k]: key membership on a dict, element
    membership on a list, substring test on a str, [TypeError] otherwise. *)
Definition py_in (k : string) (v : json) : res bool :=
  match v with
  | JObj kvs => Ok (has_key k kvs)
  | JArr xs => Ok (existsb (fun x => eq_str x k) xs)
  | JStr s => Ok (contains k s)
  | _ => Err TypeError
  end.

(** [v[k]] for a string literal [k]. *)
Definition py_getitem (v : json) (k : string) : res json :=
  match v with
  | JObj kvs =>
      match assoc k kvs with
      | Some x => Ok x
      | None => Err KeyError
      end
  | _ => Err TypeError
  end.

(** [v.get(k, d)]: only a dict has the method. *)
Definition py_get (v : json) (k : string) (d : json) : res json :=
  match v with
  | JObj kvs =>
      match assoc k kvs with
      | Some x => Ok x
      | None => Ok d
      end
  | _ => Err AttributeError
  end.

(** [len(v)]. *)
Definition py_len (v : json) : res nat :=
  match v with
  | JObj kvs => Ok (length kvs)
  | JArr xs => Ok (length xs)
  | JStr s => Ok (String.length s)
  | _ => Err TypeError
  end.

(** The items [for x in v] goes through. *)
Definition py_iter (v : json) : res (list json) :=
  match v with
  | JArr xs => Ok xs
  | JObj kvs => Ok (map (fun kv => JStr (fst kv)) kvs)
  | JStr s => Ok (map (fun c => JStr (str1 c)) (list_ascii_of_string s))
  | _ => Err TypeError
  end.

Definition is_dict (v : json) : bool :=
  match v with JObj _ => true | _ => false end.

Definition is_list (v : json) : bool :=
  match v with JArr _ => true | _ => false end.

(** [v[0]]. *)
Definition py_first (v : json) : res json :=
  match v with
  | JArr (x :: _) => Ok x
  | JArr [] => Err IndexError
  | JStr (String c _) => Ok (JStr (str1 c))
  | JStr EmptyString => Err IndexError
  | JObj _ => Err KeyError
  | _ => Err TypeError
  end.

(** [v[:100]]. *)
Definition py_slice100 (v : json) : res json :=
  match v with
  | JStr s => Ok (JStr (String.substring 0 100 s))
  | JArr xs => Ok (JArr (firstn 100 xs))
  | _ => Err TypeError
  end.

(** [' '.join(v)]: the items must all be strings. *)
Fixpoint all_strs (xs : list json) : option (list string) :=
  match xs with
  | [] => Some []
  | JStr s :: rest =>
      match all_strs rest with
      | Some l => Some (s :: l)
      | None => None
      end
  | _ :: _ => None
  end.

Definition py_join (sep : string) (v : json) : res string :=
  res_bind (py_iter v) (fun items =>
    match all_strs items with
    | Some l => Ok (join sep l)
    | None => Err TypeError
    end).

(** ** [json.dumps]

    With the default separators and [ensure_ascii]: a code point outside
    the printable ASCII range is written as an escape. *)

Definition hex_digit (n : nat) : ascii :=
  if (n <? 10)%nat then ascii_of_nat (48 + n) else ascii_of_nat (87 + n).

Definition escape_char (c : ascii) : string :=
  let n := nat_of_ascii c in
  if Ascii.eqb c DQUOTE then String BACKSLASH (str1 DQUOTE)
  else if Ascii.eqb c BACKSLASH then String BACKSLASH (str1 BACKSLASH)
  else if (n =? 10)%nat then String BACKSLASH "n"
  else if (n =? 13)%nat then String BACKSLASH "r"
  else if (n =? 9)%nat then String BACKSLASH "t"
  else if (n =? 12)%nat then String BACKSLASH "f"
  else if (n =? 8)%nat then String BACKSLASH "b"
  else if ((32 <=? n) && (n <=? 126))%nat then str1 c
  else String BACKSLASH
         ("u00" ++ String (hex_digit (n / 16)) (str1 (hex_digit (n mod 16)))).

Fixpoint escape (s : string) : string :=
  match s with
  | EmptyString => EmptyString
  | String c rest => escape_char c ++ escape rest
  end.

Definition quote (s : string) : string :=
  String DQUOTE (escape s ++ str1 DQUOTE).

Fixpoint json_dumps (j : json) : string :=
  match j with
  | JNull => "null"
  | JBool true => "true"
  | JBool false => "false"
  | JNum n => NilZero.string_of_int (Z.to_int n)
  | JStr s => quote s
  | JArr xs => "[" ++ join ", " (map json_dumps xs) ++ "]"
  | JObj kvs =>
      "{" ++ join ", " (map (fun kv => quote (fst kv) ++ ": " ++ json_dumps (snd kv)) kvs)
          ++ "}"
  end.

Example json_dumps_tools_request :
  json_dumps (JObj [("jsonrpc", JStr "2.0"); ("id", JNum 2);
                    ("method", JStr "tools/list"); ("params", JObj [])])
  = "{" ++ quote "jsonrpc" ++ ": " ++ quote "2.0" ++ ", " ++ quote "id" ++ ": 2, "
        ++ quote "method" ++ ": " ++ quote "tools/list" ++ ", "
        ++ quote "params" ++ ": {}}".
Proof. reflexivity. Qed.

(** ** The host and the server

    Everything outside the scripts is an oracle: what the file system
    holds, what an external command answers, what the server sends back.
    [json.loads] belongs to the Python library; a text the scripts receive
    or read carries the value [json.loads] gives for it ([None] when it
    raises [JSONDecodeError]). *)

Record file : Type := {
  st_size : Z;
  st_mode : Z;
  readable : bool;
  writable : bool;
  text : string;
  as_json : option json;
}.

(** What [sock.recv] hands over. *)
Inductive bytes : Type :=
  | NoBytes
  | Undecodable
  | Utf8 (doc : option json).

(** A decoded text: empty or not. *)
Inductive intext : Type :=
  | EmptyText
  | Chars (doc : option json).

(** What the server does with the next request of a connection. *)
Inductive exchange : Type :=
  | Answer (b : bytes)
  | Silence
  | Reset
  | BrokenPipe.

(** The behaviour of one accepted connection; when the list is used up
    the peer has closed and [recv] returns no bytes. *)
Definition connection : Type := list exchange.

(** What [subprocess.run] meets. *)
Inductive proc : Type :=
  | NoSuchCommand
  | Exited (returncode : Z) (stdout : string).

Inductive level : Type := Plain | Header | Success | Warning | Error | Info.

(** What a script does that can be seen from outside, in order. *)
Inductive event : Type :=
  | Print (l : level) (msg : string) (args : list json)
  | Connect (path : string)
  | Send (data : string)
  | Recv (bufsize : Z)
  | Close
  | Exec (argv : list string).

(** [readable] and [writable] say what this process may do with a file;
    [cwd_writable] says whether it may create one in the working
    directory; [umask] is the file mode creation mask of the process;
    [server] lists the connections the server is going to accept, in
    order, and [backlog_full] says that the queue of the listening socket
    is full and stays so, so that a connection attempt is not answered.
    The process is not privileged. *)
Record world : Type := {
  cwd : string;
  cwd_writable : bool;
  umask : Z;
  files : gmap string file;
  commands : list string -> proc;
  server : list connection;
  backlog_full : bool;
  log : list event;
}.

Definition emit (e : event) (w : world) : world :=
  {| cwd := cwd w; cwd_writable := cwd_writable w; umask := umask w; files := files w;
     commands := commands w; server := server w; backlog_full := backlog_full w;
     log := log w ++ [e] |}.

Definition set_server (cs : list connection) (w : world) : world :=
  {| cwd := cwd w; cwd_writable := cwd_writable w; umask := umask w; files := files w;
     commands := commands w; server := cs; backlog_full := backlog_full w;
     log := log w |}.

Definition set_files (fs : gmap string file) (w : world) : world :=
  {| cwd := cwd w; cwd_writable := cwd_writable w; umask := umask w; files := fs;
     commands := commands w; server := server w; backlog_full := backlog_full w;
     log := log w |}.

(** ** The monad of the scripts

    A call returns, raises, or never comes back. *)

Inductive outcome (A : Type) : Type :=
  | Ret (a : A)
  | Raise (e : exn)
  | Hang.
Arguments Ret {A} a.
Arguments Raise {A} e.
Arguments Hang {A}.

Definition M (A : Type) : Type := world -> outcome A * world.

Definition ret {A} (a : A) : M A := fun w => (Ret a, w).

Definition raise {A} (e : exn) : M A := fun w => (Raise e, w).

Definition bind {A B} (m : M A) (k : A -> M B) : M B :=
  fun w =>
    match m w with
    | (Ret a, w') => k a w'
    | (Raise e, w') => (Raise e, w')
    | (Hang, w') => (Hang, w')
    end.

Declare Scope py_scope.
Delimit Scope py_scope with py.
Notation "'let*' x ':=' m 'in' k" := (bind m (fun x => k))
  (at level 10, x name, m at level 100, k at level 200) : py_scope.
Notation "'let*' ' p ':=' m 'in' k" := (bind m (fun x => match x with p => k end))
  (at level 10, p strict pattern, m at level 100, k at level 200) : py_scope.
Notation "m >> k" := (bind m (fun _ => k))
  (at level 100, k at level 200, right associativity) : py_scope.
Local Open Scope py_scope.

(** [try: body except <classes>: handler]. *)
Definition try_except {A} (body : M A) (caught : exn -> bool) (handler : exn -> M A) : M A :=
  fun w =>
    match body w with
    | (Raise e, w') => if caught e then handler e w' else (Raise e, w')
    | r => r
    end.

Definition any_exception (e : exn) : bool := true.

Definition is_json_decode_error (e : exn) : bool :=
  match e with JSONDecodeError => true | _ => false end.

Definition is_socket_timeout (e : exn) : bool :=
  match e with SocketTimeout => true | _ => false end.

(** [try: body except <c1>: h1 except <c2>: h2]: the first clause that
    matches runs, and no clause guards another clause's handler. *)
Definition try_except2 {A} (body : M A)
    (c1 : exn -> bool) (h1 : exn -> M A) (c2 : exn -> bool) (h2 : exn -> M A) : M A :=
  fun w =>
    match body w with
    | (Raise e, w') =>
        if c1 e then h1 e w' else if c2 e then h2 e w' else (Raise e, w')
    | r => r
    end.

(** A Python expression evaluated inside a script. *)
Definition lift {A} (r : res A) : M A :=
  match r with
  | Ok a => ret a
  | Err e => raise e
  end.

Definition say (l : level) (msg : string) (args : list json) : M unit :=
  fun w => (Ret tt, emit (Print l msg args) w).

(** [for x in xs: body x]. *)
Fixpoint for_each {A} (xs : list A) (body : A -> M unit) : M unit :=
  match xs with
  | [] => ret tt
  | x :: rest => body x >> for_each rest body
  end.

(** *** Sockets *)

Record sock : Type := {
  timeout : option Z;
  peer : connection;
}.

(** [socket.socket(socket.AF_UNIX, socket.SOCK_STREAM)]: blocking. *)
Definition socket_new : sock := {| timeout := None; peer := [] |}.

Definition settimeout (s : sock) (t : Z) : sock :=
  {| timeout := Some t; peer := peer s |}.

(** [sock.connect(path)].  Nobody listens: the call is refused.  The
    queue of the listener is full: a socket without a timeout blocks
    until there is room, which is for ever here; a socket with a timeout
    is non-blocking underneath and fails at once with
    [BlockingIOError], an [OSError]. *)
Definition connect (s : sock) (path : string) : M sock :=
  fun w =>
    match files w !! path with
    | None => (Raise FileNotFoundError, w)
    | Some _ =>
        match server w with
        | [] => (Raise OSError, w)
        | c :: rest =>
            if backlog_full w then
              match timeout s with
              | Some _ => (Raise OSError, w)
              | None => (Hang, w)
              end
            else
              (Ret {| timeout := timeout s; peer := c |},
               emit (Connect path) (set_server rest w))
        end
    end.

(** [sock.sendall(data)]: [BrokenPipeError] once the peer has closed the
    connection, which is when its exchanges are used up. *)
Definition sendall (s : sock) (data : string) : M unit :=
  fun w =>
    match peer s with
    | [] => (Raise OSError, w)
    | BrokenPipe :: _ => (Raise OSError, w)
    | _ => (Ret tt, emit (Send data) w)
    end.

(** What is left of a connection after [b] was read from it: no bytes
    are the end of the stream, the peer has closed. *)
Definition after_read (b : bytes) (rest : connection) : connection :=
  match b with
  | NoBytes => []
  | _ => rest
  end.

(** [sock.recv(n)]: the call and the socket afterwards.  A silent server
    makes the call raise [socket.timeout] when a timeout is set, and block
    for ever when none is. *)
Definition recv (s : sock) (n : Z) : M (bytes * sock) :=
  fun w =>
    let w' := emit (Recv n) w in
    match peer s with
    | [] => (Ret (NoBytes, s), w')
    | Answer b :: rest =>
        (Ret (b, {| timeout := timeout s; peer := after_read b rest |}), w')
    | Silence :: _ =>
        match timeout s with
        | Some _ => (Raise SocketTimeout, w')
        | None => (Hang, w')
        end
    | Reset :: _ => (Raise OSError, w')
    | BrokenPipe :: _ => (Raise OSError, w')
    end.

Definition close (s : sock) : M unit :=
  fun w => (Ret tt, emit Close w).

(** [data.decode('utf-8')]. *)
Definition decode (b : bytes) : res intext :=
  match b with
  | NoBytes => Ok EmptyText
  | Undecodable => Err UnicodeDecodeError
  | Utf8 doc => Ok (Chars doc)
  end.

(** [json.loads(text)]. *)
Definition json_loads (t : intext) : res json :=
  match t with
  | Chars (Some j) => Ok j
  | _ => Err JSONDecodeError
  end.

Definition nonempty_bytes (b : bytes) : bool :=
  match b with NoBytes => false | _ => true end.

Definition nonempty_text (t : intext) : bool :=
  match t with EmptyText => false | Chars _ => true end.

(** *** The file system and external commands *)

Definition path_exists (p : string) : M bool :=
  fun w => (Ret (bool_decide (is_Some (files w !! p))), w).

(** [subprocess.run(argv, capture_output=True, text=True)]. *)
Definition subprocess_run (argv : list string) : M (Z * string) :=
  fun w =>
    match commands w argv with
    | NoSuchCommand => (Raise FileNotFoundError, w)
    | Exited rc out => (Ret (rc, out), emit (Exec argv) w)
    end.

(** What a test function hands back to its caller. *)
Inductive pyval : Type :=
  | VNone
  | VBool (b : bool).

(** The truth value [if f(): ...] sees. *)
Definition truthy (v : pyval) : bool :=
  match v with
  | VBool b => b
  | VNone => false
  end.

Definition socket_path : string := "/tmp/nixai-mcp.sock".

(** The request envelope the scripts build as a dict literal. *)
Definition request (id : Z) (method : string) (params : json) : json :=
  JObj [("jsonrpc", JStr "2.0"); ("id", JNum id);
        ("method", JStr method); ("params", params)].

Definition client_info (name : string) : json :=
  JObj [("name", JStr name); ("version", JStr "1.0.0")].

Definition initialize_params (capabilities : json) (client : string) : json :=
  JObj [("protocolVersion", JStr "2024-11-05");
        ("capabilities", capabilities);
        ("clientInfo", client_info client)].

(** ** tests/mcp/test_mcp_protocol.py

    The socket is created and never given a timeout.  A [print] keeps its
    text without the pictograph and the indentation, and the values it
    formats as [args]; [time.sleep] between a request and its [recv] has
    no counterpart, the server's answer being fixed beforehand. *)
Module TestMcpProtocol.

Definition initialize_request : json :=
  request 1 "initialize"
    (initialize_params (JObj [("experimental", JObj []); ("sampling", JObj [])])
                       "test-client").

Definition tools_request : json := request 2 "tools/list" (JObj []).

Definition tool_call_request : json :=
  request 3 "tools/call"
    (JObj [("name", JStr "query_nixos_docs");
           ("arguments", JObj [("query", JStr "services.nginx.enable")])]).

(** Test 1, lines 23-59. *)
Definition test1 (sock0 : sock) : M sock :=
  say Plain "Test 1: Initialize Request" [] >>
  let request_data := json_dumps initialize_request ++ str1 LF in
  sendall sock0 request_data >>
  let* '(data, sock1) := recv sock0 4096 in
  let* response_data := lift (decode data) in
  (if nonempty_text response_data then
     say Plain "Received initialize response" [] >>
     try_except
       (let* response := lift (json_loads response_data) in
        let* id := lift (py_get response "id" JNull) in
        say Plain "Response ID: {}" [id] >>
        let* has_result := lift (py_in "result" response) in
        if has_result then say Plain "Initialize successful" []
        else say Plain "Initialize response without result" [])
       is_json_decode_error
       (fun _ => say Plain "Response not valid JSON" [])
   else say Plain "No response received" []) >>
  ret sock1.

(** Test 2, lines 61-90. *)
Definition test2 (sock0 : sock) : M sock :=
  say Plain "Test 2: Tools List Request" [] >>
  let request_data := json_dumps tools_request ++ str1 LF in
  sendall sock0 request_data >>
  let* '(data, sock1) := recv sock0 4096 in
  let* response_data := lift (decode data) in
  (if nonempty_text response_data then
     say Plain "Received tools list response" [] >>
     try_except
       (let* response := lift (json_loads response_data) in
        let* has_result := lift (py_in "result" response) in
        let* has_tools :=
          if has_result then
            let* result := lift (py_getitem response "result") in
            lift (py_in "tools" result)
          else ret false in
        if has_tools then
          let* result := lift (py_getitem response "result") in
          let* tools := lift (py_getitem result "tools") in
          let* n := lift (py_len tools) in
          say Plain "Found {} tools:" [JNum (Z.of_nat n)] >>
          let* items := lift (py_iter tools) in
          for_each items (fun tool =>
            let* name := lift (py_get tool "name" (JStr "unknown")) in
            say Plain "  - {}" [name])
        else say Plain "No tools in response" [])
       is_json_decode_error
       (fun _ => say Plain "Response not valid JSON" [])
   else say Plain "No response received" []) >>
  ret sock1.

(** Test 3, lines 92-132. *)
Definition test3 (sock0 : sock) : M sock :=
  say Plain "Test 3: Tool Call Request" [] >>
  let request_data := json_dumps tool_call_request ++ str1 LF in
  sendall sock0 request_data >>
  let* '(data, sock1) := recv sock0 8192 in
  let* response_data := lift (decode data) in
  (if nonempty_text response_data then
     say Plain "Received tool call response" [] >>
     try_except
       (let* response := lift (json_loads response_data) in
        let* has_result := lift (py_in "result" response) in
        if has_result then
          let* result := lift (py_getitem response "result") in
          let* has_content :=
            if is_dict result then lift (py_in "content" result) else ret false in
          if has_content then
            let* content := lift (py_getitem result "content") in
            let* n := if is_list content then lift (py_len content) else ret 0%nat in
            if is_list content && (0 <? n)%nat then
              let* first := lift (py_first content) in
              let* text_content := lift (py_get first "text" (JStr EmptyString)) in
              let* shown := lift (py_slice100 text_content) in
              say Plain "Result: {}..." [shown]
            else say Plain "Unexpected content format" []
          else say Plain "Result: {}..." [result]
        else say Plain "No result in response" [])
       is_json_decode_error
       (fun _ => say Plain "Response not valid JSON: {}" [])
   else say Plain "No response received" []) >>
  ret sock1.

(** [test_mcp_protocol()]: no [return] statement, so [None] comes back
    whenever the call comes back. *)
Definition test_mcp_protocol : M pyval :=
  say Plain "Testing MCP Protocol over Unix Socket" [] >>
  try_except
    (let* sock0 := connect socket_new socket_path in
     say Plain "Connected to Unix socket" [] >>
     let* sock1 := test1 sock0 in
     let* sock2 := test2 sock1 in
     let* sock3 := test3 sock2 in
     close sock3 >>
     say Plain "MCP Protocol Tests Complete!" [])
    any_exception
    (fun _ => say Plain "Error testing MCP protocol: {}" []) >>
  ret VNone.

End TestMcpProtocol.

(** More of the file system. *)

(** [os.path.getsize(p)]. *)
Definition getsize (p : string) : M Z :=
  fun w =>
    match files w !! p with
    | Some f => (Ret (st_size f), w)
    | None => (Raise FileNotFoundError, w)
    end.

(** [os.stat(p).st_mode]. *)
Definition stat_mode (p : string) : M Z :=
  fun w =>
    match files w !! p with
    | Some f => (Ret (st_mode f), w)
    | None => (Raise FileNotFoundError, w)
    end.

(** [os.getcwd()].  The working directory exists for the whole run: a
    process whose working directory has been removed is not modelled. *)
Definition getcwd : M string := fun w => (Ret (cwd w), w).

(** [with open(p, 'r') as f: json.load(f)]. *)
Definition load_json_file (p : string) : M json :=
  fun w =>
    match files w !! p with
    | None => (Raise FileNotFoundError, w)
    | Some f =>
        if readable f then
          match as_json f with
          | Some j => (Ret j, w)
          | None => (Raise JSONDecodeError, w)
          end
        else (Raise OSError, w)
    end.

(** A path as the kernel resolves it. *)
Definition resolve (w : world) (p : string) : string :=
  if String.prefix "/" p then p else path_join (cwd w) p.

(** The mode [open] gives a regular file it creates:
    [S_IFREG | (0o666 & ~umask)]. *)
Definition created_mode (w : world) : Z :=
  32768 + Z.land 438 (Z.lnot (umask w)).

(** The file [open(p, 'w')] creates and fills with [content]: it belongs
    to the process, whose access follows the owner's bits. *)
Definition created_file (w : world) (content : string) (parsed : option json) : file :=
  {| st_size := Z.of_nat (String.length content);
     st_mode := created_mode w;
     readable := Z.testbit (created_mode w) 8;
     writable := Z.testbit (created_mode w) 7;
     text := content;
     as_json := parsed |}.

(** An existing file after it was truncated and filled with [content]. *)
Definition rewritten_file (old : file) (content : string) (parsed : option json) : file :=
  {| st_size := Z.of_nat (String.length content);
     st_mode := st_mode old;
     readable := readable old;
     writable := writable old;
     text := content;
     as_json := parsed |}.

(** Whether [open(p, 'w')] succeeds: by the write permission of the
    file when there is one, and of the directory when there is none. *)
Definition may_write (w : world) (p : string) : bool :=
  match files w !! resolve w p with
  | Some old => writable old
  | None => cwd_writable w
  end.

(** The file at [p] once [content] was written to it. *)
Definition written_file (w : world) (p content : string) (parsed : option json) : file :=
  match files w !! resolve w p with
  | Some old => rewritten_file old content parsed
  | None => created_file w content parsed
  end.

(** [with open(p, 'w') as f: f.write(content)] for a path in the working
    directory; [parsed] is what [json.loads] would make of [content].
    A file that exists is opened by its own write permission and keeps
    its mode; a file that does not exist is created by the write
    permission of the directory, with the mode the umask leaves. *)
Definition write_file (p content : string) (parsed : option json) : M unit :=
  fun w =>
    match files w !! resolve w p with
    | Some old =>
        if writable old then
          (Ret tt, set_files (<[resolve w p := rewritten_file old content parsed]> (files w)) w)
        else (Raise OSError, w)
    | None =>
        if cwd_writable w then
          (Ret tt, set_files (<[resolve w p := created_file w content parsed]> (files w)) w)
        else (Raise OSError, w)
    end.

(** ** tests/vscode/vscode_mcp_diagnostic.py *)
Module Diagnostic.

Definition print_success (msg : string) (args : list json) : M unit := say Success msg args.
Definition print_warning (msg : string) (args : list json) : M unit := say Warning msg args.
Definition print_error (msg : string) (args : list json) : M unit := say Error msg args.
Definition print_info (msg : string) (args : list json) : M unit := say Info msg args.
Definition print_header (msg : string) : M unit := say Header msg [].

Definition check_mcp_server_running : M bool :=
  print_header "Checking MCP Server Status" >>
  try_except
    (let* '(returncode, stdout) := subprocess_run ["pgrep"; "-f"; "nixai mcp-server"] in
     if (returncode =? 0)%Z && negb (String.eqb (strip stdout) EmptyString) then
       print_success "MCP server is running" [] >>
       ret true
     else
       print_error "MCP server is not running" [] >>
       print_info "Start it with: nixai mcp-server start" [] >>
       ret false)
    any_exception
    (fun _ => print_error "Error checking server status: {}" [] >> ret false).

Definition check_unix_socket : M bool :=
  print_header "Checking Unix Socket" >>
  let* present := path_exists socket_path in
  if present then
    let* size := getsize socket_path in
    if (size =? 0)%Z then
      print_warning "Socket file exists but has zero size: {}" [JStr socket_path] >>
      ret false
    else
      try_except
        (let* mode := stat_mode socket_path in
         (if negb (Z.land mode 511 =? 493)%Z then
            print_warning "Socket has unusual permissions: {}" [JNum (Z.land mode 511)]
          else ret tt) >>
         print_success "Unix socket exists: {}" [JStr socket_path] >>
         ret true)
        any_exception
        (fun _ => print_error "Error checking socket: {}" [] >> ret false)
  else
    print_error "Unix socket not found: {}" [JStr socket_path] >>
    ret false.

Definition initialize_request : json :=
  request 1 "initialize" (initialize_params (JObj []) "mcp-diagnostic-tool").

Definition list_request : json := request 2 "tools/list" (JObj []).

(** Lines 133-155: the second connection and the [tools/list] call. *)
Definition list_tools : M bool :=
  let* sock0 := connect (settimeout socket_new 5) socket_path in
  let request_data := json_dumps list_request ++ str1 LF in
  sendall sock0 request_data >>
  let* '(data, _) := recv sock0 4096 in
  let* response_data := lift (decode data) in
  let* response := lift (json_loads response_data) in
  let* result := lift (py_getitem response "result") in
  let* tools := lift (py_getitem result "tools") in
  let* n := lift (py_len tools) in
  print_success "Found {} tools:" [JNum (Z.of_nat n)] >>
  let* items := lift (py_iter tools) in
  for_each items (fun tool =>
    let* name := lift (py_getitem tool "name") in
    let* description := lift (py_getitem tool "description") in
    print_info "  - {}: {}" [name; description]) >>
  ret true.

(** Lines 125-163: the inner [try] around the decoded reply. *)
Definition handle_response (sock1 : sock) (response_data : intext) : M bool :=
  try_except
    (let* response := lift (json_loads response_data) in
     let* has_result := lift (py_in "result" response) in
     if has_result then
       print_success "MCP protocol working correctly" [] >>
       let* result := lift (py_getitem response "result") in
       let* server_info := lift (py_getitem result "serverInfo") in
       let* name := lift (py_getitem server_info "name") in
       print_info "Server name: {}" [name] >>
       let* result' := lift (py_getitem response "result") in
       let* version := lift (py_getitem result' "protocolVersion") in
       print_info "Protocol version: {}" [version] >>
       close sock1 >>
       list_tools
     else
       print_error "Invalid response: {}" [response] >>
       close sock1 >>
       ret false)
    is_json_decode_error
    (fun _ =>
       print_error "Invalid JSON response: {}" [] >>
       close sock1 >>
       ret false).

Definition test_mcp_protocol : M bool :=
  print_header "Testing MCP Protocol" >>
  let* present := path_exists socket_path in
  if negb present then
    print_error "Socket not found: {}" [JStr socket_path] >>
    ret false
  else
    try_except
      (let* sock0 := connect (settimeout socket_new 5) socket_path in
       let request_data := json_dumps initialize_request ++ str1 LF in
       sendall sock0 request_data >>
       let* '(data, sock1) := recv sock0 4096 in
       let* response_data := lift (decode data) in
       if negb (nonempty_text response_data) then
         print_error "No response received" [] >>
         close sock1 >>
         ret false
       else handle_response sock1 response_data)
      any_exception
      (fun _ => print_error "Error testing MCP protocol: {}" [] >> ret false).

(** One of the four tests of lines 184-194:
    [key in settings and 'nixai' in settings[key]]. *)
Definition registers_nixai (settings : json) (key : string) : res bool :=
  res_bind (py_in key settings) (fun present =>
    if present then
      res_bind (py_getitem settings key) (fun servers => py_in "nixai" servers)
    else Ok false).

Definition server_keys : list string :=
  ["mcp.servers"; "copilot.mcp.servers"; "claude-dev.mcpServers"; "mcpServers"].

Fixpoint find_servers (settings : json) (keys : list string) : res (list string) :=
  match keys with
  | [] => Ok []
  | key :: rest =>
      res_bind (registers_nixai settings key) (fun found =>
        res_bind (find_servers settings rest) (fun others =>
          Ok (if found then key :: others else others)))
  end.

Definition bridge : string := "UNIX-CONNECT:/tmp/nixai-mcp.sock".

(** Lines 205-210: which of the three branches a registration takes;
    [Some true] is socat, [Some false] is bash with socat, [None] is the
    warning. *)
Definition command_format (command args : json) : res (option bool) :=
  res_bind
    (if eq_str command "socat" then
       res_bind (py_len args) (fun n =>
         if (2 <=? n)%nat then py_in bridge args else Ok false)
     else Ok false)
    (fun socat =>
       if socat then Ok (Some true)
       else
         res_bind
           (if eq_str command "bash" then
              res_bind (py_in "-c" args) (fun dash_c =>
                if dash_c then
                  res_bind (py_join " " args) (fun joined =>
                    if contains "socat" joined then
                      res_bind (py_join " " args) (fun joined' =>
                        Ok (contains bridge joined'))
                    else Ok false)
                else Ok false)
            else Ok false)
           (fun bash => Ok (if bash then Some false else None))).

Definition check_vscode_config : M bool :=
  print_header "Checking VS Code Configuration" >>
  let* workspace_dir := getcwd in
  let settings_path := path_join (path_join workspace_dir ".vscode") "settings.json" in
  let* present := path_exists settings_path in
  if negb present then
    print_error "VS Code settings not found: {}" [JStr settings_path] >>
    ret false
  else
    try_except
      (let* settings := load_json_file settings_path in
       let* servers_found := lift (find_servers settings server_keys) in
       match servers_found with
       | _ :: _ =>
           print_success "Found MCP server configurations: {}"
                         [JStr (join ", " servers_found)] >>
           for_each servers_found (fun server_key =>
             let* servers := lift (py_getitem settings server_key) in
             let* nixai_config := lift (py_getitem servers "nixai") in
             let* command := lift (py_get nixai_config "command" (JStr EmptyString)) in
             let* args := lift (py_get nixai_config "args" (JArr [])) in
             let* format := lift (command_format command args) in
             match format with
             | Some true =>
                 print_success "{} has correct socat command" [JStr server_key]
             | Some false =>
                 print_success "{} has correct bash+socat command" [JStr server_key]
             | None =>
                 print_warning "{} may have incorrect command format: {} {}"
                               [JStr server_key; command; args]
             end) >>
           ret true
       | [] =>
           print_error "No MCP server configurations found" [] >>
           ret false
       end)
      any_exception
      (fun _ => print_error "Error checking VS Code config: {}" [] >> ret false).

(** The dict literal of lines 237-241, in insertion order. *)
Definition required_extensions : list (string * string) :=
  [("automatalabs.copilot-mcp", "Copilot MCP");
   ("zebradev.mcp-server-runner", "MCP Server Runner");
   ("saoudrizwan.claude-dev", "Claude Dev (Cline)")].

(** [any(e.lower() == ext_id.lower() for e in extensions)]. *)
Definition installed (extensions : list string) (ext_id : string) : bool :=
  existsb (fun e => String.eqb (lower e) (lower ext_id)) extensions.

Definition found_extensions (extensions : list string) : list string :=
  map snd (List.filter (fun ext => installed extensions (fst ext)) required_extensions).

Definition missing_extensions (extensions : list string) : list string :=
  map (fun ext => snd ext ++ " (" ++ fst ext ++ ")")
      (List.filter (fun ext => negb (installed extensions (fst ext))) required_extensions).

Definition check_vscode_extensions : M bool :=
  print_header "Checking VS Code Extensions" >>
  try_except
    (let* '(returncode, stdout) := subprocess_run ["code"; "--list-extensions"] in
     if negb (returncode =? 0)%Z then
       print_error "Failed to list VS Code extensions" [] >>
       ret false
     else
       let extensions := splitlines stdout in
       let found := found_extensions extensions in
       let missing := missing_extensions extensions in
       (match found with
        | _ :: _ => print_success "Found required extensions: {}" [JStr (join ", " found)]
        | [] => ret tt
        end) >>
       (match missing with
        | _ :: _ =>
            print_warning "Missing recommended extensions: {}" [JStr (join ", " missing)] >>
            print_info "Install them from VS Code Extensions marketplace" []
        | [] => ret tt
        end) >>
       ret (0 <? length found)%nat)
    any_exception
    (fun _ => print_error "Error checking VS Code extensions: {}" [] >> ret false).

Definition test_file : string := "test-mcp-integration.nix".

(** The text of lines 270-294. *)
Definition test_file_content : string :=
  join (str1 LF)
    ["# Test file for MCP integration";
     "# Try asking an AI assistant (Claude Dev or GitHub Copilot) about these options";
     EmptyString;
     "{";
     "  # Nginx web server configuration";
     "  services.nginx = {";
     "    enable = true;  # What does this option do?";
     "    ";
     "    # What are recommended virtual host settings?";
     "    virtualHosts." ++ quote "example.com" ++ " = {";
     "      root = " ++ quote "/var/www/example" ++ ";";
     "      locations." ++ quote "/" ++ " = {";
     "        index = " ++ quote "index.html" ++ ";";
     "      };";
     "    };";
     "  };";
     "  ";
     "  # What does this Home Manager option do?";
     "  programs.git = {";
     "    enable = true;";
     "    userName = " ++ quote "Example User" ++ ";";
     "    userEmail = " ++ quote "user@example.com" ++ ";";
     "  };";
     "}";
     EmptyString].

(** The text starts with a comment sign: [json.loads] rejects it. *)
Definition create_test_file : M bool :=
  print_header "Creating Test File" >>
  try_except
    (write_file test_file test_file_content None >>
     print_success "Created test file: {}" [JStr test_file] >>
     print_info "You can use this file to test VS Code MCP integration" [] >>
     print_info "Open it and ask an AI assistant about the commented options" [] >>
     ret true)
    any_exception
    (fun _ => print_error "Error creating test file: {}" [] >> ret false).

(** Lines 307-334: printing only. *)
Definition provide_manual_activation_steps : M unit :=
  print_header "VS Code Manual Activation Steps" >>
  say Plain "Testing with Claude Dev (Cline):" [] >>
  say Plain "Testing with GitHub Copilot:" [] >>
  say Plain "Testing via MCP Server Runner:" [] >>
  say Plain "Checking VS Code Developer Tools:" [].

(** [results[key]]. *)
Definition dict_get (results : gmap string bool) (key : string) : res bool :=
  match results !! key with
  | Some b => Ok b
  | None => Err KeyError
  end.

(** [a and b] on two dict entries, the second read only if needed. *)
Definition and_then (a : res bool) (b : res bool) : res bool :=
  res_bind a (fun x => if x then b else Ok false).

Definition values (results : gmap string bool) : list bool :=
  map snd (map_to_list results).

(** [all(results.values())]. *)
Definition all_values (results : gmap string bool) : bool :=
  forallb (fun b => b) (values results).

Definition diagnostic_summary (results : gmap string bool) : M unit :=
  print_header "Diagnostic Summary" >>
  let success_count := length (List.filter (fun b => b) (values results)) in
  let total_count := size results in
  say Plain "Results: {}/{} checks passed"
      [JNum (Z.of_nat success_count); JNum (Z.of_nat total_count)] >>
  let* server_ok :=
    lift (and_then (dict_get results "server_running")
           (and_then (dict_get results "socket_exists")
                     (dict_get results "protocol_working"))) in
  (if server_ok then print_success "MCP server is working correctly!" []
   else print_error "MCP server has issues - see diagnostics above" []) >>
  let* vscode_ok :=
    lift (and_then (dict_get results "vscode_config")
                   (dict_get results "vscode_extensions")) in
  (if vscode_ok then print_success "VS Code appears to be properly configured" []
   else print_warning "VS Code configuration needs attention" []) >>
  if all_values results then
    say Plain "All checks passed! VS Code MCP integration should work." [] >>
    say Plain "If you're still having issues, follow the manual activation steps above." []
  else
    say Plain "Some checks failed. Follow recommendations above to fix issues." [].

(** Lines 366-373: the six entries of [results]. *)
Definition run_checks : M (gmap string bool) :=
  let results : gmap string bool := ∅ in
  let* r := check_mcp_server_running in
  let results := <["server_running" := r]> results in
  let* r := check_unix_socket in
  let results := <["socket_exists" := r]> results in
  let* r := test_mcp_protocol in
  let results := <["protocol_working" := r]> results in
  let* r := check_vscode_config in
  let results := <["vscode_config" := r]> results in
  let* r := check_vscode_extensions in
  let results := <["vscode_extensions" := r]> results in
  let* r := create_test_file in
  let results := <["test_file_created" := r]> results in
  ret results.

Definition main : M pyval :=
  say Plain "VS Code MCP Integration Diagnostic Tool" [] >>
  let* results := run_checks in
  provide_manual_activation_steps >>
  diagnostic_summary results >>
  ret VNone.

End Diagnostic.

(** ** How a script ends

    [if __name__ == "__main__": main()] ends with status 0 when [main]
    comes back and with status 1 when an exception escapes.
    [sys.exit(0 if success else 1)] adds the truth value of the result.
    A call that never comes back gives no status. *)

Definition exit_plain {A} (o : outcome A) : option Z :=
  match o with
  | Ret _ => Some 0%Z
  | Raise _ => Some 1%Z
  | Hang => None
  end.

Definition exit_on_success (o : outcome pyval) : option Z :=
  match o with
  | Ret v => Some (if truthy v then 0 else 1)%Z
  | Raise _ => Some 1%Z
  | Hang => None
  end.

(** ** test-raw-socket.py *)
Module RawSocket.

Definition request : json :=
  request 1 "initialize" (initialize_params (JObj []) "test-client").

Definition test_raw_communication : M pyval :=
  say Plain "Connecting to {}" [JStr socket_path] >>
  try_except2
    (let* sock0 := connect (settimeout socket_new 5) socket_path in
     say Plain "Connected successfully!" [] >>
     let message := json_dumps request ++ str1 LF in
     say Plain "Sending: {}" [JStr (strip message)] >>
     sendall sock0 message >>
     say Plain "Message sent, waiting for response..." [] >>
     let sock1 := settimeout sock0 10 in
     let* '(response_data, sock2) := recv sock1 4096 in
     say Plain "Received raw bytes: {}" [] >>
     (if nonempty_bytes response_data then
        try_except
          (let* response_str := lift (decode response_data) in
           say Plain "Decoded response: {}" [] >>
           let* response_json := lift (json_loads response_str) in
           say Plain "Parsed response: {}" [response_json])
          any_exception
          (fun _ => say Plain "Error parsing response: {}" [])
      else say Plain "No response received" []) >>
     close sock2 >>
     say Plain "Connection closed" [])
    is_socket_timeout
    (fun _ => say Plain "Connection timed out waiting for response" [])
    any_exception
    (fun _ => say Plain "Error: {}" []) >>
  ret VNone.

End RawSocket.

(** ** tests/mcp/test_mcp_simple.py *)
Module McpSimple.

Definition request : json :=
  request 1 "initialize" (initialize_params (JObj []) "test-client").

Definition test_mcp_simple : M pyval :=
  say Plain "Connecting to {}" [JStr socket_path] >>
  try_except
    (let* sock0 := connect (settimeout socket_new 10) socket_path in
     say Plain "Connected!" [] >>
     let message := json_dumps request in
     say Plain "Sending: {}" [JStr message] >>
     sendall sock0 message >>
     say Plain "Message sent, waiting for response..." [] >>
     let* '(response_data, sock1) := recv sock0 4096 in
     say Plain "Received {} bytes" [] >>
     (if nonempty_bytes response_data then
        let* response_str := lift (decode response_data) in
        say Plain "Response: {}" []
      else say Plain "No response received" []) >>
     close sock1 >>
     say Plain "Connection closed" [])
    any_exception
    (fun _ => say Plain "Error: {}" []) >>
  ret VNone.

End McpSimple.

(** ** tests/mcp/test_simple_socket.py *)
Module SimpleSocket.

Definition test_simple_socket : M pyval :=
  say Plain "Testing MCP Socket Connection" [] >>
  say Plain "Socket path: {}" [JStr socket_path] >>
  try_except2
    (let sock0 := socket_new in
     say Plain "Socket created successfully" [] >>
     let* sock1 := connect (settimeout sock0 5) socket_path in
     say Plain "Connected successfully!" [] >>
     close sock1 >>
     say Plain "Connection closed properly" [] >>
     ret (VBool true))
    is_socket_timeout
    (fun _ => say Plain "Connection timed out" [] >> ret (VBool false))
    any_exception
    (fun _ => say Plain "Error: {}" [] >> ret (VBool false)).

End SimpleSocket.

(** ** tests/mcp/__main__.py *)
Module McpMain.

(** A module as [importlib] hands it over: its callables by name. *)
Definition pymodule : Type := list (string * M pyval).

Section Runner.

(** What [importlib.import_module] finds, and the directory of
    [__file__]. *)
Variable modules : string -> option pymodule.
Variable here : string.

Definition import_module (module_name : string) : M pymodule :=
  match modules module_name with
  | Some m => ret m
  | None => raise ModuleNotFoundError
  end.

Definition run_python_test (module_name : string) : M pyval :=
  try_except
    (let* module := import_module module_name in
     let test_func_name := last_component EmptyString module_name in
     match assoc test_func_name module with
     | Some test_func => test_func
     | None =>
         match assoc "main" module with
         | Some main => main
         | None =>
             say Plain "Error: No test function found in {}" [JStr module_name] >>
             ret (VBool false)
         end
     end)
    any_exception
    (fun _ => say Plain "Error running {}: {}" [JStr module_name] >> ret (VBool false)).

Definition run_shell_test (script_path : string) : M pyval :=
  try_except
    (let* '(returncode, _) := subprocess_run [script_path] in
     ret (VBool (returncode =? 0)%Z))
    any_exception
    (fun _ => say Plain "Error running {}: {}" [JStr script_path] >> ret (VBool false)).

(** [run_test]: the two counters are the [nonlocal] variables. *)
Definition run_test (name : string) (test : M pyval) (counters : nat * nat)
  : M (nat * nat) :=
  let '(passed, failed) := counters in
  say Plain "Running test: {}" [JStr name] >>
  let* verdict := test in
  let* counters' :=
    if truthy verdict then
      say Plain "{} PASSED" [JStr name] >> ret (S passed, failed)
    else
      say Plain "{} FAILED" [JStr name] >> ret (passed, S failed) in
  say Plain "----------------------------------------" [] >>
  ret counters'.

(** Lines 54-82: the five tests, in order. *)
Definition run_all : M (nat * nat) :=
  let counters := (0, 0)%nat in
  let* counters :=
    run_test "Simple Socket Test" (run_python_test "tests.mcp.test_simple_socket") counters in
  let* counters :=
    run_test "Raw Socket Test" (run_python_test "tests.mcp.test_raw_socket") counters in
  let* counters :=
    run_test "MCP Simple Test" (run_python_test "tests.mcp.test_mcp_simple") counters in
  let* counters :=
    run_test "MCP Protocol Test" (run_python_test "tests.mcp.test_mcp_protocol") counters in
  let script_path := path_join here "test-mcp-server.sh" in
  run_test "MCP Server Test" (run_shell_test script_path) counters.

Definition main : M pyval :=
  say Header "Running All MCP Tests" [] >>
  let* '(passed, failed) := run_all in
  say Header "Test Summary" [] >>
  say Plain "Total tests: {}" [JNum (Z.of_nat (passed + failed))] >>
  say Plain "Passed: {}" [JNum (Z.of_nat passed)] >>
  say Plain "Failed: {}" [JNum (Z.of_nat failed)] >>
  ret (VBool (failed =? 0)%nat).

End Runner.

(** The test modules of [tests/mcp] as they are in the repository. *)
Definition repo_modules (module_name : string) : option pymodule :=
  if String.eqb module_name "tests.mcp.test_simple_socket" then
    Some [("test_simple_socket", SimpleSocket.test_simple_socket)]
  else if String.eqb module_name "tests.mcp.test_mcp_simple" then
    Some [("test_mcp_simple", McpSimple.test_mcp_simple)]
  else if String.eqb module_name "tests.mcp.test_mcp_protocol" then
    Some [("test_mcp_protocol", TestMcpProtocol.test_mcp_protocol)]
  else None.

End McpMain.

(** * Reasoning about the scripts *)

(** ** A weakest precondition for [M]

    [wp m Q E H w]: started in [w], [m] ends in a state of [Q] when it
    returns, of [E] when it raises and of [H] when it never comes back. *)

Definition wp {A} (m : M A) (Q : A -> world -> Prop) (E : exn -> world -> Prop)
    (H : world -> Prop) (w : world) : Prop :=
  match m w with
  | (Ret a, w') => Q a w'
  | (Raise e, w') => E e w'
  | (Hang, w') => H w'
  end.

Section WpRules.

Context {A B : Type}.
Implicit Types (Q : A -> world -> Prop) (E : exn -> world -> Prop) (H : world -> Prop).

Lemma wp_ret (a : A) Q E H w : Q a w -> wp (ret a) Q E H w.
Proof. exact (fun q => q). Qed.

Lemma wp_raise (e : exn) Q E H w : E e w -> wp (@raise A e) Q E H w.
Proof. exact (fun q => q). Qed.

Lemma wp_lift (r : res A) Q E H w :
  match r with Ok a => Q a w | Err e => E e w end -> wp (lift r) Q E H w.
Proof. destruct r; exact (fun q => q). Qed.

Lemma wp_bind (m : M A) (k : A -> M B) (Q : B -> world -> Prop) E H w :
  wp m (fun a w' => wp (k a) Q E H w') E H w -> wp (bind m k) Q E H w.
Proof.
  unfold wp, bind. destruct (m w) as [[a | e |] w']; exact (fun q => q).
Qed.

Lemma wp_try_except (body : M A) (caught : exn -> bool) (handler : exn -> M A) Q E H w :
  wp body Q (fun e w' => if caught e then wp (handler e) Q E H w' else E e w') H w ->
  wp (try_except body caught handler) Q E H w.
Proof.
  unfold wp, try_except. destruct (body w) as [[a | e |] w']; try exact (fun q => q).
  destruct (caught e); exact (fun q => q).
Qed.

Lemma wp_try_except2 (body : M A) (c1 : exn -> bool) (h1 : exn -> M A)
    (c2 : exn -> bool) (h2 : exn -> M A) Q E H w :
  wp body Q
     (fun e w' =>
        if c1 e then wp (h1 e) Q E H w'
        else if c2 e then wp (h2 e) Q E H w' else E e w') H w ->
  wp (try_except2 body c1 h1 c2 h2) Q E H w.
Proof.
  unfold wp, try_except2. destruct (body w) as [[a | e |] w']; try exact (fun q => q).
  destruct (c1 e); [|destruct (c2 e)]; exact (fun q => q).
Qed.

Lemma wp_mono (m : M A) Q Q' E E' H H' w :
  wp m Q E H w ->
  (forall a w', Q a w' -> Q' a w') ->
  (forall e w', E e w' -> E' e w') ->
  (forall w', H w' -> H' w') ->
  wp m Q' E' H' w.
Proof.
  unfold wp. destruct (m w) as [[a | e |] w']; eauto.
Qed.

End WpRules.

Lemma wp_say l msg args Q E H w :
  Q tt (emit (Print l msg args) w) -> wp (say l msg args) Q E H w.
Proof. exact (fun q => q). Qed.

Lemma wp_close s Q E H w : Q tt (emit Close w) -> wp (close s) Q E H w.
Proof. exact (fun q => q). Qed.

(** A loop keeps what each round keeps. *)
Lemma wp_for_each {A} (xs : list A) (body : A -> M unit) (I : world -> Prop) E H :
  (forall x w, I w -> wp (body x) (fun _ => I) E H w) ->
  forall w, I w -> wp (for_each xs body) (fun _ => I) E H w.
Proof.
  intros Hbody. induction xs as [|x xs IH]; intros w Hw.
  - exact Hw.
  - simpl. apply wp_bind. eapply wp_mono; [apply Hbody, Hw | | auto | auto].
    intros u w' Hw'. apply IH, Hw'.
Qed.

(** What a result and a final state are, read off a [wp]. *)
Lemma wp_elim {A} (m : M A) Q E H w :
  wp m Q E H w ->
  match fst (m w) with
  | Ret a => Q a (snd (m w))
  | Raise e => E e (snd (m w))
  | Hang => H (snd (m w))
  end.
Proof. unfold wp. destruct (m w) as [[a | e |] w']; exact (fun q => q). Qed.

(** ** The primitives *)

Lemma wp_connect s p (Q : sock -> world -> Prop) E H w :
  match files w !! p with
  | None => E FileNotFoundError w
  | Some _ =>
      match server w with
      | [] => E OSError w
      | c :: rest =>
          if backlog_full w then
            match timeout s with
            | Some _ => E OSError w
            | None => H w
            end
          else
            Q {| timeout := timeout s; peer := c |} (emit (Connect p) (set_server rest w))
      end
  end ->
  wp (connect s p) Q E H w.
Proof.
  unfold wp, connect. destruct (files w !! p); [destruct (server w)|]; try exact (fun q => q).
  destruct (backlog_full w); [destruct (timeout s)|]; exact (fun q => q).
Qed.

Lemma wp_sendall s data (Q : unit -> world -> Prop) E H w :
  match peer s with
  | [] => E OSError w
  | BrokenPipe :: _ => E OSError w
  | _ => Q tt (emit (Send data) w)
  end ->
  wp (sendall s data) Q E H w.
Proof.
  unfold wp, sendall. destruct (peer s) as [|[] ?]; exact (fun q => q).
Qed.

Lemma wp_recv s n (Q : bytes * sock -> world -> Prop) E H w :
  match peer s with
  | [] => Q (NoBytes, s) (emit (Recv n) w)
  | Answer b :: rest =>
      Q (b, {| timeout := timeout s; peer := after_read b rest |}) (emit (Recv n) w)
  | Silence :: _ =>
      match timeout s with
      | Some _ => E SocketTimeout (emit (Recv n) w)
      | None => H (emit (Recv n) w)
      end
  | _ :: _ => E OSError (emit (Recv n) w)
  end ->
  wp (recv s n) Q E H w.
Proof.
  unfold wp, recv. destruct (peer s) as [|[] ?]; try exact (fun q => q).
  destruct (timeout s); exact (fun q => q).
Qed.

Lemma wp_path_exists p (Q : bool -> world -> Prop) E H w :
  match files w !! p with
  | Some _ => Q true w
  | None => Q false w
  end ->
  wp (path_exists p) Q E H w.
Proof.
  unfold wp, path_exists. destruct (files w !! p); exact (fun q => q).
Qed.

Lemma wp_subprocess_run argv (Q : Z * string -> world -> Prop) E H w :
  match commands w argv with
  | NoSuchCommand => E FileNotFoundError w
  | Exited rc out => Q (rc, out) (emit (Exec argv) w)
  end ->
  wp (subprocess_run argv) Q E H w.
Proof.
  unfold wp, subprocess_run. destruct (commands w argv); exact (fun q => q).
Qed.

Lemma wp_getsize p (Q : Z -> world -> Prop) E H w :
  match files w !! p with
  | Some f => Q (st_size f) w
  | None => E FileNotFoundError w
  end ->
  wp (getsize p) Q E H w.
Proof.
  unfold wp, getsize. destruct (files w !! p); exact (fun q => q).
Qed.

Lemma wp_stat_mode p (Q : Z -> world -> Prop) E H w :
  match files w !! p with
  | Some f => Q (st_mode f) w
  | None => E FileNotFoundError w
  end ->
  wp (stat_mode p) Q E H w.
Proof.
  unfold wp, stat_mode. destruct (files w !! p); exact (fun q => q).
Qed.

Lemma wp_getcwd (Q : string -> world -> Prop) E H w :
  Q (cwd w) w -> wp getcwd Q E H w.
Proof. exact (fun q => q). Qed.

Lemma wp_load_json_file p (Q : json -> world -> Prop) E H w :
  match files w !! p with
  | None => E FileNotFoundError w
  | Some f =>
      if readable f then
        match as_json f with
        | Some j => Q j w
        | None => E JSONDecodeError w
        end
      else E OSError w
  end ->
  wp (load_json_file p) Q E H w.
Proof.
  unfold wp, load_json_file. destruct (files w !! p) as [f|]; [|exact (fun q => q)].
  destruct (readable f); [destruct (as_json f)|]; exact (fun q => q).
Qed.

Lemma wp_write_file p content parsed (Q : unit -> world -> Prop) E H w :
  (if may_write w p then
     Q tt (set_files (<[resolve w p := written_file w p content parsed]> (files w)) w)
   else E OSError w) ->
  wp (write_file p content parsed) Q E H w.
Proof.
  unfold wp, write_file, may_write, written_file.
  destruct (files w !! resolve w p) as [old|].
  - destruct (writable old); exact (fun q => q).
  - destruct (cwd_writable w); exact (fun q => q).
Qed.

Lemma wp_for_each_inv {A} (xs : list A) (body : A -> M unit) (I : world -> Prop)
    (Q : unit -> world -> Prop) E H w :
  I w ->
  (forall x w', I w' -> wp (body x) (fun _ => I) E H w') ->
  (forall w', I w' -> Q tt w') ->
  wp (for_each xs body) Q E H w.
Proof.
  intros Hw Hbody HQ. eapply wp_mono; [apply (wp_for_each xs body I E H Hbody w Hw) | | auto | auto].
  intros [] w' Hw'. apply HQ, Hw'.
Qed.

(** Symbolic execution, one construct at a time. *)
Ltac wp_simpl :=
  cbv beta zeta;
  cbn [files cwd commands server log cwd_writable umask backlog_full
       emit set_server set_files
       timeout peer settimeout socket_new any_exception fst snd].

Ltac wp_case x :=
  lazymatch x with
  | match ?y with _ => _ end => wp_case y
  | _ =>
      first
        [ match goal with Heq : x = _ |- _ => rewrite Heq end
        | destruct x eqn:? ]
  end.

Ltac wp_step :=
  wp_simpl;
  lazymatch goal with
  | |- wp (bind _ _) _ _ _ _ => apply wp_bind
  | |- wp (try_except _ _ _) _ _ _ _ => apply wp_try_except
  | |- wp (try_except2 _ _ _ _ _) _ _ _ _ => apply wp_try_except2
  | |- wp (ret _) _ _ _ _ => apply wp_ret
  | |- wp (raise _) _ _ _ _ => apply wp_raise
  | |- wp (say _ _ _) _ _ _ _ => apply wp_say
  | |- wp (close _) _ _ _ _ => apply wp_close
  | |- wp (lift ?r) _ _ _ _ => apply wp_lift
  | |- wp (connect _ _) _ _ _ _ => apply wp_connect
  | |- wp (sendall _ _) _ _ _ _ => apply wp_sendall
  | |- wp (recv _ _) _ _ _ _ => apply wp_recv
  | |- wp (path_exists _) _ _ _ _ => apply wp_path_exists
  | |- wp (subprocess_run _) _ _ _ _ => apply wp_subprocess_run
  | |- wp (getsize _) _ _ _ _ => apply wp_getsize
  | |- wp (stat_mode _) _ _ _ _ => apply wp_stat_mode
  | |- wp getcwd _ _ _ _ => apply wp_getcwd
  | |- wp (load_json_file _) _ _ _ _ => apply wp_load_json_file
  | |- wp (write_file _ _ _) _ _ _ _ => apply wp_write_file
  | |- wp (if ?b then _ else _) _ _ _ _ => wp_case b
  | |- wp (match ?x with _ => _ end) _ _ _ _ => wp_case x
  | |- if ?b then _ else _ => wp_case b
  | |- match ?x with _ => _ end => wp_case x
  end.

(** ** Strings: the last character and the newlines at the end *)

Lemma list_ascii_app (s t : string) :
  list_ascii_of_string (s ++ t) = (list_ascii_of_string s ++ list_ascii_of_string t)%list.
Proof. induction s as [|c s IH]; simpl; [reflexivity | rewrite IH; reflexivity]. Qed.

Lemma trailing_newlines_line (s : string) :
  trailing_newlines (s ++ str1 LF) = S (trailing_newlines s).
Proof.
  unfold trailing_newlines. rewrite list_ascii_app, rev_app_distr. reflexivity.
Qed.

Lemma last_char_cons (a c : ascii) (s : string) :
  last_char s = Some c -> last_char (String a s) = Some c.
Proof. destruct s; [discriminate | exact (fun q => q)]. Qed.

Lemma last_char_app (s : string) (c : ascii) : last_char (s ++ str1 c) = Some c.
Proof.
  induction s as [|a s IH]; [reflexivity|].
  change (String a s ++ str1 c) with (String a (s ++ str1 c)).
  apply last_char_cons, IH.
Qed.

Lemma last_char_split (s : string) (c : ascii) :
  last_char s = Some c -> exists s', s = s' ++ str1 c.
Proof.
  induction s as [|a s IH]; [discriminate|].
  destruct s as [|b s].
  - intros [= ->]. exists EmptyString. reflexivity.
  - intros Hl. destruct (IH Hl) as [s' Hs']. exists (String a s'). rewrite Hs'. reflexivity.
Qed.

Lemma trailing_newlines_last (s : string) (c : ascii) :
  last_char s = Some c -> c <> LF -> trailing_newlines s = 0%nat.
Proof.
  intros Hl Hc. destruct (last_char_split s c Hl) as [s' ->].
  unfold trailing_newlines. rewrite list_ascii_app, rev_app_distr. simpl.
  destruct (Ascii.eqb_spec c LF); [contradiction | reflexivity].
Qed.

(** ** [json.dumps] never ends its text with a newline *)

Definition ends_inline (s : string) : Prop :=
  exists c, last_char s = Some c /\ c <> LF.

Lemma ends_inline_cons (a : ascii) (s : string) : ends_inline s -> ends_inline (String a s).
Proof. intros (c & Hl & Hc). exists c. split; [apply last_char_cons, Hl | exact Hc]. Qed.

Lemma ends_inline_app (s : string) (c : ascii) : c <> LF -> ends_inline (s ++ str1 c).
Proof. intros Hc. exists c. split; [apply last_char_app | exact Hc]. Qed.

Lemma uint_ends_inline (d : Decimal.uint) :
  d <> Decimal.Nil -> ends_inline (NilEmpty.string_of_uint d).
Proof.
  induction d as [|d IH|d IH|d IH|d IH|d IH|d IH|d IH|d IH|d IH|d IH];
    intros Hd; [contradiction | ..];
    (destruct d; [eexists; split; [reflexivity | discriminate] |
                  apply ends_inline_cons, IH; discriminate ..]).
Qed.

Lemma int_ends_inline (n : Z) : ends_inline (NilZero.string_of_int (Z.to_int n)).
Proof.
  assert (Hu : forall d, ends_inline (NilZero.string_of_uint d)).
  { intros d. destruct d; try (apply uint_ends_inline; discriminate).
    eexists; split; [reflexivity | discriminate]. }
  destruct (Z.to_int n); simpl; [apply Hu | apply ends_inline_cons, Hu].
Qed.

Lemma json_dumps_ends_inline (j : json) : ends_inline (json_dumps j).
Proof.
  destruct j as [|[]|n|s|xs|kvs]; simpl.
  - eexists; split; [reflexivity | discriminate].
  - eexists; split; [reflexivity | discriminate].
  - eexists; split; [reflexivity | discriminate].
  - apply int_ends_inline.
  - apply ends_inline_cons, ends_inline_app. discriminate.
  - apply ends_inline_cons. apply (ends_inline_app _ "]"%char). discriminate.
  - apply ends_inline_cons. apply (ends_inline_app _ "}"%char). discriminate.
Qed.

(** A request line: [json.dumps(request) + "\n"]. *)
Lemma dumps_unterminated (j : json) : trailing_newlines (json_dumps j) = 0%nat.
Proof.
  destruct (json_dumps_ends_inline j) as (c & Hl & Hc).
  exact (trailing_newlines_last _ c Hl Hc).
Qed.

Lemma dumps_line_terminated (j : json) :
  trailing_newlines (json_dumps j ++ str1 LF) = 1%nat.
Proof. rewrite trailing_newlines_line, dumps_unterminated. reflexivity. Qed.

(** ** What a run leaves alone

    [same_host w0 w]: nothing of the host has changed between [w0] and
    [w]; only the log and the connections the server still offers may
    differ. *)

Definition same_host (w0 w : world) : Prop :=
  cwd w = cwd w0 /\ cwd_writable w = cwd_writable w0 /\ umask w = umask w0 /\
  backlog_full w = backlog_full w0 /\
  commands w = commands w0 /\ files w = files w0.

Lemma may_write_same w0 w p : same_host w0 w -> may_write w p = may_write w0 p.
Proof.
  intros (Hc & Hw & _ & _ & _ & Hf). unfold may_write, resolve. rewrite Hc, Hw, Hf. reflexivity.
Qed.

Lemma written_file_same w0 w p content parsed :
  same_host w0 w -> written_file w p content parsed = written_file w0 p content parsed.
Proof.
  intros (Hc & _ & Hu & _ & _ & Hf).
  unfold written_file, created_file, created_mode, resolve. rewrite Hc, Hu, Hf. reflexivity.
Qed.

Section Keeps.

(** A property [L] of the log that survives every event of [G]. *)
Variable L : list event -> Prop.
Variable G : event -> Prop.
Hypothesis L_step : forall l e, G e -> L l -> L (l ++ [e]).

Definition keeps (w0 w : world) : Prop := same_host w0 w /\ L (log w).

Lemma keeps_emit w0 w e : G e -> keeps w0 w -> keeps w0 (emit e w).
Proof. intros He [Hh Hl]. split; [exact Hh | apply L_step; assumption]. Qed.

Lemma keeps_set_server w0 w cs : keeps w0 w -> keeps w0 (set_server cs w).
Proof. intros [Hh Hl]. split; [exact Hh | exact Hl]. Qed.

Hypothesis G_print : forall l m a, G (Print l m a).
Hypothesis G_exec : forall a, G (Exec a).
Hypothesis G_connect : forall p, G (Connect p).
Hypothesis G_recv : forall n, G (Recv n).
Hypothesis G_close : G Close.

Ltac keeps_done :=
  repeat first [ apply keeps_set_server | apply keeps_emit; [ solve [auto] | ] ];
  assumption.

Import Diagnostic.

Lemma check_mcp_server_running_keeps w0 w :
  keeps w0 w ->
  wp check_mcp_server_running (fun _ => keeps w0) (fun _ _ => False) (fun _ => False) w.
Proof.
  intros Hk. unfold check_mcp_server_running, print_header, print_success, print_error, print_info.
  repeat wp_step; keeps_done.
Qed.

Lemma check_unix_socket_keeps w0 w :
  keeps w0 w ->
  wp check_unix_socket (fun _ => keeps w0) (fun _ _ => False) (fun _ => False) w.
Proof.
  intros Hk. unfold check_unix_socket, print_header, print_success, print_error, print_info, print_warning.
  repeat wp_step; keeps_done.
Qed.

Hypothesis G_initialize : G (Send (json_dumps initialize_request ++ str1 LF)).
Hypothesis G_list : G (Send (json_dumps list_request ++ str1 LF)).

Lemma list_tools_keeps w0 w (E : exn -> world -> Prop) :
  (forall e w', keeps w0 w' -> E e w') ->
  keeps w0 w ->
  wp list_tools (fun _ => keeps w0) E (fun _ => False) w.
Proof.
  intros HE Hk. unfold list_tools, print_header, print_success, print_error, print_info.
  repeat wp_step; try (apply HE); try keeps_done.
  all: eapply (wp_for_each_inv _ _ (keeps w0));
    [ keeps_done
    | intros x w' Hw'; repeat wp_step; try (apply HE); keeps_done
    | intros w' Hw'; repeat wp_step; exact Hw' ].
Qed.

Lemma test_mcp_protocol_keeps w0 w :
  keeps w0 w ->
  wp test_mcp_protocol (fun _ => keeps w0) (fun _ _ => False) (fun _ => False) w.
Proof.
  intros Hk.
  unfold test_mcp_protocol, handle_response, print_header, print_success, print_error,
    print_info.
  repeat wp_step; try keeps_done.
  all: apply list_tools_keeps;
    [ intros e' w' Hw'; destruct (is_json_decode_error e'); repeat wp_step; keeps_done
    | keeps_done ].
Qed.

Lemma check_vscode_config_keeps w0 w :
  keeps w0 w ->
  wp check_vscode_config (fun _ => keeps w0) (fun _ _ => False) (fun _ => False) w.
Proof.
  intros Hk. unfold check_vscode_config, print_header, print_success, print_error, print_info.
  repeat wp_step; try keeps_done.
  all: eapply (wp_for_each_inv _ _ (keeps w0));
    [ keeps_done
    | intros x w' Hw'; unfold print_success, print_warning; repeat wp_step; keeps_done
    | intros w' Hw'; repeat wp_step; exact Hw' ].
Qed.

Definition code_argv : list string := ["code"; "--list-extensions"].

(** What the extension check answers, from what the editor answers. *)
Definition extensions_verdict (w : world) : bool :=
  match commands w code_argv with
  | Exited 0 out => (0 <? length (found_extensions (splitlines out)))%nat
  | _ => false
  end.

Lemma check_vscode_extensions_keeps w0 w :
  keeps w0 w ->
  wp check_vscode_extensions
     (fun r w' => r = extensions_verdict w /\ keeps w0 w')
     (fun _ _ => False) (fun _ => False) w.
Proof.
  intros Hk.
  unfold check_vscode_extensions, extensions_verdict, code_argv,
    print_header, print_success, print_error, print_info, print_warning.
  repeat wp_step; (split; [| keeps_done]).
  all: try reflexivity.
  all: destruct returncode; cbn in *; congruence.
Qed.

(** The test file is the one thing the run writes. *)
Definition wrote_test_file (w0 w : world) : Prop :=
  cwd w = cwd w0 /\ cwd_writable w = cwd_writable w0 /\ commands w = commands w0 /\
  L (log w) /\
  files w = if may_write w0 test_file
            then <[path_join (cwd w0) test_file
                   := written_file w0 test_file test_file_content None]> (files w0)
            else files w0.

Lemma wrote_test_file_emit w0 w e :
  G e -> wrote_test_file w0 w -> wrote_test_file w0 (emit e w).
Proof.
  intros He (? & ? & ? & ? & ?). repeat split; auto. apply L_step; assumption.
Qed.

Lemma create_test_file_spec w0 w :
  keeps w0 w ->
  wp create_test_file
     (fun r w' => r = may_write w0 test_file /\ wrote_test_file w0 w')
     (fun _ _ => False) (fun _ => False) w.
Proof.
  intros [Hh Hl].
  pose proof (may_write_same w0 w test_file Hh) as Hmay.
  pose proof (written_file_same w0 w test_file test_file_content None Hh) as Hwritten.
  destruct Hh as (Hc & Hw & Hu & Hb & Hcmd & Hf).
  unfold create_test_file, print_header, print_success, print_error, print_info.
  apply wp_bind, wp_say. apply wp_try_except, wp_bind, wp_write_file.
  change (may_write (emit (Print Header "Creating Test File" []) w) test_file)
    with (may_write w test_file).
  change (written_file (emit (Print Header "Creating Test File" []) w) test_file
            test_file_content None)
    with (written_file w test_file test_file_content None).
  rewrite Hmay, Hwritten.
  destruct (may_write w0 test_file) eqn:Hcan.
  - repeat wp_step. split; [reflexivity|].
    repeat (apply wrote_test_file_emit; [solve [auto]|]).
    unfold wrote_test_file. wp_simpl. rewrite Hcan.
    repeat split; auto. unfold resolve. wp_simpl. rewrite Hc, Hf. reflexivity.
  - repeat wp_step. split; [reflexivity|].
    repeat (apply wrote_test_file_emit; [solve [auto]|]).
    unfold wrote_test_file. rewrite Hcan. repeat split; auto.
Qed.

Lemma keeps_refl w : L (log w) -> keeps w w.
Proof. intros Hl. repeat split; auto. Qed.

Lemma extensions_verdict_same w0 w :
  keeps w0 w -> extensions_verdict w = extensions_verdict w0.
Proof.
  intros [(_ & _ & _ & _ & Hcmd & _) _]. unfold extensions_verdict. rewrite Hcmd. reflexivity.
Qed.

(** The six entries of [results], in the order they are set. *)
Definition results_of (r1 r2 r3 r4 r5 r6 : bool) : gmap string bool :=
  <["test_file_created" := r6]>
    (<["vscode_extensions" := r5]>
       (<["vscode_config" := r4]>
          (<["protocol_working" := r3]>
             (<["socket_exists" := r2]>
                (<["server_running" := r1]> ∅))))).

Lemma run_checks_spec w :
  L (log w) ->
  wp run_checks
     (fun results w' =>
        wrote_test_file w w' /\
        exists r1 r2 r3 r4,
          results = results_of r1 r2 r3 r4 (extensions_verdict w) (may_write w test_file))
     (fun _ _ => False) (fun _ => False) w.
Proof.
  intros Hl. apply keeps_refl in Hl. unfold run_checks.
  apply wp_bind. eapply wp_mono;
    [apply check_mcp_server_running_keeps, Hl | | contradiction | contradiction].
  intros r1 w1 H1. cbv beta zeta.
  apply wp_bind. eapply wp_mono;
    [apply check_unix_socket_keeps, H1 | | contradiction | contradiction].
  intros r2 w2 H2. cbv beta zeta.
  apply wp_bind. eapply wp_mono;
    [apply test_mcp_protocol_keeps, H2 | | contradiction | contradiction].
  intros r3 w3 H3. cbv beta zeta.
  apply wp_bind. eapply wp_mono;
    [apply check_vscode_config_keeps, H3 | | contradiction | contradiction].
  intros r4 w4 H4. cbv beta zeta.
  apply wp_bind. eapply wp_mono;
    [apply check_vscode_extensions_keeps, H4 | | contradiction | contradiction].
  intros r5 w5 [-> H5]. cbv beta zeta.
  apply wp_bind. eapply wp_mono;
    [apply create_test_file_spec, H5 | | contradiction | contradiction].
  intros r6 w6 [-> H6]. cbv beta zeta.
  apply wp_ret. split; [exact H6|].
  exists r1, r2, r3, r4. rewrite (extensions_verdict_same _ _ H4). reflexivity.
Qed.

Lemma dict_get_results r1 r2 r3 r4 r5 r6 :
  let results := results_of r1 r2 r3 r4 r5 r6 in
  dict_get results "server_running" = Ok r1 /\
  dict_get results "socket_exists" = Ok r2 /\
  dict_get results "protocol_working" = Ok r3 /\
  dict_get results "vscode_config" = Ok r4 /\
  dict_get results "vscode_extensions" = Ok r5 /\
  dict_get results "test_file_created" = Ok r6.
Proof.
  unfold dict_get, results_of. cbv zeta.
  repeat split; repeat (rewrite lookup_insert_ne by discriminate);
    rewrite lookup_insert_eq; reflexivity.
Qed.

Lemma diagnostic_summary_spec w0 w r1 r2 r3 r4 r5 r6 :
  wrote_test_file w0 w ->
  wp (diagnostic_summary (results_of r1 r2 r3 r4 r5 r6))
     (fun _ => wrote_test_file w0) (fun _ _ => False) (fun _ => False) w.
Proof.
  intros Hw.
  destruct (dict_get_results r1 r2 r3 r4 r5 r6) as (E1 & E2 & E3 & E4 & E5 & E6).
  unfold diagnostic_summary, and_then, res_bind, print_header, print_success,
    print_error, print_warning.
  rewrite E1, E2, E3, E4, E5. clear E1 E2 E3 E4 E5 E6.
  destruct r1, r2, r3, r4, r5; repeat wp_step.
  all: repeat (apply wrote_test_file_emit; [solve [auto]|]); assumption.
Qed.

Lemma main_spec w :
  L (log w) ->
  wp main (fun r w' => r = VNone /\ wrote_test_file w w')
     (fun _ _ => False) (fun _ => False) w.
Proof.
  intros Hl. unfold main.
  apply wp_bind, wp_say. cbv beta.
  apply wp_bind. eapply wp_mono;
    [apply run_checks_spec; wp_simpl; apply L_step; auto | | contradiction | contradiction].
  intros results w1 [Hw (r1 & r2 & r3 & r4 & ->)]. cbv beta.
  assert (Hw1 : wrote_test_file w w1).
  { destruct Hw as (? & ? & ? & ? & ?). repeat split; auto. }
  unfold provide_manual_activation_steps, print_header.
  repeat wp_step. eapply wp_mono;
    [apply diagnostic_summary_spec with (w0 := w) | | contradiction | contradiction].
  - repeat (apply wrote_test_file_emit; [solve [auto]|]). exact Hw1.
  - intros [] w2 Hw2. repeat wp_step. auto.
Qed.

(** *** tests/mcp/test_mcp_protocol.py: the call may block *)

Hypothesis G_test1 : G (Send (json_dumps TestMcpProtocol.initialize_request ++ str1 LF)).
Hypothesis G_test2 : G (Send (json_dumps TestMcpProtocol.tools_request ++ str1 LF)).
Hypothesis G_test3 : G (Send (json_dumps TestMcpProtocol.tool_call_request ++ str1 LF)).

Lemma test1_keeps w0 s w :
  keeps w0 w ->
  wp (TestMcpProtocol.test1 s) (fun _ => keeps w0) (fun _ => keeps w0) (keeps w0) w.
Proof.
  intros Hk. unfold TestMcpProtocol.test1.
  repeat wp_step; keeps_done.
Qed.

Lemma test2_keeps w0 s w :
  keeps w0 w ->
  wp (TestMcpProtocol.test2 s) (fun _ => keeps w0) (fun _ => keeps w0) (keeps w0) w.
Proof.
  intros Hk. unfold TestMcpProtocol.test2.
  repeat wp_step; try keeps_done.
  all: eapply (wp_for_each_inv _ _ (keeps w0));
    [ keeps_done
    | intros x w' Hw'; repeat wp_step; keeps_done
    | intros w' Hw'; repeat wp_step; exact Hw' ].
Qed.

Lemma test3_keeps w0 s w :
  keeps w0 w ->
  wp (TestMcpProtocol.test3 s) (fun _ => keeps w0) (fun _ => keeps w0) (keeps w0) w.
Proof.
  intros Hk. unfold TestMcpProtocol.test3.
  repeat wp_step; keeps_done.
Qed.

Lemma protocol_test_keeps w0 w :
  keeps w0 w ->
  wp TestMcpProtocol.test_mcp_protocol
     (fun r w' => r = VNone /\ keeps w0 w') (fun _ _ => False) (keeps w0) w.
Proof.
  intros Hk. unfold TestMcpProtocol.test_mcp_protocol.
  assert (Hhandler : forall w', keeps w0 w' ->
            wp (say Plain "Error testing MCP protocol: {}" [])
               (fun _ w'' => wp (ret VNone) (fun r w3 => r = VNone /\ keeps w0 w3)
                                (fun _ _ => False) (keeps w0) w'')
               (fun _ _ => False) (keeps w0) w').
  { intros w' Hw'. repeat wp_step. split; [reflexivity | keeps_done]. }
  repeat wp_step; try (apply Hhandler; keeps_done); try keeps_done.
  eapply wp_mono; [apply (test1_keeps w0); keeps_done | | exact (fun _ => Hhandler) | auto].
  intros s1 w1 H1. repeat wp_step.
  eapply wp_mono; [apply (test2_keeps w0), H1 | | exact (fun _ => Hhandler) | auto].
  intros s2 w2 H2. repeat wp_step.
  eapply wp_mono; [apply (test3_keeps w0), H2 | | exact (fun _ => Hhandler) | auto].
  intros s3 w3 H3. repeat wp_step. split; [reflexivity | keeps_done].
Qed.

(** *** test-raw-socket.py and tests/mcp/test_mcp_simple.py: every call
    comes back *)

Lemma raw_communication_keeps w0 w :
  G (Send (json_dumps RawSocket.request ++ str1 LF)) ->
  keeps w0 w ->
  wp RawSocket.test_raw_communication
     (fun r w' => r = VNone /\ keeps w0 w') (fun _ _ => False) (fun _ => False) w.
Proof.
  intros Hs Hk. unfold RawSocket.test_raw_communication.
  repeat wp_step; (split; [reflexivity | keeps_done]).
Qed.

Lemma mcp_simple_keeps w0 w :
  G (Send (json_dumps McpSimple.request)) ->
  keeps w0 w ->
  wp McpSimple.test_mcp_simple
     (fun r w' => r = VNone /\ keeps w0 w') (fun _ _ => False) (fun _ => False) w.
Proof.
  intros Hs Hk. unfold McpSimple.test_mcp_simple.
  repeat wp_step; (split; [reflexivity | keeps_done]).
Qed.

End Keeps.

(** ** Reading a run off a [wp] *)

Lemma wp_returns {A} (m : M A) (Q : A -> world -> Prop) w :
  wp m Q (fun _ _ => False) (fun _ => False) w ->
  exists a, fst (m w) = Ret a /\ Q a (snd (m w)).
Proof.
  unfold wp. destruct (m w) as [[a | e |] w']; [eauto | contradiction | contradiction].
Qed.

Lemma wp_run_eq {A} (m : M A) (w : world) (x : outcome A * world) :
  wp m (fun a w' => (Ret a, w') = x) (fun e w' => (Raise e, w') = x)
     (fun w' => (Hang, w') = x) w ->
  m w = x.
Proof. unfold wp. destruct (m w) as [[a | e |] w']; exact (fun q => q). Qed.

(** ** The reply of the server, as the scripts meet it *)

Definition reply (j : json) : exchange := Answer (Utf8 (Some j)).

(** The server accepts one more connection, which behaves as [c]. *)
Definition serving (c : connection) (w : world) : world :=
  set_server (c :: server w) w.

Lemma assoc_skip {A} (k k' : string) (v : A) (kvs : list (string * A)) :
  k <> k' -> assoc k ((k', v) :: kvs) = assoc k kvs.
Proof.
  intros Hne. simpl. destruct (String.eqb_spec k k'); [contradiction | reflexivity].
Qed.

(** Two replies the diagnostic cannot tell apart: it asks a reply for
    nothing but its [result]. *)
Definition same_result (d1 d2 : json) : Prop :=
  py_in "result" d1 = py_in "result" d2 /\
  py_getitem d1 "result" = py_getitem d2 "result".

Lemma same_result_extra_key (k : string) (v : json) (kvs : list (string * json)) :
  k <> "result" -> same_result (JObj ((k, v) :: kvs)) (JObj kvs).
Proof.
  intros Hne. unfold same_result, py_in, py_getitem, has_key.
  rewrite assoc_skip by congruence. split; reflexivity.
Qed.

Lemma handle_response_same_result s d1 d2 w :
  same_result d1 d2 ->
  fst (Diagnostic.handle_response s (Chars (Some d1)) w)
  = fst (Diagnostic.handle_response s (Chars (Some d2)) w).
Proof.
  intros [Hin Hget].
  unfold Diagnostic.handle_response, try_except, bind, lift, json_loads, ret, raise,
    Diagnostic.print_success, Diagnostic.print_error, Diagnostic.print_info, say, close.
  rewrite Hin. destruct (py_in "result" d2) as [[]|e].
  - rewrite Hget. reflexivity.
  - reflexivity.
  - destruct e; reflexivity.
Qed.

Lemma diagnostic_protocol_prefix w f tail d :
  files w !! socket_path = Some f ->
  backlog_full w = false ->
  Diagnostic.test_mcp_protocol (serving (reply d :: tail) w)
  = try_except
      (Diagnostic.handle_response {| timeout := Some 5%Z; peer := tail |} (Chars (Some d)))
      any_exception
      (fun _ => Diagnostic.print_error "Error testing MCP protocol: {}" [] >> ret false)
      (emit (Recv 4096)
         (emit (Send (json_dumps Diagnostic.initialize_request ++ str1 LF))
            (emit (Connect socket_path)
               (set_server (server w)
                  (emit (Print Header "Testing MCP Protocol" []) w))))).
Proof.
  intros Hf Hb.
  unfold Diagnostic.test_mcp_protocol, Diagnostic.print_header, serving, reply.
  unfold bind at 1 2. unfold say at 1. unfold path_exists.
  cbn [files emit set_server]. rewrite Hf.
  change (bool_decide (is_Some (Some f))) with true. cbn [negb].
  unfold try_except. unfold bind at 1. unfold connect.
  cbn [files server backlog_full emit set_server]. rewrite Hf, Hb.
  reflexivity.
Qed.

(** The listener does not answer: the connection attempt of the
    diagnostic times out and the protocol check answers [False]. *)
Lemma diagnostic_fails_on_a_full_backlog w f c :
  files w !! socket_path = Some f ->
  backlog_full w = true ->
  fst (Diagnostic.test_mcp_protocol (serving c w)) = Ret false.
Proof.
  intros Hf Hb.
  unfold Diagnostic.test_mcp_protocol, Diagnostic.print_header, Diagnostic.print_error, serving.
  unfold bind at 1 2. unfold say at 1. unfold path_exists.
  cbn [files emit set_server]. rewrite Hf.
  change (bool_decide (is_Some (Some f))) with true. cbn [negb].
  unfold try_except. unfold bind at 1. unfold connect.
  cbn [files server backlog_full emit set_server]. rewrite Hf, Hb.
  reflexivity.
Qed.

Lemma protocol_verdict_same_result w f tail d1 d2 :
  files w !! socket_path = Some f ->
  same_result d1 d2 ->
  fst (Diagnostic.test_mcp_protocol (serving (reply d1 :: tail) w))
  = fst (Diagnostic.test_mcp_protocol (serving (reply d2 :: tail) w)).
Proof.
  intros Hf Hsame.
  destruct (backlog_full w) eqn:Hb;
    [rewrite !(diagnostic_fails_on_a_full_backlog w f) by assumption; reflexivity|].
  rewrite !(diagnostic_protocol_prefix w f) by assumption.
  unfold try_except.
  pose proof (handle_response_same_result {| timeout := Some 5%Z; peer := tail |} d1 d2
    (emit (Recv 4096)
       (emit (Send (json_dumps Diagnostic.initialize_request ++ str1 LF))
          (emit (Connect socket_path)
             (set_server (server w)
                (emit (Print Header "Testing MCP Protocol" []) w))))) Hsame) as Hfst.
  destruct (Diagnostic.handle_response _ (Chars (Some d1)) _) as [[a1 | e1 |] w1];
    destruct (Diagnostic.handle_response _ (Chars (Some d2)) _) as [[a2 | e2 |] w2];
    simpl in Hfst; try discriminate; try reflexivity.
  - exact Hfst.
Qed.

(** Symbolic execution that also evaluates the Python expressions it
    can. *)
Ltac wp_eval :=
  cbn [decode json_loads py_in py_getitem py_get py_len py_iter py_first py_slice100
       is_dict is_list has_key assoc eq_str String.eqb Ascii.eqb Bool.eqb
       nonempty_text nonempty_bytes after_read negb andb length Nat.ltb Nat.leb
       is_json_decode_error is_socket_timeout];
  wp_step.

Lemma diagnostic_rejects_without_result w f tail kvs :
  files w !! socket_path = Some f ->
  has_key "result" kvs = false ->
  fst (Diagnostic.test_mcp_protocol (serving (reply (JObj kvs) :: tail) w)) = Ret false.
Proof.
  intros Hf Hres.
  assert (Hwp : wp Diagnostic.test_mcp_protocol (fun r _ => r = false)
                   (fun _ _ => False) (fun _ => False) (serving (reply (JObj kvs) :: tail) w)).
  { unfold Diagnostic.test_mcp_protocol, Diagnostic.handle_response, Diagnostic.print_header,
      Diagnostic.print_error, Diagnostic.print_success, serving, reply.
    repeat wp_eval; reflexivity. }
  apply wp_returns in Hwp. destruct Hwp as (a & -> & Ha). congruence.
Qed.

Ltac rewrite_known :=
  repeat match goal with
         | H : assoc ?k ?l = _ |- context [assoc ?k ?l] => rewrite H
         | H : has_key ?k ?l = _ |- context [has_key ?k ?l] => rewrite H
         | H : peer ?s = _ |- context [peer ?s] => rewrite H
         end.

Ltac wp_run := repeat (rewrite_known; wp_eval).

(** The log only grows. *)
Definition log_grows (w w' : world) : Prop :=
  forall e, In e (log w) -> In e (log w').

Lemma log_grows_refl w : log_grows w w.
Proof. intros e He. exact He. Qed.

Lemma log_grows_emit w w' e : log_grows w w' -> log_grows w (emit e w').
Proof. intros Hg e0 He0. cbn. apply in_or_app. left. apply Hg, He0. Qed.

Lemma log_grows_set_server w w' cs : log_grows w w' -> log_grows w (set_server cs w').
Proof. exact (fun q => q). Qed.

Lemma log_grows_trans w1 w2 w3 : log_grows w1 w2 -> log_grows w2 w3 -> log_grows w1 w3.
Proof. intros H12 H23 e He. apply H23, H12, He. Qed.

Ltac grows_done :=
  repeat first [ apply log_grows_emit | apply log_grows_set_server ];
  first [ apply log_grows_refl | assumption ].

(** An event is in the log: look from the end. *)
Ltac in_log :=
  cbn [log emit set_server set_files];
  repeat first [ apply in_or_app; right; left; reflexivity | apply in_or_app; left ].

Definition line (j : json) : string := json_dumps j ++ str1 LF.

Definition advanced (s : sock) (rest : connection) : sock :=
  {| timeout := timeout s; peer := rest |}.

(** A tool result as the server sends it for [tools/call]. *)
Definition tool_result (shown : string) : json :=
  JObj [("jsonrpc", JStr "2.0"); ("id", JNum 3);
        ("result", JObj [("content", JArr [JObj [("type", JStr "text");
                                                  ("text", JStr shown)]])])].

(** ** tests/mcp/__main__.py: the tests never raise *)

Section RunnerFacts.

Variable modules : string -> option McpMain.pymodule.
Variable here : string.

(** A test function of an imported module is any computation. *)
Lemma wp_any_test (test : M pyval) (E : exn -> world -> Prop) w :
  (forall e w', E e w') ->
  wp test (fun _ _ => True) E (fun _ => True) w.
Proof. intros HE. unfold wp. destruct (test w) as [[a | e |] w']; auto. Qed.

Lemma run_python_test_safe module_name w :
  wp (McpMain.run_python_test modules module_name)
     (fun _ _ => True) (fun _ _ => False) (fun _ => True) w.
Proof.
  unfold McpMain.run_python_test, McpMain.import_module.
  repeat wp_step; try exact I.
  all: apply wp_any_test; intros e' w'; repeat wp_step; exact I.
Qed.

Lemma run_shell_test_safe script_path w :
  wp (McpMain.run_shell_test script_path)
     (fun _ _ => True) (fun _ _ => False) (fun _ => True) w.
Proof. unfold McpMain.run_shell_test. repeat wp_step; exact I. Qed.

(** The last four lines the runner prints. *)
Definition summary (passed failed : nat) (l : list event) : Prop :=
  exists before,
    l = (before ++ [Print Header "Test Summary" [];
                    Print Plain "Total tests: {}" [JNum (Z.of_nat (passed + failed))];
                    Print Plain "Passed: {}" [JNum (Z.of_nat passed)];
                    Print Plain "Failed: {}" [JNum (Z.of_nat failed)]])%list.

End RunnerFacts.

(** ** What a run adds to the log *)

(** [emitted P w w']: the log of [w'] is the log of [w] followed by
    events of [P]. *)
Definition emitted (P : event -> Prop) (w w' : world) : Prop :=
  exists evs, log w' = (log w ++ evs)%list /\ Forall P evs.

Lemma emitted_step (P : event -> Prop) (w : world) (l : list event) (e : event) :
  P e ->
  (exists evs, l = (log w ++ evs)%list /\ Forall P evs) ->
  exists evs, (l ++ [e])%list = (log w ++ evs)%list /\ Forall P evs.
Proof.
  intros He (evs & -> & Hall). exists (evs ++ [e])%list. split.
  - rewrite app_assoc. reflexivity.
  - apply Forall_app. split; [exact Hall | repeat constructor; exact He].
Qed.

Lemma emitted_start (P : event -> Prop) (w : world) :
  exists evs, log w = (log w ++ evs)%list /\ Forall P evs.
Proof. exists []. split; [rewrite app_nil_r; reflexivity | constructor]. Qed.

Lemma wp_always {A} (m : M A) (I : world -> Prop) w :
  wp m (fun _ => I) (fun _ => I) I w -> I (snd (m w)).
Proof. unfold wp. destruct (m w) as [[a | e |] w']; exact (fun q => q). Qed.

(** A request that ends with exactly one newline, and one that ends with
    none. *)
Definition framed (e : event) : Prop :=
  match e with
  | Send data => trailing_newlines data = 1%nat
  | _ => True
  end.

Definition unframed (e : event) : Prop :=
  match e with
  | Send data => trailing_newlines data = 0%nat
  | _ => True
  end.

Definition is_print (e : event) : Prop :=
  match e with
  | Print _ _ _ => True
  | _ => False
  end.

Lemma protocol_test_framed w :
  emitted framed w (snd (TestMcpProtocol.test_mcp_protocol w)).
Proof.
  apply (wp_always _ (fun w' => emitted framed w w')).
  eapply wp_mono;
    [ apply (protocol_test_keeps _ framed (emitted_step framed w)) with (w0 := w) | | | ].
  all: try (intros; exact I).
  all: try apply dumps_line_terminated.
  - split; [repeat split | apply emitted_start].
  - intros r w' [_ [_ Hl]]. exact Hl.
  - contradiction.
  - intros w' [_ Hl]. exact Hl.
Qed.

Lemma diagnostic_framed w : emitted framed w (snd (Diagnostic.main w)).
Proof.
  apply (wp_always _ (fun w' => emitted framed w w')).
  eapply wp_mono;
    [ apply (main_spec _ framed (emitted_step framed w)) | | | ].
  all: try (intros; exact I).
  all: try apply dumps_line_terminated.
  - apply emitted_start.
  - intros r w' [_ (_ & _ & _ & Hl & _)]. exact Hl.
  - contradiction.
  - contradiction.
Qed.

Lemma raw_socket_framed w : emitted framed w (snd (RawSocket.test_raw_communication w)).
Proof.
  apply (wp_always _ (fun w' => emitted framed w w')).
  eapply wp_mono;
    [ apply (raw_communication_keeps _ framed (emitted_step framed w)) with (w0 := w) | | | ].
  all: try (intros; exact I).
  all: try apply dumps_line_terminated.
  - split; [repeat split | apply emitted_start].
  - intros r w' [_ [_ Hl]]. exact Hl.
  - contradiction.
  - contradiction.
Qed.

Lemma mcp_simple_unframed w : emitted unframed w (snd (McpSimple.test_mcp_simple w)).
Proof.
  apply (wp_always _ (fun w' => emitted unframed w w')).
  eapply wp_mono;
    [ apply (mcp_simple_keeps _ unframed (emitted_step unframed w)) with (w0 := w) | | | ].
  all: try (intros; exact I).
  all: try apply dumps_unterminated.
  - split; [repeat split | apply emitted_start].
  - intros r w' [_ [_ Hl]]. exact Hl.
  - contradiction.
  - contradiction.
Qed.

(** Every call of the raw socket test comes back. *)
Lemma raw_socket_returns w : fst (RawSocket.test_raw_communication w) = Ret VNone.
Proof.
  assert (Hwp : wp RawSocket.test_raw_communication (fun r _ => r = VNone)
                   (fun _ _ => False) (fun _ => False) w).
  { eapply wp_mono;
      [ apply (raw_communication_keeps (fun _ => True) (fun _ => True)) with (w0 := w) | | | ];
      auto.
    - repeat split.
    - intros r w' [Hr _]. exact Hr. }
  apply wp_returns in Hwp. destruct Hwp as (a & Ha & ->). exact Ha.
Qed.

(** ** The protocol test on one reply *)

Lemma test1_warns_without_result s kvs rest w :
  peer s = reply (JObj kvs) :: rest ->
  has_key "result" kvs = false ->
  wp (TestMcpProtocol.test1 s)
     (fun s' w' =>
        s' = advanced s rest /\
        In (Print Plain "Initialize response without result" []) (log w'))
     (fun _ _ => False) (fun _ => False) w.
Proof.
  intros Hp Hk. unfold TestMcpProtocol.test1, advanced, reply in *.
  wp_run. all: split; [reflexivity | in_log].
Qed.

(** A reply that is valid JSON and not an object: [response.get] raises,
    the catch-all handler ends the run, nothing more is sent. *)
Lemma protocol_test_stops_on_a_non_object w f j tail :
  files w !! socket_path = Some f ->
  backlog_full w = false ->
  is_dict j = false ->
  TestMcpProtocol.test_mcp_protocol (serving (reply j :: tail) w)
  = (Ret VNone,
     emit (Print Plain "Error testing MCP protocol: {}" [])
       (emit (Print Plain "Received initialize response" [])
          (emit (Recv 4096)
             (emit (Send (line TestMcpProtocol.initialize_request))
                (emit (Print Plain "Test 1: Initialize Request" [])
                   (emit (Print Plain "Connected to Unix socket" [])
                      (emit (Connect socket_path)
                         (set_server (server w)
                            (emit (Print Plain "Testing MCP Protocol over Unix Socket" [])
                                  w))))))))).
Proof.
  intros Hf Hb Hj. apply wp_run_eq.
  unfold TestMcpProtocol.test_mcp_protocol, TestMcpProtocol.test1, serving, reply, line.
  destruct j; try discriminate; wp_run; reflexivity.
Qed.

(** * Worlds to run the scripts in *)
Module Fixtures.

(** A Unix socket as [stat] shows it: mode [srwxr-xr-x], size 0. *)
Definition socket_file : file :=
  {| st_size := 0; st_mode := 49645; readable := true; writable := true;
     text := EmptyString; as_json := None |}.

(** A host with the server socket in place and nothing else; the server
    behaves as [connections]. *)
Definition host (connections : list connection) : world :=
  {| cwd := "/home/user"; cwd_writable := true; umask := 18; backlog_full := false;
     files := {[ socket_path := socket_file ]};
     commands := fun _ => NoSuchCommand;
     server := connections; log := [] |}.

Definition response (id : Z) (fields : list (string * json)) : json :=
  JObj (("jsonrpc", JStr "2.0") :: ("id", JNum id) :: fields).

Definition initialize_result : json :=
  JObj [("protocolVersion", JStr "2024-11-05");
        ("serverInfo", JObj [("name", JStr "nixai")])].

Definition error_object : json :=
  JObj [("code", JNum (-32603)); ("message", JStr "Internal error")].

Definition tools_result : json :=
  JObj [("tools", JArr [JObj [("name", JStr "query_nixos_docs");
                              ("description", JStr "Query NixOS documentation")]])].

Definition initialize_ok : json := response 1 [("result", initialize_result)].
Definition tools_ok : json := response 2 [("result", tools_result)].

(** A host where every check but the editor's can pass: the socket file
    has a size, the settings register the server, [pgrep] finds it. *)
Definition sized_socket : file :=
  {| st_size := 1; st_mode := 49645; readable := true; writable := true;
     text := EmptyString; as_json := None |}.

Definition settings : json :=
  JObj [("mcp.servers",
         JObj [("nixai",
                JObj [("command", JStr "socat");
                      ("args", JArr [JStr "STDIO";
                                     JStr "UNIX-CONNECT:/tmp/nixai-mcp.sock"])])])].

Definition settings_file : file :=
  {| st_size := 120; st_mode := 33188; readable := true; writable := true;
     text := EmptyString; as_json := Some settings |}.

Definition pgrep_only (argv : list string) : proc :=
  match argv with
  | "pgrep" :: _ => Exited 0 "4242"
  | _ => NoSuchCommand
  end.

Definition healthy_host_without_editor : world :=
  {| cwd := "/home/user"; cwd_writable := true; umask := 18; backlog_full := false;
     files := {[ socket_path := sized_socket;
                 "/home/user/.vscode/settings.json" := settings_file ]};
     commands := pgrep_only;
     server := [[reply initialize_ok]; [reply tools_ok]]; log := [] |}.

(** The payloads of the requests a run has sent, in order. *)
Fixpoint sends (l : list event) : list string :=
  match l with
  | [] => []
  | Send data :: rest => data :: sends rest
  | _ :: rest => sends rest
  end.

End Fixtures.

(** * The claims *)

(** ** C1 *)

(** C1, as stated, fails: a reply that carries both [result] and [error]
    passes the diagnostic's protocol check. *)
Lemma C1_result_with_error_is_accepted :
  let both := Fixtures.response 1 [("result", Fixtures.initialize_result);
                                   ("error", Fixtures.error_object)] in
  py_in "result" both = Ok true /\ py_in "error" both = Ok true /\
  fst (Diagnostic.test_mcp_protocol
         (Fixtures.host [[reply both]; [reply Fixtures.tools_ok]])) = Ret true.
Proof. vm_compute. repeat split. Qed.

(** C1, amended: the scripts look at [result] only.  A reply object
    without [result] makes the diagnostic's protocol check return
    [False], whatever else it holds, and makes the protocol test print
    its warning and go on; an [error] entry never changes the verdict,
    so a reply with both fields fares as the same reply without
    [error]. *)
Theorem C1_only_result_decides w f tail kvs :
  files w !! socket_path = Some f ->
  (has_key "result" kvs = false ->
   fst (Diagnostic.test_mcp_protocol (serving (reply (JObj kvs) :: tail) w)) = Ret false)
  /\ (forall e,
        fst (Diagnostic.test_mcp_protocol
               (serving (reply (JObj (("error", e) :: kvs)) :: tail) w))
        = fst (Diagnostic.test_mcp_protocol (serving (reply (JObj kvs) :: tail) w)))
  /\ (forall s w1,
        peer s = reply (JObj kvs) :: tail ->
        has_key "result" kvs = false ->
        fst (TestMcpProtocol.test1 s w1) = Ret (advanced s tail) /\
        In (Print Plain "Initialize response without result" [])
           (log (snd (TestMcpProtocol.test1 s w1)))).
Proof.
  intros Hf. split; [| split].
  - intros Hres. exact (diagnostic_rejects_without_result w f tail kvs Hf Hres).
  - intros e. apply (protocol_verdict_same_result w f); [exact Hf|].
    apply same_result_extra_key. discriminate.
  - intros s w1 Hp Hres.
    destruct (wp_returns _ _ _ (test1_warns_without_result s kvs tail w1 Hp Hres))
      as (s' & Hs' & -> & Hin).
    split; assumption.
Qed.

Lemma C1_only_result_decides_witness :
  files (Fixtures.host []) !! socket_path = Some Fixtures.socket_file /\
  fst (Diagnostic.test_mcp_protocol
         (serving [reply (JObj [("jsonrpc", JStr "2.0"); ("id", JNum 1)])]
                  (Fixtures.host []))) = Ret false.
Proof.
  assert (Hf : files (Fixtures.host []) !! socket_path = Some Fixtures.socket_file)
    by (vm_compute; reflexivity).
  split; [exact Hf|].
  exact (proj1 (C1_only_result_decides (Fixtures.host []) Fixtures.socket_file []
                  [("jsonrpc", JStr "2.0"); ("id", JNum 1)] Hf) eq_refl).
Defined.

(** ** C6 *)

(** C6, as stated, fails: the reply to request 1 carries id 99 and the
    diagnostic's protocol check passes. *)
Lemma C6_mismatched_id_is_accepted :
  fst (Diagnostic.test_mcp_protocol
         (Fixtures.host
            [[reply (Fixtures.response 99 [("result", Fixtures.initialize_result)])];
             [reply (Fixtures.response 77 [("result", Fixtures.tools_result)])]])) = Ret true.
Proof. vm_compute. reflexivity. Qed.

(** C6, amended: no script compares the [id] of a reply with the [id] of
    the request.  The diagnostic's verdict is the same for every [id] a
    reply may carry, and the protocol test prints the [id] it finds and
    goes on. *)
Theorem C6_response_id_is_ignored w f tail kvs :
  files w !! socket_path = Some f ->
  (forall id1 id2,
     fst (Diagnostic.test_mcp_protocol
            (serving (reply (JObj (("id", id1) :: kvs)) :: tail) w))
     = fst (Diagnostic.test_mcp_protocol
              (serving (reply (JObj (("id", id2) :: kvs)) :: tail) w)))
  /\ (forall id s w1,
        peer s = reply (JObj (("id", id) :: kvs)) :: tail ->
        has_key "result" kvs = true ->
        TestMcpProtocol.test1 s w1
        = (Ret (advanced s tail),
           emit (Print Plain "Initialize successful" [])
             (emit (Print Plain "Response ID: {}" [id])
                (emit (Print Plain "Received initialize response" [])
                   (emit (Recv 4096)
                      (emit (Send (line TestMcpProtocol.initialize_request))
                         (emit (Print Plain "Test 1: Initialize Request" []) w1))))))).
Proof.
  intros Hf. split.
  - intros id1 id2.
    transitivity (fst (Diagnostic.test_mcp_protocol (serving (reply (JObj kvs) :: tail) w))).
    + apply (protocol_verdict_same_result w f); [exact Hf|].
      apply same_result_extra_key. discriminate.
    + symmetry. apply (protocol_verdict_same_result w f); [exact Hf|].
      apply same_result_extra_key. discriminate.
  - intros id s w1 Hp Hres.
    assert (Hk : has_key "result" (("id", id) :: kvs) = true).
    { unfold has_key in *. rewrite assoc_skip by discriminate. exact Hres. }
    apply wp_run_eq. unfold TestMcpProtocol.test1, reply, line, advanced in *.
    wp_run. reflexivity.
Qed.

Lemma C6_response_id_is_ignored_witness :
  files (Fixtures.host [[reply Fixtures.tools_ok]]) !! socket_path
  = Some Fixtures.socket_file /\
  fst (Diagnostic.test_mcp_protocol
         (serving [reply (JObj [("id", JNum 99); ("result", Fixtures.initialize_result)])]
                  (Fixtures.host [[reply Fixtures.tools_ok]])))
  = fst (Diagnostic.test_mcp_protocol
           (serving [reply (JObj [("id", JNum 1); ("result", Fixtures.initialize_result)])]
                    (Fixtures.host [[reply Fixtures.tools_ok]]))).
Proof.
  assert (Hf : files (Fixtures.host [[reply Fixtures.tools_ok]]) !! socket_path
               = Some Fixtures.socket_file) by (vm_compute; reflexivity).
  split; [exact Hf|].
  exact (proj1 (C6_response_id_is_ignored (Fixtures.host [[reply Fixtures.tools_ok]])
                  Fixtures.socket_file [] [("result", Fixtures.initialize_result)] Hf)
               (JNum 99) (JNum 1)).
Defined.

(** ** C3 *)

(** C3, as stated, fails twice over.  When all three steps succeed the
    function still hands back [None], which its caller reads as a
    failure, so the result is not the conjunction of the step outcomes;
    and a reply that is valid JSON but not an object ends the run in the
    catch-all handler, with the later requests never sent. *)
Lemma C3_no_overall_result_and_abort :
  let all_good :=
    TestMcpProtocol.test_mcp_protocol
      (Fixtures.host [[reply Fixtures.initialize_ok; reply Fixtures.tools_ok;
                       reply (tool_result "nginx")]]) in
  let not_an_object :=
    TestMcpProtocol.test_mcp_protocol
      (Fixtures.host [[reply (JNum 5); reply Fixtures.tools_ok;
                       reply (tool_result "nginx")]]) in
  (fst all_good = Ret VNone /\ truthy VNone = false /\
   In (Print Plain "Initialize successful" []) (log (snd all_good)) /\
   In (Print Plain "Found {} tools:" [JNum 1]) (log (snd all_good)) /\
   In (Print Plain "Result: {}..." [JStr "nginx"]) (log (snd all_good)))
  /\ Fixtures.sends (log (snd not_an_object)) = [line TestMcpProtocol.initialize_request].
Proof.
  vm_compute. repeat split; repeat first [ left; reflexivity | right ].
Qed.

(** The loop of lines 83-84 comes to its end: every item it goes
    through has a [get] method.  The items of a list are its elements;
    those of a dict or of a string are strings, which have none. *)
Definition loop_ends (tools : json) : bool :=
  match tools with
  | JArr items => forallb is_dict items
  | JObj [] => true
  | JStr EmptyString => true
  | _ => false
  end.

(** The replies after which step 1 leaves the connection open and no
    exception on its way to the catch-all handler: a text that is not
    JSON, which the inner handler reports, and any JSON object, with or
    without [result]. *)
Definition step1_goes_on (b : bytes) : bool :=
  match b with
  | Utf8 None => true
  | Utf8 (Some (JObj _)) => true
  | _ => false
  end.

(** The same for step 2, line by line: [in] is a key test on a dict, an
    element test on a list and a substring test on a string; only a
    dict can be indexed by a string. *)
Definition step2_goes_on (b : bytes) : bool :=
  match b with
  | Utf8 None => true
  | Utf8 (Some (JObj kvs)) =>
      match assoc "result" kvs with
      | None => true
      | Some (JObj result) =>
          match assoc "tools" result with
          | None => true
          | Some tools => loop_ends tools
          end
      | Some (JArr xs) => negb (existsb (fun x => eq_str x "tools") xs)
      | Some (JStr s) => negb (contains "tools" s)
      | Some _ => false
      end
  | Utf8 (Some (JArr xs)) => negb (existsb (fun x => eq_str x "result") xs)
  | Utf8 (Some (JStr s)) => negb (contains "result" s)
  | _ => false
  end.

(** The requests of one run, from the replies to the first two. *)
Definition requests_sent (b1 b2 : bytes) : list string :=
  line TestMcpProtocol.initialize_request ::
  (if step1_goes_on b1 then
     line TestMcpProtocol.tools_request ::
     (if step2_goes_on b2 then [line TestMcpProtocol.tool_call_request] else [])
   else []).

Lemma sends_snoc (l : list event) (e : event) :
  Fixtures.sends (l ++ [e])
  = (Fixtures.sends l ++ match e with Send data => [data] | _ => [] end)%list.
Proof.
  induction l as [|x l IH]; [destruct e; reflexivity|].
  destruct x; cbn [app Fixtures.sends]; rewrite IH; reflexivity.
Qed.

(** What a log holds of requests, event by event from its end. *)
Ltac sends_done :=
  cbn [log emit set_server set_files];
  rewrite ?sends_snoc; rewrite ?app_nil_r; rewrite <- ?app_assoc; cbn [app];
  first [ reflexivity | congruence ].

(** How a step leaves the connection: open, with the exchanges still to
    come, or closed by the peer. *)
Definition left_open (goes_on : bool) (s s' : sock) (b : bytes) (rest : connection) : Prop :=
  s' = {| timeout := timeout s; peer := after_read b rest |} /\
  (goes_on = true \/ b = NoBytes).

Ltac step_leaf :=
  first [ split; [sends_done | split; [reflexivity | first [left; reflexivity | right; reflexivity]]]
        | split; [sends_done | reflexivity] ].

Lemma test1_sends s b rest w :
  peer s = Answer b :: rest ->
  wp (TestMcpProtocol.test1 s)
     (fun s' w' =>
        Fixtures.sends (log w')
        = (Fixtures.sends (log w) ++ [line TestMcpProtocol.initialize_request])%list /\
        left_open (step1_goes_on b) s s' b rest)
     (fun _ w' =>
        Fixtures.sends (log w')
        = (Fixtures.sends (log w) ++ [line TestMcpProtocol.initialize_request])%list /\
        step1_goes_on b = false)
     (fun _ => False) w.
Proof.
  intros Hp. unfold TestMcpProtocol.test1, left_open, line.
  destruct b as [| |[[| | | | |kvs]|]]; wp_run; step_leaf.
Qed.

Lemma tools_loop_sends_nothing (items : list json) w :
  wp (for_each items (fun tool =>
        let* name := lift (py_get tool "name" (JStr "unknown")) in
        say Plain "  - {}" [name]))
     (fun _ w' => Fixtures.sends (log w') = Fixtures.sends (log w) /\
                  forallb is_dict items = true)
     (fun e w' => Fixtures.sends (log w') = Fixtures.sends (log w) /\
                  forallb is_dict items = false /\ is_json_decode_error e = false)
     (fun _ => False) w.
Proof.
  revert w. induction items as [|tool items IH]; intros w.
  - split; reflexivity.
  - cbn [for_each forallb]. destruct tool; repeat wp_eval; try (repeat split; reflexivity).
    all: eapply wp_mono; [apply IH | | | auto].
    all: cbn beta; intros ? w' Hs; rewrite (proj1 Hs); split; [sends_done | apply Hs].
Qed.

Lemma loop_ends_iter (tools : json) :
  loop_ends tools
  = match py_iter tools with Ok items => forallb is_dict items | Err _ => false end.
Proof.
  destruct tools as [| | |s|xs|kvs]; try reflexivity.
  - destruct s; reflexivity.
  - destruct kvs; reflexivity.
Qed.

Lemma test2_sends s b rest w :
  peer s = Answer b :: rest ->
  wp (TestMcpProtocol.test2 s)
     (fun s' w' =>
        Fixtures.sends (log w')
        = (Fixtures.sends (log w) ++ [line TestMcpProtocol.tools_request])%list /\
        left_open (step2_goes_on b) s s' b rest)
     (fun _ w' =>
        Fixtures.sends (log w')
        = (Fixtures.sends (log w) ++ [line TestMcpProtocol.tools_request])%list /\
        step2_goes_on b = false)
     (fun _ => False) w.
Proof.
  intros Hp. unfold TestMcpProtocol.test2, left_open, line.
  destruct b as [| |[[| | |str|xs|kvs]|]]; cbn [step2_goes_on].
  1-7, 9: wp_run; cbn [negb]; step_leaf.
  destruct (assoc "result" kvs) as [result|] eqn:Hresult.
  - assert (Hr : has_key "result" kvs = true) by (unfold has_key; rewrite Hresult; reflexivity).
    destruct result as [| | |str|xs|result].
    1-5: wp_run; cbn [negb]; step_leaf.
    destruct (assoc "tools" result) as [tools|] eqn:Htools.
    + assert (Ht : has_key "tools" result = true)
        by (unfold has_key; rewrite Htools; reflexivity).
      rewrite loop_ends_iter.
      destruct tools as [| | |str|xs|tools]. 
      1-3: wp_run; cbn [negb]; step_leaf.
      all: wp_run.
      all: eapply wp_mono; [apply tools_loop_sends_nothing | | | auto]; cbn beta.
      all: try (intros u w' [Hs Hall]; repeat wp_step; rewrite Hs, Hall; step_leaf).
      all: intros e w' (Hs & Hall & ->); rewrite Hs, Hall; step_leaf.
    + assert (Ht : has_key "tools" result = false)
        by (unfold has_key; rewrite Htools; reflexivity).
      wp_run; step_leaf.
  - assert (Hr : has_key "result" kvs = false) by (unfold has_key; rewrite Hresult; reflexivity).
    wp_run; step_leaf.
Qed.

Lemma test3_sends s b rest w :
  peer s = Answer b :: rest ->
  let post w' :=
    (Fixtures.sends (log w')
     = (Fixtures.sends (log w) ++ [line TestMcpProtocol.tool_call_request])%list) in
  wp (TestMcpProtocol.test3 s) (fun _ => post) (fun _ => post) (fun _ => False) w.
Proof.
  intros Hp post. unfold TestMcpProtocol.test3, line, post.
  repeat (rewrite_known; wp_step).
  all: sends_done.
Qed.

Lemma open_after (goes_on : bytes -> bool) (b : bytes) (rest : connection) :
  goes_on b = true -> goes_on NoBytes = false -> after_read b rest = rest.
Proof. intros Hgo Hno. destruct b; [congruence | reflexivity | reflexivity]. Qed.

(** The requests of a run in which the server answers three times. *)
Lemma protocol_test_sends w f b1 b2 b3 tail :
  files w !! socket_path = Some f ->
  backlog_full w = false ->
  wp TestMcpProtocol.test_mcp_protocol
     (fun r w' =>
        r = VNone /\
        Fixtures.sends (log w') = (Fixtures.sends (log w) ++ requests_sent b1 b2)%list)
     (fun _ _ => False) (fun _ => False)
     (serving (Answer b1 :: Answer b2 :: Answer b3 :: tail) w).
Proof.
  intros Hf Hb.
  unfold TestMcpProtocol.test_mcp_protocol, serving, requests_sent.
  repeat wp_step.
  eapply wp_mono;
    [apply (test1_sends _ b1 (Answer b2 :: Answer b3 :: tail)); reflexivity | | | contradiction];
    cbn beta.
  - intros s1 w1 (Hs1 & -> & [Hgo1 | ->]).
    + rewrite Hgo1, (open_after step1_goes_on b1 _ Hgo1 eq_refl). repeat wp_step.
      eapply wp_mono;
        [apply (test2_sends _ b2 (Answer b3 :: tail)); reflexivity | | | contradiction];
        cbn beta.
      * intros s2 w2 (Hs2 & -> & [Hgo2 | ->]).
        -- rewrite Hgo2, (open_after step2_goes_on b2 _ Hgo2 eq_refl). repeat wp_step.
           eapply wp_mono; [apply (test3_sends _ b3 tail); reflexivity | | | contradiction];
             cbn beta.
           ++ intros s3 w3 Hs3. repeat wp_step. split; [reflexivity|].
              cbn [log emit]. rewrite !sends_snoc, Hs3, Hs2, Hs1. sends_done.
           ++ intros e w3 Hs3. repeat wp_step. split; [reflexivity|].
              cbn [log emit]. rewrite !sends_snoc, Hs3, Hs2, Hs1. sends_done.
        -- cbn [after_read step2_goes_on]. unfold TestMcpProtocol.test3. repeat wp_step.
           split; [reflexivity|]. cbn [log emit]. rewrite !sends_snoc, Hs2, Hs1. sends_done.
      * intros e w2 [Hs2 Hgo2]. rewrite Hgo2. repeat wp_step. split; [reflexivity|].
        cbn [log emit]. rewrite !sends_snoc, Hs2, Hs1. sends_done.
    + cbn [after_read step1_goes_on]. unfold TestMcpProtocol.test2. repeat wp_step.
      split; [reflexivity|]. cbn [log emit]. rewrite !sends_snoc, Hs1. sends_done.
  - intros e w1 [Hs1 Hgo1]. rewrite Hgo1. repeat wp_step. split; [reflexivity|].
    cbn [log emit]. rewrite !sends_snoc, Hs1. sends_done.
Qed.

(** The scenario of the claim: step 1 is answered, step 2 gets an object
    without [result], step 3 gets a tool result. *)
Lemma protocol_test_reports_each_step w f kvs1 kvs2 shown tail :
  files w !! socket_path = Some f ->
  backlog_full w = false ->
  has_key "result" kvs1 = true ->
  has_key "result" kvs2 = false ->
  wp TestMcpProtocol.test_mcp_protocol
     (fun r w' =>
        r = VNone /\
        In (Print Plain "Initialize successful" []) (log w') /\
        In (Print Plain "No tools in response" []) (log w') /\
        In (Print Plain "Result: {}..." [JStr (String.substring 0 100 shown)]) (log w') /\
        In (Print Plain "MCP Protocol Tests Complete!" []) (log w'))
     (fun _ _ => False) (fun _ => False)
     (serving (reply (JObj kvs1) :: reply (JObj kvs2) :: reply (tool_result shown) :: tail) w).
Proof.
  intros Hf Hb H1 H2.
  unfold TestMcpProtocol.test_mcp_protocol, TestMcpProtocol.test1, TestMcpProtocol.test2,
    TestMcpProtocol.test3, serving, reply, tool_result.
  wp_run.
  all: refine (conj eq_refl (conj _ (conj _ (conj _ _)))); in_log.
Qed.

(** C3, amended: the protocol test has no step outcomes and no overall
    result; it returns [None] whatever the three replies are.  A step
    whose reply is not JSON, or is an object that lacks what the step
    looks for, prints its message and the next request is sent on the
    same connection: with a first reply holding [result], a second one
    without [result] and a tool result as the third, the run prints
    "Initialize successful", "No tools in response", the tool's text and
    "MCP Protocol Tests Complete!".  A step ends the run, in the
    catch-all handler, when its reply raises anything but
    [JSONDecodeError] or is empty, the peer having closed: the requests
    sent are [initialize], then [tools/list] exactly when
    [step1_goes_on] holds of the first reply, then [tools/call] exactly
    when [step2_goes_on] also holds of the second.  After a first reply
    that is valid JSON and not an object the log is the one given. *)
Theorem C3_later_steps_run_unless_a_reply_raises w f tail :
  files w !! socket_path = Some f ->
  backlog_full w = false ->
  (forall b1 b2 b3,
     let run :=
       TestMcpProtocol.test_mcp_protocol
         (serving (Answer b1 :: Answer b2 :: Answer b3 :: tail) w) in
     fst run = Ret VNone /\
     Fixtures.sends (log (snd run)) = (Fixtures.sends (log w) ++ requests_sent b1 b2)%list)
  /\ (forall kvs1 kvs2 shown,
        has_key "result" kvs1 = true ->
        has_key "result" kvs2 = false ->
        let run :=
          TestMcpProtocol.test_mcp_protocol
            (serving (reply (JObj kvs1) :: reply (JObj kvs2) :: reply (tool_result shown)
                        :: tail) w) in
        In (Print Plain "Initialize successful" []) (log (snd run)) /\
        In (Print Plain "No tools in response" []) (log (snd run)) /\
        In (Print Plain "Result: {}..." [JStr (String.substring 0 100 shown)])
           (log (snd run)) /\
        In (Print Plain "MCP Protocol Tests Complete!" []) (log (snd run)))
  /\ (forall j,
        is_dict j = false ->
        TestMcpProtocol.test_mcp_protocol (serving (reply j :: tail) w)
        = (Ret VNone,
           emit (Print Plain "Error testing MCP protocol: {}" [])
             (emit (Print Plain "Received initialize response" [])
                (emit (Recv 4096)
                   (emit (Send (line TestMcpProtocol.initialize_request))
                      (emit (Print Plain "Test 1: Initialize Request" [])
                         (emit (Print Plain "Connected to Unix socket" [])
                            (emit (Connect socket_path)
                               (set_server (server w)
                                  (emit (Print Plain
                                           "Testing MCP Protocol over Unix Socket" [])
                                        w)))))))))).
Proof.
  intros Hf Hb. split; [| split].
  - intros b1 b2 b3 run.
    destruct (wp_returns _ _ _ (protocol_test_sends w f b1 b2 b3 tail Hf Hb))
      as (r & Hr & -> & Hs).
    split; assumption.
  - intros kvs1 kvs2 shown H1 H2 run.
    destruct (wp_returns _ _ _
                (protocol_test_reports_each_step w f kvs1 kvs2 shown tail Hf Hb H1 H2))
      as (r & _ & _ & Hlog).
    exact Hlog.
  - intros j Hj. exact (protocol_test_stops_on_a_non_object w f j tail Hf Hb Hj).
Qed.

Lemma C3_later_steps_run_unless_a_reply_raises_witness :
  let w := Fixtures.host [] in
  let kvs1 := [("jsonrpc", JStr "2.0"); ("id", JNum 1); ("result", JObj [])] in
  let kvs2 := [("jsonrpc", JStr "2.0"); ("id", JNum 2);
               ("error", JObj [("code", JNum (-32601))])] in
  let run :=
    TestMcpProtocol.test_mcp_protocol
      (serving [reply (JObj kvs1); reply (JObj kvs2); reply (tool_result "nginx")] w) in
  files w !! socket_path = Some Fixtures.socket_file /\
  backlog_full w = false /\
  fst run = Ret VNone /\
  Fixtures.sends (log (snd run))
  = [line TestMcpProtocol.initialize_request; line TestMcpProtocol.tools_request;
     line TestMcpProtocol.tool_call_request] /\
  In (Print Plain "No tools in response" []) (log (snd run)) /\
  In (Print Plain "Result: {}..." [JStr "nginx"]) (log (snd run)).
Proof.
  intros w kvs1 kvs2 run.
  assert (Hf : files w !! socket_path = Some Fixtures.socket_file)
    by (vm_compute; reflexivity).
  assert (Hb : backlog_full w = false) by reflexivity.
  destruct (C3_later_steps_run_unless_a_reply_raises w Fixtures.socket_file [] Hf Hb)
    as (Hsends & Hprints & _).
  destruct (Hsends (Utf8 (Some (JObj kvs1))) (Utf8 (Some (JObj kvs2)))
              (Utf8 (Some (tool_result "nginx")))) as [Hr Hs].
  destruct (Hprints kvs1 kvs2 "nginx" eq_refl eq_refl) as (_ & Hno & Hres & _).
  repeat split; assumption.
Defined.
(** ** C2 *)

(** A host with nothing on it: no socket, no commands, no settings, a
    read-only working directory. *)
Definition bare_host : world :=
  {| cwd := "/home/user"; cwd_writable := false; umask := 18; backlog_full := false;
     files := ∅; commands := fun _ => NoSuchCommand; server := []; log := [] |}.

(** C2, as stated, fails: on a host where all six checks of the
    diagnostic fail, the diagnostic still ends with status 0. *)
Lemma C2_diagnostic_exits_zero_when_all_checks_fail :
  match fst (Diagnostic.run_checks bare_host) with
  | Ret results =>
      size results = 6%nat /\ List.filter (fun b => b) (Diagnostic.values results) = []
  | _ => False
  end
  /\ exit_plain (fst (Diagnostic.main bare_host)) = Some 0%Z.
Proof. vm_compute. repeat split. Qed.

(** The five tests of lines 73-82, in the order [main] runs them. *)
Definition mcp_tests (modules : string -> option McpMain.pymodule) (here : string)
  : list (string * M pyval) :=
  [("Simple Socket Test", McpMain.run_python_test modules "tests.mcp.test_simple_socket");
   ("Raw Socket Test", McpMain.run_python_test modules "tests.mcp.test_raw_socket");
   ("MCP Simple Test", McpMain.run_python_test modules "tests.mcp.test_mcp_simple");
   ("MCP Protocol Test", McpMain.run_python_test modules "tests.mcp.test_mcp_protocol");
   ("MCP Server Test", McpMain.run_shell_test (path_join here "test-mcp-server.sh"))].

(** What [run_test] prints about a verdict. *)
Definition verdict_line (passed : bool) : string :=
  if passed then "{} PASSED" else "{} FAILED".

(** [ran tests w verdicts w']: started in [w], the tests were called one
    after the other, each after its own "Running test" line, each came
    back, and [verdicts] are the truth values of what they returned;
    [w'] is the world after the last separator. *)
Inductive ran : list (string * M pyval) -> world -> list bool -> world -> Prop :=
  | ran_none w : ran [] w [] w
  | ran_one name test tests w v w1 verdicts w' :
      test (emit (Print Plain "Running test: {}" [JStr name]) w) = (Ret v, w1) ->
      ran tests
          (emit (Print Plain "----------------------------------------" [])
             (emit (Print Plain (verdict_line (truthy v)) [JStr name]) w1))
          verdicts w' ->
      ran ((name, test) :: tests) w (truthy v :: verdicts) w'.

Definition passes (verdicts : list bool) : nat := length (List.filter (fun v => v) verdicts).
Definition failures (verdicts : list bool) : nat := length (List.filter negb verdicts).

Lemma run_test_verdict name (test : M pyval) passed failed w :
  (forall w', wp test (fun _ _ => True) (fun _ _ => False) (fun _ => True) w') ->
  wp (McpMain.run_test name test (passed, failed))
     (fun counters w' =>
        exists v w1,
          test (emit (Print Plain "Running test: {}" [JStr name]) w) = (Ret v, w1) /\
          w' = emit (Print Plain "----------------------------------------" [])
                 (emit (Print Plain (verdict_line (truthy v)) [JStr name]) w1) /\
          counters = (passed + passes [truthy v], failed + failures [truthy v])%nat)
     (fun _ _ => False) (fun _ => True) w.
Proof.
  intros Hsafe. specialize (Hsafe (emit (Print Plain "Running test: {}" [JStr name]) w)).
  unfold wp in *. unfold McpMain.run_test, bind, say, ret.
  destruct (test (emit (Print Plain "Running test: {}" [JStr name]) w)) as [[v | e |] w1];
    cbv beta iota in Hsafe |- *; [| contradiction | exact I].
  destruct (truthy v) eqn:Hv; cbv beta iota; exists v, w1; rewrite Hv;
    (split; [reflexivity | split; [reflexivity|]];
     unfold passes, failures; cbn [List.filter negb length]; f_equal; lia).
Qed.

(** The counters are the numbers of true and of false verdicts. *)
Lemma run_all_verdicts modules here w :
  wp (McpMain.run_all modules here)
     (fun counters w' =>
        exists verdicts,
          ran (mcp_tests modules here) w verdicts w' /\
          counters = (passes verdicts, failures verdicts))
     (fun _ _ => False) (fun _ => True) w.
Proof.
  unfold McpMain.run_all, mcp_tests. cbv zeta.
  apply wp_bind. eapply wp_mono;
    [apply run_test_verdict; intros; apply run_python_test_safe | | auto | auto].
  intros c1 w1 (v1 & u1 & T1 & -> & ->).
  apply wp_bind. eapply wp_mono;
    [apply run_test_verdict; intros; apply run_python_test_safe | | auto | auto].
  intros c2 w2 (v2 & u2 & T2 & -> & ->).
  apply wp_bind. eapply wp_mono;
    [apply run_test_verdict; intros; apply run_python_test_safe | | auto | auto].
  intros c3 w3 (v3 & u3 & T3 & -> & ->).
  apply wp_bind. eapply wp_mono;
    [apply run_test_verdict; intros; apply run_python_test_safe | | auto | auto].
  intros c4 w4 (v4 & u4 & T4 & -> & ->).
  eapply wp_mono;
    [apply run_test_verdict; intros; apply run_shell_test_safe | | auto | auto].
  intros c5 w5 (v5 & u5 & T5 & -> & ->).
  exists [truthy v1; truthy v2; truthy v3; truthy v4; truthy v5]. split.
  - repeat (eapply ran_one; [eassumption|]). apply ran_none.
  - destruct (truthy v1), (truthy v2), (truthy v3), (truthy v4), (truthy v5); reflexivity.
Qed.

Lemma ran_length tests w verdicts w' :
  ran tests w verdicts w' -> length verdicts = length tests.
Proof. intros Hran. induction Hran; cbn; congruence. Qed.

Lemma no_failures_iff (verdicts : list bool) :
  (failures verdicts =? 0)%nat = forallb (fun v => v) verdicts.
Proof.
  induction verdicts as [|v verdicts IH]; [reflexivity|].
  destruct v; [exact IH | reflexivity].
Qed.

Lemma runner_main_spec modules here w :
  wp (McpMain.main modules here)
     (fun r w' =>
        exists verdicts w1,
          ran (mcp_tests modules here) (emit (Print Header "Running All MCP Tests" []) w)
              verdicts w1 /\
          summary (passes verdicts) (failures verdicts) (log w') /\
          r = VBool (forallb (fun v => v) verdicts))
     (fun _ _ => False) (fun _ => True) w.
Proof.
  unfold McpMain.main. repeat wp_step.
  eapply wp_mono; [apply run_all_verdicts | | auto | auto].
  intros counters w1 (verdicts & Hran & ->).
  repeat wp_step. exists verdicts, w1.
  split; [exact Hran | split; [| rewrite no_failures_iff; reflexivity]].
  exists (log w1). cbn [log emit]. rewrite <- !app_assoc. reflexivity.
Qed.

(** C2, amended: the test runner calls its five tests in order; when
    all of them come back it ends with status 0 exactly when every one
    of the five returned a true value and with status 1 otherwise, the
    counters it prints being the numbers of true and of false verdicts;
    it has no status only when a test never comes back.  The diagnostic
    takes no status from its checks: it ends as the run of its six
    checks ends, with status 0 when they come back, whatever the
    results. *)
Theorem C2_exit_status modules here w :
  (let run := McpMain.main modules here w in
   match exit_on_success (fst run) with
   | Some status =>
       exists verdicts w',
         ran (mcp_tests modules here) (emit (Print Header "Running All MCP Tests" []) w)
             verdicts w' /\
         length verdicts = 5%nat /\
         summary (passes verdicts) (failures verdicts) (log (snd run)) /\
         (status = 0%Z <-> forall v, In v verdicts -> v = true) /\
         (status = 1%Z <-> exists v, In v verdicts /\ v = false)
   | None => fst run = Hang
   end)
  /\ (let started := emit (Print Plain "VS Code MCP Integration Diagnostic Tool" []) w in
      match fst (Diagnostic.run_checks started) with
      | Ret results => exit_plain (fst (Diagnostic.main w)) = Some 0%Z
      | Raise _ => exit_plain (fst (Diagnostic.main w)) = Some 1%Z
      | Hang => exit_plain (fst (Diagnostic.main w)) = None
      end).
Proof.
  split.
  - cbv zeta. pose proof (wp_elim _ _ _ _ _ (runner_main_spec modules here w)) as Hrun.
    destruct (fst (McpMain.main modules here w)) as [r | e |]; cbn [exit_on_success].
    + destruct Hrun as (verdicts & w' & Hran & Hlog & ->).
      exists verdicts, w'. split; [exact Hran|].
      split; [exact (ran_length _ _ _ _ Hran)|].
      split; [exact Hlog|]. cbn [truthy].
      destruct (forallb (fun v => v) verdicts) eqn:Hall.
      * rewrite forallb_forall in Hall. split; [split; [intros _; exact Hall | reflexivity]|].
        split; [discriminate|]. intros (v & Hin & ->). specialize (Hall _ Hin). discriminate.
      * assert (Hex : exists v, In v verdicts /\ v = false).
        { apply Bool.not_true_iff_false in Hall. rewrite forallb_forall in Hall.
          destruct (existsb negb verdicts) eqn:Hneg.
          - apply existsb_exists in Hneg. destruct Hneg as (v & Hin & Hv).
            exists v. split; [exact Hin | destruct v; [discriminate | reflexivity]].
          - exfalso. apply Hall. intros v Hin.
            destruct v; [reflexivity|].
            assert (existsb negb verdicts = true)
              by (apply existsb_exists; exists false; split; [exact Hin | reflexivity]).
            congruence. }
        split; [split; [discriminate|] | split; [intros _; exact Hex | reflexivity]].
        intros Hall'. destruct Hex as (v & Hin & ->). specialize (Hall' _ Hin). discriminate.
    + contradiction.
    + reflexivity.
  - cbv zeta.
    assert (Hmain : wp Diagnostic.main (fun _ _ => True) (fun _ _ => False) (fun _ => False) w).
    { eapply wp_mono;
        [ apply (main_spec (fun _ => True) (fun _ => True)) | | | ]; auto. }
    apply wp_returns in Hmain. destruct Hmain as (r & Hr & _).
    unfold Diagnostic.main, bind, say in Hr. cbn [fst] in Hr.
    unfold Diagnostic.main, bind, say.
    destruct (Diagnostic.run_checks
                (emit (Print Plain "VS Code MCP Integration Diagnostic Tool" []) w))
      as [[results | e |] w1]; cbn [fst] in *.
    + rewrite Hr. reflexivity.
    + reflexivity.
    + reflexivity.
Qed.

(** ** C4 *)

(** C4, on the code: the server accepts the connection and never
    answers.  The protocol test, which sets no timeout, never comes back
    from its first [recv]; the raw socket test, which sets one, reports
    the timeout and returns. *)
Theorem C4_protocol_test_blocks_on_a_silent_server :
  let w := Fixtures.host [[Silence]] in
  fst (TestMcpProtocol.test_mcp_protocol w) = Hang /\
  Fixtures.sends (log (snd (TestMcpProtocol.test_mcp_protocol w)))
  = [line TestMcpProtocol.initialize_request] /\
  fst (RawSocket.test_raw_communication w) = Ret VNone /\
  In (Print Plain "Connection timed out waiting for response" [])
     (log (snd (RawSocket.test_raw_communication w))).
Proof.
  vm_compute. repeat split; repeat first [ left; reflexivity | right ].
Qed.

(** ** C5 *)

(** C5, as stated, fails: the request of [test_mcp_simple] goes out as
    [json.dumps] left it, with no newline at its end. *)
Lemma C5_simple_test_sends_no_newline :
  let run := McpSimple.test_mcp_simple (Fixtures.host [[reply Fixtures.initialize_ok]]) in
  Fixtures.sends (log (snd run)) = [json_dumps McpSimple.request] /\
  trailing_newlines (json_dumps McpSimple.request) = 0%nat.
Proof. vm_compute. split; reflexivity. Qed.

(** C5, amended: [json.dumps] never ends its text with a newline, and a
    request line is that text followed by one newline.  Every request of
    the protocol test, of the diagnostic and of the raw socket test is
    such a line; the request of [test_mcp_simple] is sent without any
    newline at its end. *)
Theorem C5_request_framing :
  (forall j, trailing_newlines (json_dumps j) = 0%nat /\ trailing_newlines (line j) = 1%nat)
  /\ (forall w, emitted framed w (snd (TestMcpProtocol.test_mcp_protocol w)))
  /\ (forall w, emitted framed w (snd (Diagnostic.main w)))
  /\ (forall w, emitted framed w (snd (RawSocket.test_raw_communication w)))
  /\ (forall w, emitted unframed w (snd (McpSimple.test_mcp_simple w))).
Proof.
  split; [| split; [| split; [| split]]].
  - intros j. split; [apply dumps_unterminated | apply dumps_line_terminated].
  - exact protocol_test_framed.
  - exact diagnostic_framed.
  - exact raw_socket_framed.
  - exact mcp_simple_unframed.
Qed.

(** ** C7 *)

Ltac emitted_done :=
  eexists; split;
  [ cbn [log emit set_server set_files]; rewrite <- ?app_assoc; reflexivity
  | repeat constructor ].

Lemma check_unix_socket_spec w :
  wp Diagnostic.check_unix_socket
     (fun r w' =>
        (r = true <-> exists f, files w !! socket_path = Some f /\ st_size f <> 0%Z) /\
        server w' = server w /\ emitted is_print w w')
     (fun _ _ => False) (fun _ => False) w.
Proof.
  unfold Diagnostic.check_unix_socket, Diagnostic.print_header, Diagnostic.print_success,
    Diagnostic.print_error, Diagnostic.print_warning.
  repeat wp_step.
  all: split; [| split; [reflexivity | emitted_done]].
  all: split; [intros Hr; try discriminate | intros (f' & Hf' & Hs)]; simplify_eq.
  all: try (apply Z.eqb_eq in Heqb; contradiction).
  all: try (eexists; split; [reflexivity | apply Z.eqb_neq; assumption]).
  all: try reflexivity.
Qed.

(** C7, as stated, fails: the socket file has size 0, as a socket has,
    and the server behind it answers; the socket check fails on the size
    alone while the protocol check on the same host passes. *)
Lemma C7_zero_size_fails_a_live_socket :
  let w := Fixtures.host [[reply Fixtures.initialize_ok]; [reply Fixtures.tools_ok]] in
  fst (Diagnostic.check_unix_socket w) = Ret false /\
  In (Print Warning "Socket file exists but has zero size: {}" [JStr socket_path])
     (log (snd (Diagnostic.check_unix_socket w))) /\
  fst (Diagnostic.test_mcp_protocol w) = Ret true.
Proof.
  vm_compute. repeat split; repeat first [ left; reflexivity | right ].
Qed.

(** C7, amended: the socket check passes exactly when the path exists
    and the size [os.path.getsize] reports for it is not 0.  It looks at
    the permission bits only to print a warning, and it never connects:
    all it does is print, and the connections the server offers are
    untouched. *)
Theorem C7_socket_check_criteria w :
  let run := Diagnostic.check_unix_socket w in
  (fst run = Ret true <->
   exists f, files w !! socket_path = Some f /\ st_size f <> 0%Z) /\
  server (snd run) = server w /\
  emitted is_print w (snd run).
Proof.
  cbv zeta. pose proof (wp_returns _ _ _ (check_unix_socket_spec w)) as (r & Hr & Hiff & Hs & He).
  rewrite Hr. split; [| split; assumption].
  rewrite <- Hiff. split; [intros [= ->]; reflexivity | intros ->; reflexivity].
Qed.

(** ** C8 *)

Lemma all_values_false (results : gmap string bool) (key : string) :
  results !! key = Some false -> Diagnostic.all_values results = false.
Proof.
  intros Hkey. unfold Diagnostic.all_values, Diagnostic.values.
  destruct (forallb (fun b => b) (map snd (map_to_list results))) eqn:Hall; [|reflexivity].
  rewrite forallb_forall in Hall.
  symmetry. apply (Hall false).
  apply (in_map snd (map_to_list results) (key, false)).
  apply list_elem_of_In, elem_of_map_to_list, Hkey.
Qed.

Lemma results_lookup_extensions r1 r2 r3 r4 r5 r6 :
  results_of r1 r2 r3 r4 r5 r6 !! "vscode_extensions" = Some r5.
Proof.
  unfold results_of. rewrite lookup_insert_ne by discriminate.
  apply lookup_insert_eq.
Qed.

(** C8, as stated, fails: on a host where every other check passes and
    the editor's command is absent, the extension check answers [False]
    like a failed check, and the summary no longer says that all checks
    passed. *)
Lemma C8_missing_editor_fails_the_summary :
  let w := Fixtures.healthy_host_without_editor in
  commands w code_argv = NoSuchCommand /\
  fst (Diagnostic.check_vscode_extensions w) = Ret false /\
  match fst (Diagnostic.run_checks w) with
  | Ret results =>
      results !! "vscode_extensions" = Some false /\
      length (List.filter (fun b => b) (Diagnostic.values results)) = 5%nat /\
      Diagnostic.all_values results = false
  | _ => False
  end /\
  In (Print Plain "Some checks failed. Follow recommendations above to fix issues." [])
     (log (snd (Diagnostic.main w))).
Proof.
  vm_compute. repeat split; repeat first [ left; reflexivity | right ].
Qed.

(** C8, amended: when the editor's extension-listing command cannot be
    run, the extension check returns [False], the value of a failed
    check; the entry [vscode_extensions] of the results is [False] and
    [all(results.values())] is false.  There is no skipped outcome. *)
Theorem C8_missing_editor_counts_as_failure w :
  commands w code_argv = NoSuchCommand ->
  fst (Diagnostic.check_vscode_extensions w) = Ret false /\
  exists results,
    fst (Diagnostic.run_checks w) = Ret results /\
    results !! "vscode_extensions" = Some false /\
    Diagnostic.all_values results = false.
Proof.
  intros Hcmd.
  assert (Hverdict : extensions_verdict w = false).
  { unfold extensions_verdict. rewrite Hcmd. reflexivity. }
  split.
  - assert (Hwp : wp Diagnostic.check_vscode_extensions (fun r _ => r = false)
                     (fun _ _ => False) (fun _ => False) w).
    { eapply wp_mono;
        [ apply (check_vscode_extensions_keeps (fun _ => True) (fun _ => True))
            with (w0 := w) | | | ]; auto.
      - repeat split.
      - intros r w' [-> _]. exact Hverdict. }
    apply wp_returns in Hwp. destruct Hwp as (r & -> & ->). reflexivity.
  - assert (Hwp : wp Diagnostic.run_checks
                     (fun results _ =>
                        exists r1 r2 r3 r4,
                          results = results_of r1 r2 r3 r4 (extensions_verdict w)
                                               (may_write w Diagnostic.test_file))
                     (fun _ _ => False) (fun _ => False) w).
    { eapply wp_mono;
        [ apply (run_checks_spec (fun _ => True) (fun _ => True)) | | | ]; auto.
      intros results w' [_ Hres]. exact Hres. }
    apply wp_returns in Hwp. destruct Hwp as (results & Hr & r1 & r2 & r3 & r4 & ->).
    rewrite Hverdict in *.
    eexists. split; [exact Hr|].
    split; [apply results_lookup_extensions|].
    apply (all_values_false _ "vscode_extensions"), results_lookup_extensions.
Qed.

Lemma C8_missing_editor_counts_as_failure_witness :
  commands bare_host code_argv = NoSuchCommand /\
  fst (Diagnostic.check_vscode_extensions bare_host) = Ret false.
Proof.
  split; [reflexivity|].
  exact (proj1 (C8_missing_editor_counts_as_failure bare_host eq_refl)).
Defined.

(** ** C9 *)

(** A check that only reads: however it ends, the files are as before. *)
Definition read_only {A} (m : M A) (w : world) : Prop :=
  files (snd (m w)) = files w.

Lemma read_only_intro {A} (m : M A) (Q : A -> Prop) w :
  wp m (fun a w' => Q a /\ keeps (fun _ => True) w w') (fun _ _ => False) (fun _ => False) w ->
  read_only m w.
Proof.
  intros Hwp. apply wp_returns in Hwp.
  destruct Hwp as (a & Ha & _ & (_ & _ & _ & _ & _ & Hf) & _). exact Hf.
Qed.

Lemma keeps_trivial w : keeps (fun _ => True) w w.
Proof. repeat split. Qed.

(** C9, as stated, fails: the run of the diagnostic leaves a file behind
    that was not there before. *)
Lemma C9_run_creates_the_test_file :
  let w := Fixtures.host [] in
  let path := "/home/user/test-mcp-integration.nix" in
  files w !! path = None /\
  match files (snd (Diagnostic.main w)) !! path with
  | Some f => text f = Diagnostic.test_file_content
  | None => False
  end.
Proof. vm_compute. split; reflexivity. Qed.

(** C9, amended: the five checks of the host (server process, socket,
    protocol, settings, extensions) leave every file as it was.  The run
    as a whole writes to one path, [test-mcp-integration.nix] in the
    working directory, and to no other.  A file that is already there is
    rewritten when the process may write to it, whatever the directory
    allows, and keeps its mode; when there is none, one is created when
    the process may write to the directory, with the mode the umask
    leaves.  In the two other cases no file changes. *)
Theorem C9_only_the_test_file_is_written w :
  read_only Diagnostic.check_mcp_server_running w /\
  read_only Diagnostic.check_unix_socket w /\
  read_only Diagnostic.test_mcp_protocol w /\
  read_only Diagnostic.check_vscode_config w /\
  read_only Diagnostic.check_vscode_extensions w /\
  (let w' := snd (Diagnostic.main w) in
   let path := path_join (cwd w) Diagnostic.test_file in
   match files w !! path with
   | Some old =>
       files w' = if writable old
                  then <[path := rewritten_file old Diagnostic.test_file_content None]> (files w)
                  else files w
   | None =>
       files w' = if cwd_writable w
                  then <[path := created_file w Diagnostic.test_file_content None]> (files w)
                  else files w
   end) /\
  (forall p,
     p <> path_join (cwd w) Diagnostic.test_file ->
     files (snd (Diagnostic.main w)) !! p = files w !! p).
Proof.
  assert (Hmain : files (snd (Diagnostic.main w))
                  = if may_write w Diagnostic.test_file
                    then <[path_join (cwd w) Diagnostic.test_file
                           := written_file w Diagnostic.test_file
                                Diagnostic.test_file_content None]> (files w)
                    else files w).
  { assert (Hwp : wp Diagnostic.main
                     (fun _ w' => wrote_test_file (fun _ => True) w w')
                     (fun _ _ => False) (fun _ => False) w).
    { eapply wp_mono; [ apply (main_spec (fun _ => True) (fun _ => True)) | | | ]; auto.
      intros r w' [_ Hw]. exact Hw. }
    apply wp_returns in Hwp. destruct Hwp as (r & _ & _ & _ & _ & _ & Hfiles).
    exact Hfiles. }
  split; [| split; [| split; [| split; [| split; [| split]]]]].
  - apply (read_only_intro _ (fun _ => True)). eapply wp_mono;
      [ apply (check_mcp_server_running_keeps (fun _ => True) (fun _ => True)) with (w0 := w)
      | | | ]; auto using keeps_trivial.
  - apply (read_only_intro _ (fun _ => True)). eapply wp_mono;
      [ apply (check_unix_socket_keeps (fun _ => True) (fun _ => True)) with (w0 := w)
      | | | ]; auto using keeps_trivial.
  - apply (read_only_intro _ (fun _ => True)). eapply wp_mono;
      [ apply (test_mcp_protocol_keeps (fun _ => True) (fun _ => True)) with (w0 := w)
      | | | ]; auto using keeps_trivial.
  - apply (read_only_intro _ (fun _ => True)). eapply wp_mono;
      [ apply (check_vscode_config_keeps (fun _ => True) (fun _ => True)) with (w0 := w)
      | | | ]; auto using keeps_trivial.
  - apply (read_only_intro _ (fun r => r = extensions_verdict w)).
    apply (check_vscode_extensions_keeps (fun _ => True) (fun _ => True));
      auto using keeps_trivial.
  - cbv zeta. rewrite Hmain. unfold may_write, written_file.
    change (resolve w Diagnostic.test_file) with (path_join (cwd w) Diagnostic.test_file).
    destruct (files w !! path_join (cwd w) Diagnostic.test_file) as [old|]; reflexivity.
  - intros p Hp. rewrite Hmain.
    destruct (may_write w Diagnostic.test_file); [|reflexivity].
    apply lookup_insert_ne. congruence.
Qed.

(** ** C10 *)

Lemma installed_iff (extensions : list string) (ext_id : string) :
  Diagnostic.installed extensions ext_id = true <->
  exists e, In e extensions /\ lower e = lower ext_id.
Proof.
  unfold Diagnostic.installed. rewrite existsb_exists.
  split; intros (e & Hin & He); exists e; (split; [exact Hin|]).
  - apply String.eqb_eq, He.
  - apply String.eqb_eq, He.
Qed.

Lemma found_extensions_iff (extensions : list string) :
  (0 <? length (Diagnostic.found_extensions extensions))%nat = true <->
  exists ext, In ext Diagnostic.required_extensions /\
              Diagnostic.installed extensions (fst ext) = true.
Proof.
  unfold Diagnostic.found_extensions. rewrite length_map.
  rewrite Nat.ltb_lt. split.
  - intros Hlen.
    destruct (List.filter _ Diagnostic.required_extensions) as [|ext rest] eqn:Hfilter;
      [simpl in Hlen; lia|].
    assert (Hin : In ext (List.filter
                            (fun ext => Diagnostic.installed extensions (fst ext))
                            Diagnostic.required_extensions))
      by (rewrite Hfilter; left; reflexivity).
    apply filter_In in Hin. exists ext. exact Hin.
  - intros (ext & Hin & Hinst).
    assert (Hf : In ext (List.filter
                           (fun ext => Diagnostic.installed extensions (fst ext))
                           Diagnostic.required_extensions))
      by (apply filter_In; split; assumption).
    destruct (List.filter _ Diagnostic.required_extensions); [contradiction | simpl; lia].
Qed.

(** C10: the extension check returns [True] exactly when the editor
    listed its extensions (status 0) and at least one of the three
    required identifiers occurs in the listing, letter case aside; one
    of the three is enough. *)
Theorem C10_one_extension_suffices :
  (forall w,
     fst (Diagnostic.check_vscode_extensions w) = Ret true <->
     exists stdout,
       commands w code_argv = Exited 0 stdout /\
       exists ext e,
         In ext Diagnostic.required_extensions /\
         In e (splitlines stdout) /\ lower e = lower (fst ext))
  /\ (forall w,
        commands w code_argv
        = Exited 0 ("ms-python.python" ++ str1 LF ++ "SaoudRizwan.Claude-Dev" ++ str1 LF) ->
        fst (Diagnostic.check_vscode_extensions w) = Ret true).
Proof.
  assert (Hmain : forall w,
     fst (Diagnostic.check_vscode_extensions w) = Ret true <->
     exists stdout,
       commands w code_argv = Exited 0 stdout /\
       exists ext e,
         In ext Diagnostic.required_extensions /\
         In e (splitlines stdout) /\ lower e = lower (fst ext)).
  { intros w.
    assert (Hwp : wp Diagnostic.check_vscode_extensions
                     (fun r _ => r = extensions_verdict w)
                     (fun _ _ => False) (fun _ => False) w).
    { eapply wp_mono;
        [ apply (check_vscode_extensions_keeps (fun _ => True) (fun _ => True))
            with (w0 := w) | | | ]; auto using keeps_trivial.
      intros r w' [Hr _]. exact Hr. }
    apply wp_returns in Hwp. destruct Hwp as (r & -> & ->).
    unfold extensions_verdict. split.
    - intros [= Hv]. destruct (commands w code_argv) as [|rc out]; [discriminate|].
      destruct rc; try discriminate.
      exists out. split; [reflexivity|].
      apply found_extensions_iff in Hv. destruct Hv as (ext & Hin & Hinst).
      apply installed_iff in Hinst. destruct Hinst as (e & He & Hl).
      exists ext, e. auto.
    - intros (out & -> & ext & e & Hin & He & Hl). f_equal.
      apply found_extensions_iff. exists ext. split; [exact Hin|].
      apply installed_iff. exists e. auto. }
  split; [exact Hmain|].
  intros w Hcmd. apply Hmain. eexists. split; [exact Hcmd|].
  exists ("saoudrizwan.claude-dev", "Claude Dev (Cline)"), "SaoudRizwan.Claude-Dev".
  split; [right; right; left; reflexivity|].
  split; [vm_compute; right; left; reflexivity | reflexivity].
Qed.

Lemma C10_one_extension_suffices_witness :
  let w := {| cwd := "/home/user"; cwd_writable := false; umask := 18;
              backlog_full := false; files := ∅;
              commands := fun _ =>
                Exited 0 ("ms-python.python" ++ str1 LF ++ "SaoudRizwan.Claude-Dev"
                            ++ str1 LF);
              server := []; log := [] |} in
  fst (Diagnostic.check_vscode_extensions w) = Ret true.
Proof.
  intros w. exact (proj2 C10_one_extension_suffices w eq_refl).
Defined.

(** * Further properties of the scripts *)

(** ** Induction on Python values *)

Section JsonInduction.

Variable P : json -> Prop.
Hypothesis P_null : P JNull.
Hypothesis P_bool : forall b, P (JBool b).
Hypothesis P_num : forall n, P (JNum n).
Hypothesis P_str : forall s, P (JStr s).
Hypothesis P_arr : forall xs, Forall P xs -> P (JArr xs).
Hypothesis P_obj : forall kvs, Forall (fun kv => P (snd kv)) kvs -> P (JObj kvs).

Fixpoint json_induction (j : json) : P j :=
  match j with
  | JNull => P_null
  | JBool b => P_bool b
  | JNum n => P_num n
  | JStr s => P_str s
  | JArr xs =>
      P_arr xs
        ((fix items (l : list json) : Forall P l :=
            match l with
            | [] => @List.Forall_nil json P
            | x :: rest => @List.Forall_cons json P x rest (json_induction x) (items rest)
            end) xs)
  | JObj kvs =>
      P_obj kvs
        ((fix entries (l : list (string * json)) : Forall (fun kv => P (snd kv)) l :=
            match l with
            | [] => @List.Forall_nil (string * json) (fun kv => P (snd kv))
            | kv :: rest =>
                @List.Forall_cons (string * json) (fun kv => P (snd kv)) kv rest
                  (json_induction (snd kv)) (entries rest)
            end) kvs)
  end.

End JsonInduction.

(** ** [json.dumps] writes printable ASCII only *)

(** A character between the space and the tilde. *)
Definition printable (c : ascii) : bool :=
  let n := nat_of_ascii c in ((32 <=? n) && (n <=? 126))%nat.

Definition all_printable (s : string) : Prop :=
  Forall (fun c => printable c = true) (list_ascii_of_string s).

Lemma all_printable_app (s t : string) :
  all_printable s -> all_printable t -> all_printable (s ++ t).
Proof.
  unfold all_printable. rewrite list_ascii_app. intros Hs Ht.
  apply Forall_app. split; assumption.
Qed.

Lemma all_printable_cons (c : ascii) (s : string) :
  printable c = true -> all_printable s -> all_printable (String c s).
Proof. intros Hc Hs. constructor; assumption. Qed.

Lemma escape_char_printable (c : ascii) : all_printable (escape_char c).
Proof.
  assert (Hb : forallb printable (list_ascii_of_string (escape_char c)) = true)
    by (destruct c as [[] [] [] [] [] [] [] []]; vm_compute; reflexivity).
  rewrite forallb_forall in Hb. apply List.Forall_forall. exact Hb.
Qed.

Lemma escape_printable (s : string) : all_printable (escape s).
Proof.
  induction s as [|c s IH]; [constructor|].
  simpl. apply all_printable_app; [apply escape_char_printable | exact IH].
Qed.

Lemma quote_printable (s : string) : all_printable (quote s).
Proof.
  unfold quote. apply all_printable_cons; [reflexivity|].
  apply all_printable_app; [apply escape_printable | repeat constructor].
Qed.

Lemma join_printable (sep : string) (parts : list string) :
  all_printable sep -> Forall all_printable parts -> all_printable (join sep parts).
Proof.
  intros Hsep Hparts. induction Hparts as [|p rest Hp Hrest IH]; [constructor|].
  destruct rest as [|q rest]; [exact Hp|].
  change (join sep (p :: q :: rest)) with (p ++ sep ++ join sep (q :: rest)).
  apply all_printable_app; [exact Hp|]. apply all_printable_app; [exact Hsep | exact IH].
Qed.

Lemma uint_printable (d : Decimal.uint) : all_printable (NilEmpty.string_of_uint d).
Proof.
  induction d; simpl; try (apply all_printable_cons; [reflexivity | assumption]).
  constructor.
Qed.

Lemma int_printable (n : Z) : all_printable (NilZero.string_of_int (Z.to_int n)).
Proof.
  assert (Hu : forall d, all_printable (NilZero.string_of_uint d)).
  { intros d. destruct d; try apply uint_printable. repeat constructor. }
  destruct (Z.to_int n); simpl; [apply Hu | apply all_printable_cons; [reflexivity | apply Hu]].
Qed.

Lemma json_dumps_printable (j : json) : all_printable (json_dumps j).
Proof.
  induction j as [| b | n | s | xs IH | kvs IH] using json_induction.
  - repeat constructor.
  - destruct b; repeat constructor.
  - apply int_printable.
  - apply quote_printable.
  - change (json_dumps (JArr xs)) with ("[" ++ join ", " (map json_dumps xs) ++ "]").
    apply all_printable_cons; [reflexivity|].
    apply all_printable_app; [| repeat constructor].
    apply join_printable; [repeat constructor|].
    apply Forall_map. exact IH.
  - change (json_dumps (JObj kvs))
      with ("{" ++ join ", " (map (fun kv => quote (fst kv) ++ ": " ++ json_dumps (snd kv)) kvs)
                ++ "}").
    apply all_printable_cons; [reflexivity|].
    apply all_printable_app; [| repeat constructor].
    apply join_printable; [repeat constructor|].
    apply Forall_map. eapply List.Forall_impl; [| exact IH].
    intros kv Hkv. cbn beta.
    apply all_printable_app; [apply quote_printable|].
    apply all_printable_app; [repeat constructor | exact Hkv].
Qed.

(** How often a character occurs in a string. *)
Definition occurrences (c : ascii) (s : string) : nat :=
  count_occ ascii_dec (list_ascii_of_string s) c.

Lemma printable_has_no_newline (s : string) : all_printable s -> occurrences LF s = 0%nat.
Proof.
  unfold all_printable, occurrences. intros Hs.
  apply count_occ_not_In. intros Hin.
  rewrite List.Forall_forall in Hs. specialize (Hs LF Hin). discriminate.
Qed.

(** X1: whatever the request, [json.dumps(request)] is made of printable
    ASCII characters only, so the line the scripts send,
    [json.dumps(request) + "\n"], holds exactly one newline: its last
    character. *)
Theorem request_line_has_one_newline (j : json) :
  all_printable (json_dumps j) /\
  occurrences LF (line j) = 1%nat /\
  last_char (line j) = Some LF.
Proof.
  split; [apply json_dumps_printable|]. split.
  - unfold line, occurrences. rewrite list_ascii_app, count_occ_app.
    fold (occurrences LF (json_dumps j)).
    rewrite (printable_has_no_newline _ (json_dumps_printable j)). reflexivity.
  - apply last_char_app.
Qed.

(** ** vscode_mcp_diagnostic.py: when each check passes *)

(** X2's subject: the process check. *)
Definition pgrep_argv : list string := ["pgrep"; "-f"; "nixai mcp-server"].

Lemma check_mcp_server_running_verdict w :
  wp Diagnostic.check_mcp_server_running
     (fun r _ =>
        r = true <->
        exists out, commands w pgrep_argv = Exited 0 out /\ strip out <> EmptyString)
     (fun _ _ => False) (fun _ => False) w.
Proof.
  unfold Diagnostic.check_mcp_server_running, Diagnostic.print_header,
    Diagnostic.print_success, Diagnostic.print_error, Diagnostic.print_info, pgrep_argv.
  repeat wp_step.
  all: (split; [intros Hr | intros (out & Hcmd & Hout)]); try discriminate; try reflexivity.
  - apply andb_true_iff in Heqb. destruct Heqb as [Hrc Hs].
    apply Z.eqb_eq in Hrc. subst returncode. exists stdout. split; [reflexivity|].
    apply negb_true_iff in Hs. intros Hblank. rewrite Hblank in Hs. discriminate.
  - injection Hcmd as -> ->.
    apply andb_false_iff in Heqb. destruct Heqb as [Hrc | Hs]; [discriminate|].
    apply negb_false_iff, String.eqb_eq in Hs. contradiction.
Qed.

(** X2: the process check returns [True] exactly when [pgrep] could be
    run, exited with status 0 and printed something other than blanks;
    in every other case, a missing [pgrep] included, it returns [False]. *)
Theorem server_running_iff_pgrep_finds_it w :
  (fst (Diagnostic.check_mcp_server_running w) = Ret true <->
   exists out, commands w pgrep_argv = Exited 0 out /\ strip out <> EmptyString)
  /\ (fst (Diagnostic.check_mcp_server_running w) = Ret true \/
      fst (Diagnostic.check_mcp_server_running w) = Ret false).
Proof.
  destruct (wp_returns _ _ _ (check_mcp_server_running_verdict w)) as (r & Hr & Hiff).
  rewrite Hr. split.
  - rewrite <- Hiff. split; [intros [= ->]; reflexivity | intros ->; reflexivity].
  - destruct r; auto.
Qed.

(** *** The protocol check *)

Definition is_ok {A} (r : res A) : bool :=
  match r with Ok _ => true | Err _ => false end.

(** What lines 127-130 ask of the reply to [initialize]. *)
Definition initialize_accepted (response : json) : bool :=
  match py_in "result" response with
  | Ok true =>
      match py_getitem response "result" with
      | Ok result =>
          is_ok (res_bind (py_getitem result "serverInfo")
                   (fun server_info => py_getitem server_info "name"))
          && is_ok (py_getitem result "protocolVersion")
      | Err _ => false
      end
  | _ => false
  end.

(** What line 153 asks of one entry of [tools]. *)
Definition tool_listed (tool : json) : bool :=
  is_ok (py_getitem tool "name") && is_ok (py_getitem tool "description").

(** What lines 149-153 ask of the reply to [tools/list]. *)
Definition tools_accepted (response : json) : bool :=
  match py_getitem response "result" with
  | Ok result =>
      match py_getitem result "tools" with
      | Ok tools =>
          match py_iter tools with
          | Ok items => forallb tool_listed items
          | Err _ => false
          end
      | Err _ => false
      end
  | Err _ => false
  end.

(** The next connection the server accepts answers [tools/list] well. *)
Definition second_ok (cs : list connection) : Prop :=
  exists r2 t2 rest, cs = (reply r2 :: t2) :: rest /\ tools_accepted r2 = true.

Lemma py_len_iter (v : json) : is_ok (py_len v) = is_ok (py_iter v).
Proof. destruct v; reflexivity. Qed.

Lemma print_tools_verdict (items : list json) w :
  wp (for_each items (fun tool =>
        let* name := lift (py_getitem tool "name") in
        let* description := lift (py_getitem tool "description") in
        Diagnostic.print_info "  - {}: {}" [name; description]))
     (fun _ w' => forallb tool_listed items = true /\ server w' = server w)
     (fun _ _ => forallb tool_listed items = false)
     (fun _ => False) w.
Proof.
  revert w. induction items as [|tool items IH]; intros w.
  - split; reflexivity.
  - cbn [for_each forallb]. unfold tool_listed at 1 3. unfold Diagnostic.print_info.
    repeat wp_step; cbn [is_ok andb]; try reflexivity.
    eapply wp_mono; [apply IH | | auto | auto].
    intros u w' [Hall Hs]. split; [exact Hall | exact Hs].
Qed.

Ltac wp_bytes :=
  repeat match goal with
         | |- context [decode ?b] => is_var b; destruct b as [| | [?|]]
         | _ => wp_eval
         end;
  wp_simpl.

Ltac use_path_facts H :=
  repeat match goal with
         | Heq : ?x = Ok _ |- _ =>
             match type of H with context [x] => rewrite Heq in H end
         | Heq : ?x = Err _ |- _ =>
             match type of H with context [x] => rewrite Heq in H end
         end.

Lemma list_tools_verdict w f :
  files w !! socket_path = Some f ->
  backlog_full w = false ->
  wp Diagnostic.list_tools
     (fun r _ => r = true /\ second_ok (server w))
     (fun _ _ => ~ second_ok (server w))
     (fun _ => False) w.
Proof.
  intros Hf Hb. unfold Diagnostic.list_tools, Diagnostic.print_success.
  wp_bytes.
  all: try (intros (r2 & t2 & rest' & Hs & Hacc); unfold reply in Hs; simplify_eq;
            unfold tools_accepted in Hacc; use_path_facts Hacc; discriminate).
  all: try (intros (r2 & t2 & rest' & Hs & Hacc); unfold reply in Hs; simplify_eq;
            unfold tools_accepted in Hacc; use_path_facts Hacc;
            match goal with Heq : py_len ?v = Err _ |- _ => destruct v; discriminate end).
  eapply wp_mono; [apply print_tools_verdict | | | contradiction].
  - intros u w' [Hall _]. apply wp_ret. split; [reflexivity|].
    exists j, c0, l. split; [reflexivity|].
    unfold tools_accepted.
    repeat match goal with Heq : ?x = Ok _ |- context [?x] => rewrite Heq end.
    exact Hall.
  - intros e' w' Hall (r2 & t2 & rest' & Hs & Hacc). unfold reply in Hs. simplify_eq.
    unfold tools_accepted in Hacc. use_path_facts Hacc. cbv beta in Hall. congruence.
Qed.

Ltac eval_accept H :=
  unfold initialize_accepted in H; use_path_facts H;
  cbn [is_ok res_bind andb] in H; use_path_facts H; cbn [is_ok res_bind andb] in H.

Lemma handle_response_verdict s j w f :
  files w !! socket_path = Some f ->
  backlog_full w = false ->
  wp (Diagnostic.handle_response s (Chars (Some j)))
     (fun r _ => r = true <-> initialize_accepted j = true /\ second_ok (server w))
     (fun _ _ => ~ (initialize_accepted j = true /\ second_ok (server w)))
     (fun _ => False) w.
Proof.
  intros Hf Hb.
  unfold Diagnostic.handle_response, Diagnostic.print_success, Diagnostic.print_error,
    Diagnostic.print_info.
  repeat wp_eval.
  all: try (intros [Hacc _]; eval_accept Hacc; discriminate).
  all: try (split; [discriminate | intros [Hacc _]; eval_accept Hacc; discriminate]).
  assert (Hacc : initialize_accepted j = true).
  { unfold initialize_accepted.
    repeat match goal with Heq : ?x = Ok _ |- context [?x] => rewrite Heq; cbn [res_bind is_ok andb] end.
    reflexivity. }
  eapply wp_mono; [eapply list_tools_verdict; wp_simpl; eassumption | | | contradiction];
    wp_simpl.
  - intros r w' [-> Hsec]. tauto.
  - intros e' w' Hsec. destruct (is_json_decode_error e'); repeat wp_step; intuition discriminate.
Qed.

(** The two connections a passing run needs: the first answers
    [initialize], the second [tools/list]; the listener has room for
    them. *)
Definition protocol_ok (w : world) : Prop :=
  exists f r1 t1 r2 t2 rest,
    files w !! socket_path = Some f /\
    backlog_full w = false /\
    server w = (reply r1 :: t1) :: (reply r2 :: t2) :: rest /\
    initialize_accepted r1 = true /\ tools_accepted r2 = true.

Lemma protocol_ok_inv w :
  protocol_ok w ->
  exists f j c l,
    files w !! socket_path = Some f /\ backlog_full w = false /\
    server w = (Answer (Utf8 (Some j)) :: c) :: l /\
    initialize_accepted j = true /\ second_ok l.
Proof.
  intros (f & r1 & t1 & r2 & t2 & rest & Hf & Hb & Hs & H1 & H2).
  exists f, r1, t1, ((reply r2 :: t2) :: rest). repeat split; try assumption.
  exists r2, t2, rest. split; [reflexivity | exact H2].
Qed.

Ltac refute_protocol_ok :=
  let H := fresh in
  intros H; apply protocol_ok_inv in H;
  destruct H as (? & ? & ? & ? & ? & ? & ? & ? & ?); congruence.

Lemma diagnostic_protocol_verdict w :
  wp Diagnostic.test_mcp_protocol
     (fun r _ => r = true <-> protocol_ok w)
     (fun _ _ => False) (fun _ => False) w.
Proof.
  unfold Diagnostic.test_mcp_protocol, Diagnostic.print_header, Diagnostic.print_error.
  wp_bytes.
  all: try (split; [discriminate | refute_protocol_ok]).
  - eapply wp_mono;
      [eapply handle_response_verdict; wp_simpl; eassumption | | | contradiction]; wp_simpl.
    + intros r w' Hiff. rewrite Hiff. split.
      * intros [Hacc (r2 & t2 & rest & -> & Htools)].
        exists f, j, c0, r2, t2, rest. auto.
      * intros Hok. apply protocol_ok_inv in Hok.
        destruct Hok as (f' & j' & c' & l' & _ & _ & Hs & Hacc & Hsec).
        rewrite Hs in *. simplify_eq. auto.
    + intros e' w' Hno. repeat wp_step. split; [discriminate|].
      intros Hok. apply protocol_ok_inv in Hok.
      destruct Hok as (f' & j' & c' & l' & _ & _ & Hs & Hacc & Hsec).
      rewrite Hs in *. simplify_eq. tauto.
Qed.

(** X3: the protocol check of the diagnostic returns [True] exactly when
    the socket path exists, the server accepts two connections, the
    first bytes of the first decode to a JSON value with a [result] that
    holds [serverInfo.name] and [protocolVersion], and the first bytes of
    the second decode to a JSON value whose [result.tools] can be
    iterated with a [name] and a [description] in every entry.  In every
    other case it returns [False]: no exception escapes and the call
    never blocks. *)
Theorem diagnostic_protocol_check_passes_iff w :
  (fst (Diagnostic.test_mcp_protocol w) = Ret true <-> protocol_ok w)
  /\ (fst (Diagnostic.test_mcp_protocol w) = Ret true \/
      fst (Diagnostic.test_mcp_protocol w) = Ret false).
Proof.
  destruct (wp_returns _ _ _ (diagnostic_protocol_verdict w)) as (r & Hr & Hiff).
  rewrite Hr. split.
  - rewrite <- Hiff. split; [intros [= ->]; reflexivity | intros ->; reflexivity].
  - destruct r; auto.
Qed.

(** ** test-simple-socket.py *)
Module RootSimpleSocket.

(** [test_socket_connection()]: the same steps as
    [tests/mcp/test_simple_socket.py], with no [return] statement. *)
Definition test_socket_connection : M pyval :=
  say Plain "Testing connection to {}" [JStr socket_path] >>
  try_except2
    (let sock0 := socket_new in
     say Plain "Socket created" [] >>
     let* sock1 := connect (settimeout sock0 5) socket_path in
     say Plain "Connected successfully!" [] >>
     close sock1 >>
     say Plain "Connection closed" [])
    is_socket_timeout
    (fun _ => say Plain "Connection timed out" [])
    any_exception
    (fun _ => say Plain "Error: {}" []) >>
  ret VNone.

End RootSimpleSocket.

(** ** The connection tests *)

(** The server accepts a connection on the socket path: somebody
    listens and the queue of the listener has room. *)
Definition accepting (w : world) : Prop :=
  exists f c rest,
    files w !! socket_path = Some f /\ server w = c :: rest /\ backlog_full w = false.

(** An event that puts nothing on the wire and reads nothing from it. *)
Definition quiet (e : event) : Prop :=
  match e with
  | Send _ | Recv _ => False
  | _ => True
  end.

Lemma simple_socket_verdict w :
  wp SimpleSocket.test_simple_socket
     (fun r w' =>
        (r = VBool true <-> accepting w) /\ (r = VBool true \/ r = VBool false) /\
        emitted quiet w w')
     (fun _ _ => False) (fun _ => False) w.
Proof.
  unfold SimpleSocket.test_simple_socket.
  repeat wp_eval.
  all: split; [| split; [auto | emitted_done]].
  all: split; [intros Hr; try discriminate | intros (f' & c' & rest' & Hf' & Hs' & Hb')];
    try congruence.
  exists f, c, l. auto.
Qed.

Lemma root_socket_verdict w :
  wp RootSimpleSocket.test_socket_connection
     (fun r w' =>
        r = VNone /\
        exists evs,
          log w' = (log w ++ evs)%list /\ Forall quiet evs /\
          (In (Print Plain "Connected successfully!" []) evs <-> accepting w))
     (fun _ _ => False) (fun _ => False) w.
Proof.
  unfold RootSimpleSocket.test_socket_connection.
  repeat wp_eval.
  all: split; [reflexivity|]; eexists;
    (split; [cbn [log emit set_server]; rewrite <- ?app_assoc; reflexivity|]);
    (split; [repeat constructor|]).
  all: cbn [In app]; split;
    [ intros Hin; repeat (destruct Hin as [Hin | Hin]; try discriminate Hin);
      try contradiction
    | intros (f' & c' & rest' & Hf' & Hs' & Hb'); try congruence ].
  - exists f, c, l. auto.
  - tauto.
Qed.

(** X4: [test_simple_socket] of [tests/mcp] returns [True] exactly when
    the socket path exists and the server accepts a connection, and
    [False] otherwise; run as a script it ends with status 0 in the first
    case and 1 in the second.  It sends nothing and reads nothing. *)
Theorem simple_socket_test_passes_iff_accepted w :
  let run := SimpleSocket.test_simple_socket w in
  (fst run = Ret (VBool true) <-> accepting w) /\
  (exit_on_success (fst run) = Some 0%Z <-> accepting w) /\
  (exit_on_success (fst run) = Some 0%Z \/ exit_on_success (fst run) = Some 1%Z) /\
  emitted quiet w (snd run).
Proof.
  cbv zeta.
  destruct (wp_returns _ _ _ (simple_socket_verdict w)) as (r & Hr & Hiff & Hb & Hq).
  rewrite Hr. cbn [exit_on_success].
  split; [| split; [| split; [| exact Hq]]].
  - rewrite <- Hiff. split; [intros [= ->]; reflexivity | intros ->; reflexivity].
  - rewrite <- Hiff. destruct Hb as [-> | ->]; cbn [truthy]; split; intros H;
      try reflexivity; discriminate H.
  - destruct Hb as [-> | ->]; cbn [truthy]; auto.
Qed.

(** X5: [test-simple-socket.py] makes the same connection attempt and
    has no result: its function returns [None] on every host, so the
    script ends with status 0 whether the connection was made or not.
    What tells the two apart is the line [Connected successfully!], which
    is printed exactly when the socket path exists and the server accepts
    the connection.  It sends nothing and reads nothing. *)
Theorem root_socket_test_has_no_verdict w :
  let run := RootSimpleSocket.test_socket_connection w in
  fst run = Ret VNone /\
  exit_plain (fst run) = Some 0%Z /\
  exists evs,
    log (snd run) = (log w ++ evs)%list /\ Forall quiet evs /\
    (In (Print Plain "Connected successfully!" []) evs <-> accepting w).
Proof.
  cbv zeta.
  destruct (wp_returns _ _ _ (root_socket_verdict w)) as (r & Hr & -> & Hevs).
  rewrite Hr. split; [reflexivity | split; [reflexivity | exact Hevs]].
Qed.

(** ** Which calls come back *)

(** The next answer of the peer never comes. *)
Definition silent (c : connection) : Prop :=
  exists rest, c = Silence :: rest.

Lemma after_read_cases (b : bytes) (rest : connection) :
  after_read b rest = rest \/ after_read b rest = [].
Proof. destruct b; auto. Qed.

Ltac step_done :=
  first [ reflexivity | exact I | assumption | eexists; reflexivity
        | apply after_read_cases | left; reflexivity | right; reflexivity | idtac ].

Lemma test1_blocks_on_silence s w :
  wp (TestMcpProtocol.test1 s)
     (fun s' _ => peer s' = tl (peer s) \/ peer s' = [])
     (fun _ _ => True) (fun _ => silent (peer s)) w.
Proof.
  unfold TestMcpProtocol.test1, silent.
  repeat wp_step; cbn [tl peer after_read]; step_done.
Qed.

Lemma test2_blocks_on_silence s w :
  wp (TestMcpProtocol.test2 s)
     (fun s' _ => peer s' = tl (peer s) \/ peer s' = [])
     (fun _ _ => True) (fun _ => silent (peer s)) w.
Proof.
  unfold TestMcpProtocol.test2, silent.
  repeat wp_step; cbn [tl peer after_read]; step_done.
  all: eapply (wp_for_each_inv _ _ (fun _ => True));
    [ exact I
    | intros x w' _; repeat wp_step; cbn [tl peer after_read]; step_done
    | intros w' _; repeat wp_step; cbn [tl peer after_read]; step_done ].
Qed.

Lemma test3_blocks_on_silence s w :
  wp (TestMcpProtocol.test3 s)
     (fun s' _ => peer s' = tl (peer s) \/ peer s' = [])
     (fun _ _ => True) (fun _ => silent (peer s)) w.
Proof.
  unfold TestMcpProtocol.test3, silent.
  repeat wp_step; cbn [tl peer after_read]; step_done.
Qed.

Lemma silent_within_three (c : connection) :
  silent c \/ silent (tl c) \/ silent (tl (tl c)) -> In Silence (firstn 3 c).
Proof.
  intros Hs. destruct c as [|x [|y [|z c']]]; cbn [tl firstn In] in *;
    destruct Hs as [[rest Hs] | [[rest Hs] | [rest Hs]]]; simplify_eq; auto.
Qed.

Lemma not_silent_when_closed : ~ silent [].
Proof. intros [rest Hs]. discriminate. Qed.

(** Somebody listens on the socket path and the queue of the listener
    is full: a connection attempt waits for room. *)
Definition never_accepted (w : world) : Prop :=
  exists f c rest,
    files w !! socket_path = Some f /\ server w = c :: rest /\ backlog_full w = true.

(** The server lets the protocol test connect and stays silent at one
    of its three requests. *)
Definition silent_connection (w : world) : Prop :=
  exists f c rest,
    files w !! socket_path = Some f /\ server w = c :: rest /\ backlog_full w = false /\
    In Silence (firstn 3 c).

Lemma protocol_test_blocks_on_silence w :
  wp TestMcpProtocol.test_mcp_protocol
     (fun r _ => r = VNone) (fun _ _ => False)
     (fun _ => never_accepted w \/ silent_connection w) w.
Proof.
  unfold TestMcpProtocol.test_mcp_protocol.
  repeat wp_step; try reflexivity.
  - left. exists f, c, l. auto.
  - assert (Hsilent : forall c', silent c' \/ silent (tl c') \/ silent (tl (tl c')) ->
                      c' = c -> never_accepted w \/ silent_connection w).
    { intros c' Hs ->. right. exists f, c, l. repeat split; try assumption.
      apply silent_within_three, Hs. }
    eapply wp_mono; [apply test1_blocks_on_silence | | | ]; wp_simpl.
    + intros s1 w1 H1. repeat wp_step.
      eapply wp_mono; [apply test2_blocks_on_silence | | | ]; wp_simpl.
      * intros s2 w2 H2. repeat wp_step.
        eapply wp_mono; [apply test3_blocks_on_silence | | | ]; wp_simpl.
        -- intros s3 w3 H3. repeat wp_step. reflexivity.
        -- intros e' w3 _. repeat wp_step. reflexivity.
        -- intros w3 Hs. apply (Hsilent c); [|reflexivity].
           destruct H2 as [H2 | H2]; rewrite H2 in Hs;
             [| destruct (not_silent_when_closed Hs)].
           destruct H1 as [H1 | H1]; rewrite H1 in Hs; cbn [peer tl] in Hs;
             [auto | destruct (not_silent_when_closed Hs)].
      * intros e' w2 _. repeat wp_step. reflexivity.
      * intros w2 Hs. apply (Hsilent c); [|reflexivity].
        destruct H1 as [H1 | H1]; rewrite H1 in Hs; cbn [peer tl] in Hs;
          [auto | destruct (not_silent_when_closed Hs)].
    + intros e' w1 _. repeat wp_step. reflexivity.
    + intros w1 Hs. cbn [peer] in Hs. apply (Hsilent c); [auto | reflexivity].
Qed.

(** X6: the protocol test never lets an exception escape, and there are
    two ways only in which it does not come back, both on a socket
    without a timeout: [connect] waits for room in the queue of a
    listener that has none, or the server accepts the connection and
    leaves one of the three requests unanswered, so that [recv] blocks
    for ever.  With a full queue, and with the first request unanswered,
    the call does block. *)
Theorem protocol_test_blocks_on_full_queue_or_silence w :
  let run := TestMcpProtocol.test_mcp_protocol w in
  (fst run = Ret VNone \/ fst run = Hang) /\
  (fst run = Hang -> never_accepted w \/ silent_connection w) /\
  (never_accepted w -> fst run = Hang) /\
  (forall f c rest,
     files w !! socket_path = Some f -> backlog_full w = false ->
     server w = (Silence :: c) :: rest -> fst run = Hang).
Proof.
  cbv zeta. split; [| split; [| split]].
  - pose proof (wp_elim _ _ _ _ _ (protocol_test_blocks_on_silence w)) as Hrun.
    destruct (fst (TestMcpProtocol.test_mcp_protocol w)); [left; congruence | contradiction | auto].
  - intros Hh. pose proof (wp_elim _ _ _ _ _ (protocol_test_blocks_on_silence w)) as Hrun.
    rewrite Hh in Hrun. exact Hrun.
  - intros (f & c & rest & Hf & Hs & Hb).
    assert (Hwp : wp TestMcpProtocol.test_mcp_protocol
                     (fun _ _ => False) (fun _ _ => False) (fun _ => True) w).
    { unfold TestMcpProtocol.test_mcp_protocol.
      repeat wp_step; simplify_eq. exact I. }
    apply wp_elim in Hwp.
    destruct (fst (TestMcpProtocol.test_mcp_protocol w));
      [contradiction | contradiction | reflexivity].
  - intros f c rest Hf Hb Hs.
    assert (Hwp : wp TestMcpProtocol.test_mcp_protocol
                     (fun _ _ => False) (fun _ _ => False) (fun _ => True) w).
    { unfold TestMcpProtocol.test_mcp_protocol, TestMcpProtocol.test1.
      repeat wp_step; simplify_eq. exact I. }
    apply wp_elim in Hwp.
    destruct (fst (TestMcpProtocol.test_mcp_protocol w));
      [contradiction | contradiction | reflexivity].
Qed.

Lemma mcp_simple_returns w : fst (McpSimple.test_mcp_simple w) = Ret VNone.
Proof.
  assert (Hwp : wp McpSimple.test_mcp_simple (fun r _ => r = VNone)
                   (fun _ _ => False) (fun _ => False) w).
  { eapply wp_mono;
      [ apply (mcp_simple_keeps (fun _ => True) (fun _ => True)) with (w0 := w) | | | ];
      auto.
    - repeat split.
    - intros r w' [Hr _]. exact Hr. }
  apply wp_returns in Hwp. destruct Hwp as (a & Ha & ->). exact Ha.
Qed.

(** The server accepts the connection and never answers. *)
Definition unanswered (w : world) : Prop :=
  exists f c rest,
    files w !! socket_path = Some f /\ server w = (Silence :: c) :: rest /\
    backlog_full w = false.

(** X7: the raw socket test and the simple test, which set a timeout on
    their socket, come back on every host and whatever the server does:
    both return [None] and no exception escapes.  When the server
    accepts the connection and never answers, the first reports the
    timeout in its own handler and the second in its catch-all
    handler. *)
Theorem tests_with_a_timeout_always_return w :
  let raw := RawSocket.test_raw_communication w in
  let simple := McpSimple.test_mcp_simple w in
  fst raw = Ret VNone /\ fst simple = Ret VNone /\
  (unanswered w ->
   In (Print Plain "Connection timed out waiting for response" []) (log (snd raw)) /\
   In (Print Plain "Error: {}" []) (log (snd simple))).
Proof.
  cbv zeta. split; [apply raw_socket_returns | split; [apply mcp_simple_returns|]].
  intros (f & c & rest & Hf & Hs & Hb). split.
  - apply (wp_always _ (fun w' =>
             In (Print Plain "Connection timed out waiting for response" []) (log w'))).
    unfold RawSocket.test_raw_communication. repeat wp_step; simplify_eq. in_log.
  - apply (wp_always _ (fun w' => In (Print Plain "Error: {}" []) (log w'))).
    unfold McpSimple.test_mcp_simple. repeat wp_step; simplify_eq. in_log.
Qed.

(** ** tests/mcp/__main__.py: what a test module has to offer *)

(** A test that is counted as failed whenever it comes back. *)
Definition always_fails (test : M pyval) : Prop :=
  forall w, wp test (fun v _ => truthy v = false) (fun _ _ => False) (fun _ => True) w.

(** A test as the runner needs it: it may block, it does not raise. *)
Definition contained (test : M pyval) : Prop :=
  forall w, wp test (fun _ _ => True) (fun _ _ => False) (fun _ => True) w.

Lemma always_fails_contained test : always_fails test -> contained test.
Proof. intros Hf w. eapply wp_mono; [apply Hf | | | ]; auto. Qed.

Lemma run_test_fails name (test : M pyval) passed failed w :
  always_fails test ->
  wp (McpMain.run_test name test (passed, failed))
     (fun counters _ => counters = (passed, S failed))
     (fun _ _ => False) (fun _ => True) w.
Proof.
  intros Htest. unfold McpMain.run_test.
  repeat wp_step.
  eapply wp_mono; [apply Htest | | auto | auto].
  intros verdict w' Hv. wp_simpl. rewrite Hv. repeat wp_step. reflexivity.
Qed.

Lemma run_test_keeps_failures name (test : M pyval) passed failed w :
  contained test ->
  wp (McpMain.run_test name test (passed, failed))
     (fun counters _ => (failed <= snd counters)%nat)
     (fun _ _ => False) (fun _ => True) w.
Proof.
  intros Htest. unfold McpMain.run_test.
  repeat wp_step.
  eapply wp_mono; [apply Htest | | auto | auto].
  intros verdict w' _. repeat wp_step; cbn [fst snd]; lia.
Qed.

Section RunnerVerdicts.

Variable modules : string -> option McpMain.pymodule.
Variable here : string.

(** [importlib] finds the module and the module holds [f] under [attr]. *)
Definition provides (module_name attr : string) (f : M pyval) : Prop :=
  exists m, modules module_name = Some m /\ assoc attr m = Some f.

Lemma run_python_test_contained module_name :
  contained (McpMain.run_python_test modules module_name).
Proof. intros w. apply run_python_test_safe. Qed.

Lemma run_shell_test_contained script_path :
  contained (McpMain.run_shell_test script_path).
Proof. intros w. apply run_shell_test_safe. Qed.

Lemma missing_module_fails module_name :
  modules module_name = None ->
  always_fails (McpMain.run_python_test modules module_name).
Proof.
  intros Hm w. unfold McpMain.run_python_test, McpMain.import_module.
  rewrite Hm. repeat wp_step. reflexivity.
Qed.

Lemma test_without_result_fails module_name (f : M pyval) :
  provides module_name (last_component EmptyString module_name) f ->
  (forall w, wp f (fun v _ => v = VNone) (fun _ _ => True) (fun _ => True) w) ->
  always_fails (McpMain.run_python_test modules module_name).
Proof.
  intros (m & Hm & Hf) Hnone w. unfold McpMain.run_python_test, McpMain.import_module.
  rewrite Hm. repeat wp_step.
  eapply wp_mono; [apply Hnone | | | auto]; wp_simpl.
  - intros v w' ->. reflexivity.
  - intros e' w' _. repeat wp_step. reflexivity.
Qed.

Lemma mcp_simple_has_no_result w :
  wp McpSimple.test_mcp_simple (fun v _ => v = VNone) (fun _ _ => True) (fun _ => True) w.
Proof.
  eapply wp_mono;
    [ apply (mcp_simple_keeps (fun _ => True) (fun _ => True)) with (w0 := w) | | | ];
    auto.
  - repeat split.
  - intros r w' [Hr _]. exact Hr.
Qed.

Lemma protocol_test_has_no_result w :
  wp TestMcpProtocol.test_mcp_protocol
     (fun v _ => v = VNone) (fun _ _ => True) (fun _ => True) w.
Proof.
  eapply wp_mono;
    [ apply (protocol_test_keeps (fun _ => True) (fun _ => True)) with (w0 := w) | | | ];
    auto.
  - repeat split.
  - intros r w' [Hr _]. exact Hr.
Qed.

(** One of the tests the runner lists cannot pass. *)
Definition doomed : Prop :=
  modules "tests.mcp.test_raw_socket" = None \/
  provides "tests.mcp.test_mcp_simple" "test_mcp_simple" McpSimple.test_mcp_simple \/
  provides "tests.mcp.test_mcp_protocol" "test_mcp_protocol"
           TestMcpProtocol.test_mcp_protocol.

Lemma run_all_fails w :
  doomed ->
  wp (McpMain.run_all modules here)
     (fun counters _ => (1 <= snd counters)%nat)
     (fun _ _ => False) (fun _ => True) w.
Proof.
  intros [Hraw | [Hsimple | Hprotocol]]; unfold McpMain.run_all; cbv zeta.
  - apply wp_bind. eapply wp_mono;
      [apply run_test_keeps_failures, run_python_test_contained | | auto | auto].
    intros [p1 f1] w1 H1. cbn [snd] in H1.
    apply wp_bind. eapply wp_mono;
      [apply run_test_fails, missing_module_fails, Hraw | | auto | auto].
    intros [p2 f2] w2 H2.
    apply wp_bind. eapply wp_mono;
      [apply run_test_keeps_failures, run_python_test_contained | | auto | auto].
    intros [p3 f3] w3 H3. cbn [snd] in H3.
    apply wp_bind. eapply wp_mono;
      [apply run_test_keeps_failures, run_python_test_contained | | auto | auto].
    intros [p4 f4] w4 H4. cbn [snd] in H4.
    eapply wp_mono;
      [apply run_test_keeps_failures, run_shell_test_contained | | auto | auto].
    intros [p5 f5] w5 H5. cbn [snd] in *. simplify_eq. lia.
  - apply wp_bind. eapply wp_mono;
      [apply run_test_keeps_failures, run_python_test_contained | | auto | auto].
    intros [p1 f1] w1 H1. cbn [snd] in H1.
    apply wp_bind. eapply wp_mono;
      [apply run_test_keeps_failures, run_python_test_contained | | auto | auto].
    intros [p2 f2] w2 H2. cbn [snd] in H2.
    apply wp_bind. eapply wp_mono;
      [apply run_test_fails, (test_without_result_fails _ _ Hsimple), mcp_simple_has_no_result
      | | auto | auto].
    intros [p3 f3] w3 H3.
    apply wp_bind. eapply wp_mono;
      [apply run_test_keeps_failures, run_python_test_contained | | auto | auto].
    intros [p4 f4] w4 H4. cbn [snd] in H4.
    eapply wp_mono;
      [apply run_test_keeps_failures, run_shell_test_contained | | auto | auto].
    intros [p5 f5] w5 H5. cbn [snd] in *. simplify_eq. lia.
  - apply wp_bind. eapply wp_mono;
      [apply run_test_keeps_failures, run_python_test_contained | | auto | auto].
    intros [p1 f1] w1 H1. cbn [snd] in H1.
    apply wp_bind. eapply wp_mono;
      [apply run_test_keeps_failures, run_python_test_contained | | auto | auto].
    intros [p2 f2] w2 H2. cbn [snd] in H2.
    apply wp_bind. eapply wp_mono;
      [apply run_test_keeps_failures, run_python_test_contained | | auto | auto].
    intros [p3 f3] w3 H3. cbn [snd] in H3.
    apply wp_bind. eapply wp_mono;
      [apply run_test_fails, (test_without_result_fails _ _ Hprotocol),
         protocol_test_has_no_result
      | | auto | auto].
    intros [p4 f4] w4 H4.
    eapply wp_mono;
      [apply run_test_keeps_failures, run_shell_test_contained | | auto | auto].
    intros [p5 f5] w5 H5. cbn [snd] in *. simplify_eq. lia.
Qed.

Lemma runner_main_fails w :
  doomed ->
  wp (McpMain.main modules here)
     (fun r _ => r = VBool false) (fun _ _ => False) (fun _ => True) w.
Proof.
  intros Hd. unfold McpMain.main. repeat wp_step.
  eapply wp_mono; [apply run_all_fails, Hd | | auto | auto].
  intros [passed failed] w1 Hf. cbn [snd] in Hf.
  repeat wp_step. destruct failed; [lia | reflexivity].
Qed.

End RunnerVerdicts.

(** X8: the test runner of [tests/mcp] cannot end with status 0 as soon
    as one of three things holds, each of which holds in the repository:
    no module [tests.mcp.test_raw_socket] can be imported; or
    [test_mcp_simple] is the function of [test_mcp_simple.py]; or
    [test_mcp_protocol] is the function of [test_mcp_protocol.py].  The
    two functions return [None], which the runner counts as a failure.
    The run then ends with status 1, or never ends. *)
Theorem mcp_runner_cannot_succeed modules here w :
  doomed modules ->
  exit_on_success (fst (McpMain.main modules here w)) = Some 1%Z \/
  fst (McpMain.main modules here w) = Hang.
Proof.
  intros Hd. pose proof (wp_elim _ _ _ _ _ (runner_main_fails modules here w Hd)) as Hrun.
  destruct (fst (McpMain.main modules here w)) as [r | e |].
  - left. rewrite Hrun. reflexivity.
  - contradiction.
  - right. reflexivity.
Qed.

Lemma mcp_runner_cannot_succeed_witness :
  doomed McpMain.repo_modules /\
  (exit_on_success (fst (McpMain.main McpMain.repo_modules "/repo/tests/mcp" bare_host))
   = Some 1%Z \/
   fst (McpMain.main McpMain.repo_modules "/repo/tests/mcp" bare_host) = Hang).
Proof.
  assert (Hd : doomed McpMain.repo_modules) by (left; reflexivity).
  split; [exact Hd|].
  exact (mcp_runner_cannot_succeed McpMain.repo_modules "/repo/tests/mcp" bare_host Hd).
Defined.

(** What the runner makes of the function it has picked. *)
Definition counted (module_name : string) (f : M pyval) (w : world)
    (run : outcome pyval * world) : Prop :=
  match fst (f w) with
  | Ret v => run = (Ret v, snd (f w))
  | Raise _ =>
      run = (Ret (VBool false),
             emit (Print Plain "Error running {}: {}" [JStr module_name]) (snd (f w)))
  | Hang => run = (Hang, snd (f w))
  end.

Lemma bind_ret {A B} (a : A) (k : A -> M B) : bind (ret a) k = k a.
Proof. reflexivity. Qed.

Lemma counted_try (f : M pyval) (module_name : string) w :
  counted module_name f w
    (try_except f any_exception
       (fun _ => say Plain "Error running {}: {}" [JStr module_name] >> ret (VBool false)) w).
Proof.
  unfold counted, try_except.
  destruct (f w) as [[v | e |] w']; reflexivity.
Qed.

Lemma counted_intro modules module_name m (f : M pyval) w :
  modules module_name = Some m ->
  match assoc (last_component EmptyString module_name) m with
  | Some test_func => test_func = f
  | None => assoc "main" m = Some f
  end ->
  counted module_name f w (McpMain.run_python_test modules module_name w).
Proof.
  intros Hm Hf. unfold McpMain.run_python_test, McpMain.import_module.
  rewrite Hm, bind_ret.
  destruct (assoc (last_component EmptyString module_name) m) as [test_func|].
  - subst test_func. apply counted_try.
  - rewrite Hf. apply counted_try.
Qed.

(** X9: how [run_python_test] picks and runs a test.  A module that
    cannot be imported, or that holds neither a function named after its
    last component nor a [main], gives [False] and one line of output.
    The function named after the module is called whether or not there
    is a [main], and [main] only when there is no such function; the
    result is handed back as it is, and an exception the function raises
    is turned into [False].  No exception ever escapes. *)
Theorem python_test_dispatch modules module_name w :
  let run := McpMain.run_python_test modules module_name w in
  let name := last_component EmptyString module_name in
  ((exists v, fst run = Ret v) \/ fst run = Hang) /\
  (modules module_name = None ->
   run = (Ret (VBool false),
          emit (Print Plain "Error running {}: {}" [JStr module_name]) w)) /\
  (forall m,
     modules module_name = Some m -> assoc name m = None -> assoc "main" m = None ->
     run = (Ret (VBool false),
            emit (Print Plain "Error: No test function found in {}" [JStr module_name]) w)) /\
  (forall m f,
     modules module_name = Some m -> assoc name m = Some f ->
     counted module_name f w run) /\
  (forall m main,
     modules module_name = Some m -> assoc name m = None -> assoc "main" m = Some main ->
     counted module_name main w run).
Proof.
  cbv zeta. split; [| split; [| split; [| split]]].
  - pose proof (wp_elim _ _ _ _ _ (run_python_test_safe modules module_name w)) as Hrun.
    destruct (fst (McpMain.run_python_test modules module_name w)) as [v | e |];
      [left; eexists; reflexivity | contradiction | right; reflexivity].
  - intros Hm. unfold McpMain.run_python_test, McpMain.import_module. rewrite Hm. reflexivity.
  - intros m Hm Hname Hmain.
    unfold McpMain.run_python_test, McpMain.import_module.
    rewrite Hm, bind_ret, Hname, Hmain. reflexivity.
  - intros m f Hm Hname. apply (counted_intro modules module_name m); [exact Hm|].
    rewrite Hname. reflexivity.
  - intros m main Hm Hname Hmain. apply (counted_intro modules module_name m); [exact Hm|].
    rewrite Hname. exact Hmain.
Qed.

(** ** tests/vscode/__main__.py

    [run_python_test], [run_shell_test] and [run_test] are, line for
    line, those of [tests/mcp/__main__.py]. *)
Module VscodeMain.

Section Runner.

Variable modules : string -> option McpMain.pymodule.
Variable here : string.

(** Lines 71-82: the four tests, in order. *)
Definition run_all : M (nat * nat) :=
  let counters := (0, 0)%nat in
  let* counters :=
    McpMain.run_test "VS Code Direct Test"
      (McpMain.run_python_test modules "tests.vscode.test_vscode_direct") counters in
  let* counters :=
    McpMain.run_test "VS Code MCP Integration Test"
      (McpMain.run_python_test modules "tests.vscode.test_vscode_mcp_integration") counters in
  let script_path_mcp := path_join here "test-vscode-mcp.sh" in
  let script_path_live := path_join here "test-vscode-live.sh" in
  let* counters :=
    McpMain.run_test "VS Code MCP Shell Test" (McpMain.run_shell_test script_path_mcp)
      counters in
  McpMain.run_test "VS Code Live Test" (McpMain.run_shell_test script_path_live) counters.

Definition main : M pyval :=
  say Header "Running All VS Code Integration Tests" [] >>
  let* '(passed, failed) := run_all in
  say Header "Test Summary" [] >>
  say Plain "Total tests: {}" [JNum (Z.of_nat (passed + failed))] >>
  say Plain "Passed: {}" [JNum (Z.of_nat passed)] >>
  say Plain "Failed: {}" [JNum (Z.of_nat failed)] >>
  ret (VBool (failed =? 0)%nat).

End Runner.

Section Repository.

(** The functions of [test_vscode_direct.py] and of
    [test_vscode_mcp_integration.py], whatever they do. *)
Variables test_vscode_mcp_connection test_socat_direct : M pyval.
Variables test_socket_connection test_mcp_protocol check_vscode_settings
          check_extensions test_vs_code_mcp_integration : M pyval.

(** The two test modules of [tests/vscode] by the names they define. *)
Definition repo_modules (module_name : string) : option McpMain.pymodule :=
  if String.eqb module_name "tests.vscode.test_vscode_direct" then
    Some [("test_vscode_mcp_connection", test_vscode_mcp_connection);
          ("test_socat_direct", test_socat_direct)]
  else if String.eqb module_name "tests.vscode.test_vscode_mcp_integration" then
    Some [("test_socket_connection", test_socket_connection);
          ("test_mcp_protocol", test_mcp_protocol);
          ("check_vscode_settings", check_vscode_settings);
          ("check_extensions", check_extensions);
          ("test_vs_code_mcp_integration", test_vs_code_mcp_integration)]
  else None.

End Repository.

End VscodeMain.

(** ** tests/providers/__main__.py *)
Module ProvidersMain.

Section Runner.

Variable here : string.

Definition run_all : M (nat * nat) :=
  let counters := (0, 0)%nat in
  let script_path := path_join here "test-all-providers.sh" in
  McpMain.run_test "All Providers Test" (McpMain.run_shell_test script_path) counters.

Definition main : M pyval :=
  say Header "Running All AI Provider Tests" [] >>
  let* '(passed, failed) := run_all in
  say Header "Test Summary" [] >>
  say Plain "Total tests: {}" [JNum (Z.of_nat (passed + failed))] >>
  say Plain "Passed: {}" [JNum (Z.of_nat passed)] >>
  say Plain "Failed: {}" [JNum (Z.of_nat failed)] >>
  ret (VBool (failed =? 0)%nat).

End Runner.

End ProvidersMain.

(** ** The runners of [tests/vscode] and [tests/providers] *)

(** The module can be imported and holds no function the runner would
    call. *)
Definition offers_no_test (modules : string -> option McpMain.pymodule)
    (module_name : string) : Prop :=
  exists m, modules module_name = Some m /\
    assoc (last_component EmptyString module_name) m = None /\ assoc "main" m = None.

(** A script the runner starts: status 0 or not. *)
Definition script_passes (w : world) (script_path : string) : bool :=
  match commands w [script_path] with
  | Exited 0 _ => true
  | _ => false
  end.

Lemma run_shell_test_verdict script_path w0 w :
  commands w = commands w0 ->
  wp (McpMain.run_shell_test script_path)
     (fun r w' =>
        r = VBool (script_passes w0 script_path) /\ commands w' = commands w0 /\
        log_grows w w')
     (fun _ _ => False) (fun _ => False) w.
Proof.
  intros Hc. unfold McpMain.run_shell_test, script_passes. rewrite <- Hc.
  repeat wp_step; wp_simpl; (split; [| split; [reflexivity | grows_done]]).
  all: reflexivity.
Qed.

Lemma run_test_shell name script_path passed failed w0 w :
  commands w = commands w0 ->
  wp (McpMain.run_test name (McpMain.run_shell_test script_path) (passed, failed))
     (fun counters w' =>
        counters = (if script_passes w0 script_path then (S passed, failed)
                    else (passed, S failed)) /\
        commands w' = commands w0 /\ log_grows w w')
     (fun _ _ => False) (fun _ => False) w.
Proof.
  intros Hc. unfold McpMain.run_test. repeat wp_step.
  eapply wp_mono; [apply (run_shell_test_verdict script_path w0); exact Hc | | auto | auto].
  intros verdict w' (-> & Hc' & Hg). cbn [truthy].
  assert (Hg' : log_grows w w').
  { intros e He. apply Hg. cbn [log emit]. apply in_or_app. left. exact He. }
  destruct (script_passes w0 script_path); repeat wp_step; wp_simpl;
    (split; [reflexivity | split; [exact Hc' | grows_done]]).
Qed.

Lemma run_test_no_function name modules module_name passed failed w0 w :
  offers_no_test modules module_name ->
  commands w = commands w0 ->
  wp (McpMain.run_test name (McpMain.run_python_test modules module_name) (passed, failed))
     (fun counters w' =>
        counters = (passed, S failed) /\ commands w' = commands w0 /\ log_grows w w' /\
        In (Print Plain "Error: No test function found in {}" [JStr module_name]) (log w'))
     (fun _ _ => False) (fun _ => False) w.
Proof.
  intros (m & Hm & Hname & Hmain) Hc.
  unfold McpMain.run_test, McpMain.run_python_test, McpMain.import_module.
  rewrite Hm, bind_ret, Hname, Hmain.
  repeat (cbn [truthy]; wp_step). wp_simpl.
  split; [reflexivity | split; [exact Hc | split; [grows_done | in_log]]].
Qed.

Lemma vscode_repo_offers_no_test b1 b2 b3 b4 b5 b6 b7 :
  let modules := VscodeMain.repo_modules b1 b2 b3 b4 b5 b6 b7 in
  offers_no_test modules "tests.vscode.test_vscode_direct" /\
  offers_no_test modules "tests.vscode.test_vscode_mcp_integration".
Proof.
  split; (eexists; split; [reflexivity | split; reflexivity]).
Qed.

Lemma vscode_run_all_counts modules here w0 w :
  offers_no_test modules "tests.vscode.test_vscode_direct" ->
  offers_no_test modules "tests.vscode.test_vscode_mcp_integration" ->
  commands w0 = commands w ->
  wp (VscodeMain.run_all modules here)
     (fun counters w' =>
        let passed :=
          (Nat.b2n (script_passes w (path_join here "test-vscode-mcp.sh")) +
           Nat.b2n (script_passes w (path_join here "test-vscode-live.sh")))%nat in
        counters = (passed, 4 - passed)%nat /\
        In (Print Plain "Error: No test function found in {}"
                  [JStr "tests.vscode.test_vscode_direct"]) (log w') /\
        In (Print Plain "Error: No test function found in {}"
                  [JStr "tests.vscode.test_vscode_mcp_integration"]) (log w'))
     (fun _ _ => False) (fun _ => False) w0.
Proof.
  intros Hdirect Hintegration Hc0. unfold VscodeMain.run_all. cbv zeta.
  apply wp_bind. eapply wp_mono;
    [apply (run_test_no_function _ _ _ _ _ w); [exact Hdirect | exact Hc0] | | auto | auto].
  intros c1 w1 (-> & H1 & _ & Hin1). cbv beta.
  apply wp_bind. eapply wp_mono;
    [apply (run_test_no_function _ _ _ _ _ w); [exact Hintegration | exact H1] | | auto | auto].
  intros c2 w2 (-> & H2 & Hg2 & Hin2). cbv beta.
  apply wp_bind. eapply wp_mono;
    [apply (run_test_shell _ _ _ _ w); exact H2 | | auto | auto].
  intros c3 w3 (-> & H3 & Hg3). cbv beta.
  destruct (script_passes w (path_join here "test-vscode-mcp.sh"));
    (eapply wp_mono; [apply (run_test_shell _ _ _ _ w); exact H3 | | auto | auto]);
    intros c4 w4 (-> & _ & Hg4);
    (split; [destruct (script_passes w (path_join here "test-vscode-live.sh")); reflexivity|]);
    split; auto.
Qed.

Lemma vscode_main_spec modules here w :
  offers_no_test modules "tests.vscode.test_vscode_direct" ->
  offers_no_test modules "tests.vscode.test_vscode_mcp_integration" ->
  wp (VscodeMain.main modules here)
     (fun r w' =>
        let passed :=
          (Nat.b2n (script_passes w (path_join here "test-vscode-mcp.sh")) +
           Nat.b2n (script_passes w (path_join here "test-vscode-live.sh")))%nat in
        r = VBool false /\ summary passed (4 - passed) (log w') /\
        In (Print Plain "Error: No test function found in {}"
                  [JStr "tests.vscode.test_vscode_direct"]) (log w') /\
        In (Print Plain "Error: No test function found in {}"
                  [JStr "tests.vscode.test_vscode_mcp_integration"]) (log w'))
     (fun _ _ => False) (fun _ => False) w.
Proof.
  intros Hdirect Hintegration. unfold VscodeMain.main. repeat wp_step.
  eapply wp_mono;
    [apply (vscode_run_all_counts modules here _ w); [assumption | assumption | reflexivity]
    | | auto | auto].
  wp_simpl. intros [passed failed] w1 (Hc & Hin1 & Hin2). cbv zeta in Hc.
  injection Hc as -> ->.
  repeat wp_step. cbv zeta.
  split; [| split; [| split]].
  - destruct (script_passes w (path_join here "test-vscode-mcp.sh")),
             (script_passes w (path_join here "test-vscode-live.sh")); reflexivity.
  - exists (log w1). cbn [log emit]. rewrite <- !app_assoc. reflexivity.
  - cbn [log emit]. rewrite !in_app_iff. auto 10.
  - cbn [log emit]. rewrite !in_app_iff. auto 10.
Qed.

(** X10: the runner of [tests/vscode] looks in each test module for a
    function named after the module, then for [main].  The two modules
    of the repository define neither ([test_vscode_direct.py] has
    [test_vscode_mcp_connection] and [test_socat_direct],
    [test_vscode_mcp_integration.py] has [test_vs_code_mcp_integration]):
    whatever their functions do, none is called, both tests are counted
    as failed, and the run ends with status 1.  Only the two shell
    scripts can pass, so at most 2 of the 4 tests do. *)
Theorem vscode_runner_calls_no_test_function b1 b2 b3 b4 b5 b6 b7 here w :
  let run := VscodeMain.main (VscodeMain.repo_modules b1 b2 b3 b4 b5 b6 b7) here w in
  let passed :=
    (Nat.b2n (script_passes w (path_join here "test-vscode-mcp.sh")) +
     Nat.b2n (script_passes w (path_join here "test-vscode-live.sh")))%nat in
  fst run = Ret (VBool false) /\
  exit_on_success (fst run) = Some 1%Z /\
  summary passed (4 - passed) (log (snd run)) /\
  In (Print Plain "Error: No test function found in {}"
            [JStr "tests.vscode.test_vscode_direct"]) (log (snd run)) /\
  In (Print Plain "Error: No test function found in {}"
            [JStr "tests.vscode.test_vscode_mcp_integration"]) (log (snd run)).
Proof.
  cbv zeta.
  destruct (vscode_repo_offers_no_test b1 b2 b3 b4 b5 b6 b7) as [Hd Hi].
  destruct (wp_returns _ _ _ (vscode_main_spec _ here w Hd Hi)) as (r & Hr & -> & Hsum & H1 & H2).
  rewrite Hr. repeat split; assumption.
Qed.

Lemma providers_main_spec here w :
  wp (ProvidersMain.main here)
     (fun r w' =>
        let ok := script_passes w (path_join here "test-all-providers.sh") in
        r = VBool ok /\ summary (Nat.b2n ok) (1 - Nat.b2n ok) (log w'))
     (fun _ _ => False) (fun _ => False) w.
Proof.
  unfold ProvidersMain.main, ProvidersMain.run_all. repeat wp_step.
  eapply wp_mono; [apply (run_test_shell _ _ _ _ w); reflexivity | | auto | auto].
  wp_simpl. intros [passed failed] w1 (Hc & _ & _). cbv zeta.
  destruct (script_passes w (path_join here "test-all-providers.sh"));
    injection Hc as -> ->; repeat wp_step; (split; [reflexivity|]);
    exists (log w1); cbn [log emit]; rewrite <- !app_assoc; reflexivity.
Qed.

(** X11: the runner of [tests/providers] has one test, the script
    [test-all-providers.sh] beside it.  It returns [True], and ends with
    status 0, exactly when the script could be started and ended with
    status 0; a script that is missing or fails is counted as the one
    failed test and the run ends with status 1.  No exception escapes. *)
Theorem providers_runner_follows_its_script here w :
  let run := ProvidersMain.main here w in
  let ok := script_passes w (path_join here "test-all-providers.sh") in
  fst run = Ret (VBool ok) /\
  exit_on_success (fst run) = Some (if ok then 0 else 1)%Z /\
  summary (Nat.b2n ok) (1 - Nat.b2n ok) (log (snd run)) /\
  (ok = true <->
   exists stdout, commands w [path_join here "test-all-providers.sh"] = Exited 0 stdout).
Proof.
  cbv zeta.
  destruct (wp_returns _ _ _ (providers_main_spec here w)) as (r & Hr & -> & Hsum).
  rewrite Hr. split; [reflexivity | split; [reflexivity | split; [exact Hsum|]]].
  unfold script_passes.
  destruct (commands w [path_join here "test-all-providers.sh"]) as [|rc out].
  - split; [discriminate | intros [? [=]]].
  - destruct rc; (split; [intros Hrc; try discriminate; eexists; reflexivity
                         | intros [? [=]]; reflexivity]).
Qed.

(** ** vscode_mcp_diagnostic.py: the settings check *)

(** Where the check looks for the settings. *)
Definition settings_path (w : world) : string :=
  path_join (path_join (cwd w) ".vscode") "settings.json".

(** Lines 201-210 for one registration: does the loop body come through? *)
Definition entry_checked (settings : json) (server_key : string) : bool :=
  is_ok
    (res_bind (py_getitem settings server_key) (fun servers =>
     res_bind (py_getitem servers "nixai") (fun nixai_config =>
     res_bind (py_get nixai_config "command" (JStr EmptyString)) (fun command =>
     res_bind (py_get nixai_config "args" (JArr [])) (fun args =>
     Diagnostic.command_format command args))))).

(** What the check answers for settings that were read. *)
Definition settings_verdict (settings : json) : bool :=
  match Diagnostic.find_servers settings Diagnostic.server_keys with
  | Ok (key :: keys) => forallb (entry_checked settings) (key :: keys)
  | _ => false
  end.

(** What the check answers on a host. *)
Definition config_verdict (w : world) : bool :=
  match files w !! settings_path w with
  | Some f =>
      readable f &&
      match as_json f with
      | Some settings => settings_verdict settings
      | None => false
      end
  | None => false
  end.

Ltac use_facts :=
  cbn [res_bind is_ok andb];
  repeat (match goal with
          | Heq : ?x = Ok _ |- context [?x] => rewrite Heq
          | Heq : ?x = Err _ |- context [?x] => rewrite Heq
          end; cbn [res_bind is_ok andb]).

Lemma entries_verdict (settings : json) (found : list string) w :
  wp (for_each found (fun server_key =>
        let* servers := lift (py_getitem settings server_key) in
        let* nixai_config := lift (py_getitem servers "nixai") in
        let* command := lift (py_get nixai_config "command" (JStr EmptyString)) in
        let* args := lift (py_get nixai_config "args" (JArr [])) in
        let* format := lift (Diagnostic.command_format command args) in
        match format with
        | Some true =>
            Diagnostic.print_success "{} has correct socat command" [JStr server_key]
        | Some false =>
            Diagnostic.print_success "{} has correct bash+socat command" [JStr server_key]
        | None =>
            Diagnostic.print_warning "{} may have incorrect command format: {} {}"
                          [JStr server_key; command; args]
        end))
     (fun _ _ => forallb (entry_checked settings) found = true)
     (fun _ _ => forallb (entry_checked settings) found = false)
     (fun _ => False) w.
Proof.
  revert w. induction found as [|key found IH]; intros w.
  - reflexivity.
  - cbn [for_each forallb]. unfold entry_checked at 1 3.
    unfold Diagnostic.print_success, Diagnostic.print_warning.
    repeat wp_step; use_facts; try reflexivity.
    all: eapply wp_mono; [apply IH | | auto | auto]; auto.
Qed.

Ltac use_known :=
  repeat match goal with
         | Heq : ?x = _ |- context [?x] => rewrite Heq
         end;
  cbn [andb].

Lemma check_vscode_config_verdict w :
  wp Diagnostic.check_vscode_config (fun r _ => r = config_verdict w)
     (fun _ _ => False) (fun _ => False) w.
Proof.
  unfold Diagnostic.check_vscode_config, config_verdict, settings_verdict, settings_path,
    Diagnostic.print_header, Diagnostic.print_success, Diagnostic.print_error.
  repeat wp_eval; try (use_known; reflexivity).
  all: eapply wp_mono; [apply entries_verdict | | | contradiction]; wp_simpl.
  all: intros x w' Hall; repeat wp_step; use_known; reflexivity.
Qed.

Lemma config_check_returns w :
  fst (Diagnostic.check_vscode_config w) = Ret (config_verdict w).
Proof.
  destruct (wp_returns _ _ _ (check_vscode_config_verdict w)) as (r & Hr & ->). exact Hr.
Qed.

Lemma find_servers_found settings keys found :
  Diagnostic.find_servers settings keys = Ok found ->
  forall key, In key found -> In key keys /\ Diagnostic.registers_nixai settings key = Ok true.
Proof.
  revert found. induction keys as [|k keys IH]; intros found Hfound key Hin.
  - injection Hfound as <-. contradiction.
  - cbn [Diagnostic.find_servers] in Hfound.
    destruct (Diagnostic.registers_nixai settings k) as [b|] eqn:Hk; [|discriminate].
    destruct (Diagnostic.find_servers settings keys) as [others|]; [|discriminate].
    cbn [res_bind] in Hfound. injection Hfound as <-.
    destruct b.
    + destruct Hin as [<- | Hin]; [split; [left; reflexivity | exact Hk]|].
      destruct (IH others eq_refl key Hin). split; [right|]; assumption.
    + destruct (IH others eq_refl key Hin). split; [right|]; assumption.
Qed.

Lemma find_servers_raises settings keys key e :
  In key keys -> Diagnostic.registers_nixai settings key = Err e ->
  exists e', Diagnostic.find_servers settings keys = Err e'.
Proof.
  intros Hin Hkey. induction keys as [|k keys IH]; [contradiction|].
  cbn [Diagnostic.find_servers].
  destruct (Diagnostic.registers_nixai settings k) as [b|e0] eqn:Hk; [|eexists; reflexivity].
  destruct Hin as [-> | Hin]; [congruence|].
  destruct (IH Hin) as [e' ->]. eexists. reflexivity.
Qed.

Lemma registers_nixai_inv settings key :
  Diagnostic.registers_nixai settings key = Ok true ->
  py_in key settings = Ok true /\
  exists servers, py_getitem settings key = Ok servers /\ py_in "nixai" servers = Ok true.
Proof.
  unfold Diagnostic.registers_nixai. intros Hreg.
  destruct (py_in key settings) as [[]|]; cbn [res_bind] in Hreg; try discriminate.
  split; [reflexivity|].
  destruct (py_getitem settings key) as [servers|]; cbn [res_bind] in Hreg; [|discriminate].
  exists servers. split; [reflexivity | exact Hreg].
Qed.

(** X12: the settings check passes only if [.vscode/settings.json]
    under the working directory exists, can be read, holds JSON, and
    registers [nixai] under at least one of the four keys [mcp.servers],
    [copilot.mcp.servers], [claude-dev.mcpServers] and [mcpServers]:
    the key is in the settings and ['nixai'] is in what it holds. *)
Theorem config_check_needs_a_registration w :
  fst (Diagnostic.check_vscode_config w) = Ret true ->
  exists f settings key servers,
    files w !! settings_path w = Some f /\ readable f = true /\
    as_json f = Some settings /\
    In key Diagnostic.server_keys /\
    py_in key settings = Ok true /\
    py_getitem settings key = Ok servers /\
    py_in "nixai" servers = Ok true.
Proof.
  rewrite config_check_returns.
  intros [= Hv]. unfold config_verdict in Hv.
  destruct (files w !! settings_path w) as [f|] eqn:Hf; [|discriminate].
  apply andb_true_iff in Hv. destruct Hv as [Hread Hv].
  destruct (as_json f) as [settings|] eqn:Hjson; [|discriminate].
  unfold settings_verdict in Hv.
  destruct (Diagnostic.find_servers settings Diagnostic.server_keys) as [[|key keys]|] eqn:Hfound;
    try discriminate.
  destruct (find_servers_found _ _ _ Hfound key (or_introl eq_refl)) as [Hin Hreg].
  destruct (registers_nixai_inv _ _ Hreg) as (Hkey & servers & Hservers & Hnixai).
  exists f, settings, key, servers.
  split; [reflexivity|]. split; [exact Hread|]. split; [exact Hjson|].
  split; [exact Hin|]. split; [exact Hkey|]. split; [exact Hservers | exact Hnixai].
Qed.

Lemma config_check_needs_a_registration_witness :
  let settings :=
    JObj [("editor.fontSize", JNum 14);
          ("mcpServers",
           JObj [("nixai", JObj [("command", JStr "socat");
                                 ("args", JArr [JStr "STDIO"; JStr Diagnostic.bridge])])])] in
  let f := {| st_size := 200; st_mode := 33188; readable := true; writable := true;
              text := EmptyString; as_json := Some settings |} in
  let w := {| cwd := "/home/user"; cwd_writable := true; umask := 18; backlog_full := false;
              files := {[ "/home/user/.vscode/settings.json" := f ]};
              commands := fun _ => NoSuchCommand; server := []; log := [] |} in
  fst (Diagnostic.check_vscode_config w) = Ret true /\
  exists f' settings' key servers,
    files w !! settings_path w = Some f' /\ readable f' = true /\
    as_json f' = Some settings' /\
    In key Diagnostic.server_keys /\
    py_in key settings' = Ok true /\
    py_getitem settings' key = Ok servers /\
    py_in "nixai" servers = Ok true.
Proof.
  intros settings f w.
  assert (Hrun : fst (Diagnostic.check_vscode_config w) = Ret true)
    by (vm_compute; reflexivity).
  split; [exact Hrun | exact (config_check_needs_a_registration w Hrun)].
Defined.

(** A value that is no container: [in] raises [TypeError] on it. *)
Definition scalar (v : json) : Prop :=
  match v with
  | JNull | JBool _ | JNum _ => True
  | _ => False
  end.

(** X13: one malformed section spoils the settings check.  When one of
    the four keys is present in the settings with a value that is
    [null], a boolean or a number, the test ['nixai' in settings[key]]
    raises, the catch-all handler answers [False], and a proper
    registration under another key is not seen. *)
Theorem config_check_fails_on_a_scalar_section w f kvs key v :
  files w !! settings_path w = Some f ->
  as_json f = Some (JObj kvs) ->
  In key Diagnostic.server_keys ->
  assoc key kvs = Some v ->
  scalar v ->
  fst (Diagnostic.check_vscode_config w) = Ret false.
Proof.
  intros Hf Hjson Hin Hkey Hv. rewrite config_check_returns. f_equal.
  unfold config_verdict. rewrite Hf, Hjson.
  assert (Hreg : Diagnostic.registers_nixai (JObj kvs) key = Err TypeError).
  { unfold Diagnostic.registers_nixai, py_in, py_getitem, has_key. rewrite Hkey.
    cbn [res_bind]. destruct v; try contradiction; reflexivity. }
  destruct (find_servers_raises _ _ _ _ Hin Hreg) as [e' Hraise].
  unfold settings_verdict. rewrite Hraise. apply andb_false_r.
Qed.

Lemma config_check_fails_on_a_scalar_section_witness :
  let settings :=
    JObj [("mcp.servers",
           JObj [("nixai", JObj [("command", JStr "socat");
                                 ("args", JArr [JStr "STDIO"; JStr Diagnostic.bridge])])]);
          ("mcpServers", JNull)] in
  let f := {| st_size := 200; st_mode := 33188; readable := true; writable := true;
              text := EmptyString; as_json := Some settings |} in
  let w := {| cwd := "/home/user"; cwd_writable := true; umask := 18; backlog_full := false;
              files := {[ "/home/user/.vscode/settings.json" := f ]};
              commands := fun _ => NoSuchCommand; server := []; log := [] |} in
  Diagnostic.registers_nixai settings "mcp.servers" = Ok true /\
  fst (Diagnostic.check_vscode_config w) = Ret false.
Proof.
  intros settings f w. split; [reflexivity|].
  assert (Hf : files w !! settings_path w = Some f) by (vm_compute; reflexivity).
  assert (Hin : In "mcpServers" Diagnostic.server_keys)
    by (right; right; right; left; reflexivity).
  exact (config_check_fails_on_a_scalar_section w f _ "mcpServers" JNull
           Hf eq_refl Hin eq_refl I).
Defined.

(** The [args] of a registration, when there are any, are a list of
    strings. *)
Definition args_are_strings (nixai_config : list (string * json)) : Prop :=
  match assoc "args" nixai_config with
  | None => True
  | Some args => exists l, args = JArr (map JStr l)
  end.

Lemma all_strs_map (l : list string) : all_strs (map JStr l) = Some l.
Proof. induction l as [|s l IH]; [reflexivity|]. cbn. rewrite IH. reflexivity. Qed.

Lemma command_format_of_strings (command : json) (l : list string) :
  is_ok (Diagnostic.command_format command (JArr (map JStr l))) = true.
Proof.
  unfold Diagnostic.command_format, py_join, py_len, py_in, py_iter.
  cbn [res_bind]. rewrite all_strs_map.
  destruct (eq_str command "socat"); cbn [res_bind];
    [destruct (2 <=? length (map JStr l))%nat; cbn [res_bind];
     [destruct (existsb _ _); [reflexivity|]|]|].
  all: destruct (eq_str command "bash"); cbn [res_bind]; [|reflexivity].
  all: destruct (existsb _ _); cbn [res_bind]; [|reflexivity].
  all: destruct (contains "socat" _); cbn [res_bind]; [|reflexivity].
  all: destruct (contains _ _); reflexivity.
Qed.

(** What one of the four keys holds does not stop the check: the key
    is absent, or it holds an object in which [nixai] is absent or is an
    object whose [args], if any, are a list of strings. *)
Definition section_ok (kvs : list (string * json)) (key : string) : Prop :=
  match assoc key kvs with
  | None => True
  | Some (JObj servers) =>
      match assoc "nixai" servers with
      | None => True
      | Some (JObj nixai_config) => args_are_strings nixai_config
      | Some _ => False
      end
  | Some _ => False
  end.

(** The key holds an object that has an entry [nixai]. *)
Definition registered (kvs : list (string * json)) (key : string) : bool :=
  match assoc key kvs with
  | Some (JObj servers) => has_key "nixai" servers
  | _ => false
  end.

Lemma registers_nixai_of_section kvs key :
  section_ok kvs key ->
  Diagnostic.registers_nixai (JObj kvs) key = Ok (registered kvs key).
Proof.
  unfold section_ok, registered, Diagnostic.registers_nixai, py_in, py_getitem, has_key.
  destruct (assoc key kvs) as [[| | | | |servers]|]; cbn [res_bind]; try contradiction;
    reflexivity.
Qed.

Lemma find_servers_of_sections kvs keys :
  (forall key, In key keys -> section_ok kvs key) ->
  Diagnostic.find_servers (JObj kvs) keys = Ok (List.filter (registered kvs) keys).
Proof.
  induction keys as [|key keys IH]; intros Hok; [reflexivity|].
  cbn [Diagnostic.find_servers List.filter].
  rewrite (registers_nixai_of_section kvs key) by (apply Hok; left; reflexivity).
  cbn [res_bind]. rewrite IH by (intros k Hk; apply Hok; right; exact Hk).
  cbn [res_bind]. reflexivity.
Qed.

Lemma entry_checked_of_section kvs key :
  section_ok kvs key -> registered kvs key = true -> entry_checked (JObj kvs) key = true.
Proof.
  unfold section_ok, registered, entry_checked, py_getitem, py_get, has_key.
  destruct (assoc key kvs) as [[| | | | |servers]|]; try discriminate.
  cbn [res_bind].
  destruct (assoc "nixai" servers) as [[| | | | |nixai_config]|]; try contradiction;
    try discriminate.
  intros Hargs _. cbn [res_bind]. unfold args_are_strings in Hargs.
  destruct (assoc "command" nixai_config) as [command|]; cbn [res_bind];
    (destruct (assoc "args" nixai_config) as [args|]; cbn [res_bind];
     [ destruct Hargs as [l ->]; apply command_format_of_strings
     | apply (command_format_of_strings _ []) ]).
Qed.

(** X14: the command of a registration never changes the verdict.  The
    settings are an object with any keys.  When each of the four keys
    [mcp.servers], [copilot.mcp.servers], [claude-dev.mcpServers] and
    [mcpServers] that is present holds an object, in which [nixai], if
    present, is an object whose [args], if any, are a list of strings,
    and when at least one of the four registers [nixai], the check
    passes whatever the [command] and the [args] of the registrations
    are: a command that is neither of the two expected forms only prints
    a warning. *)
Theorem config_check_passes_whatever_the_command w f kvs :
  files w !! settings_path w = Some f ->
  readable f = true ->
  as_json f = Some (JObj kvs) ->
  (forall key, In key Diagnostic.server_keys -> section_ok kvs key) ->
  (exists key, In key Diagnostic.server_keys /\ registered kvs key = true) ->
  fst (Diagnostic.check_vscode_config w) = Ret true.
Proof.
  intros Hf Hread Hjson Hok (key & Hin & Hreg). rewrite config_check_returns. f_equal.
  unfold config_verdict. rewrite Hf, Hread, Hjson. cbn [andb].
  unfold settings_verdict. rewrite (find_servers_of_sections kvs _ Hok).
  assert (Hfound : In key (List.filter (registered kvs) Diagnostic.server_keys))
    by (apply filter_In; split; assumption).
  destruct (List.filter (registered kvs) Diagnostic.server_keys) as [|k found] eqn:Hfilter;
    [contradiction|].
  apply forallb_forall. intros k' Hk'. rewrite <- Hfilter in Hk'.
  apply filter_In in Hk'. destruct Hk' as [Hin' Hreg'].
  apply entry_checked_of_section; [apply Hok, Hin' | exact Hreg'].
Qed.

Lemma config_check_passes_whatever_the_command_witness :
  let kvs :=
    [("editor.fontSize", JNum 14);
     ("copilot.mcp.servers",
      JObj [("nixai", JObj [("command", JStr "netcat");
                            ("args", JArr (map JStr ["-U"; "/tmp/other.sock"]))])]);
     ("mcpServers", JObj [("other", JObj [("command", JStr "true")])])] in
  let f := {| st_size := 200; st_mode := 33188; readable := true; writable := true;
              text := EmptyString; as_json := Some (JObj kvs) |} in
  let w := {| cwd := "/home/user"; cwd_writable := true; umask := 18; backlog_full := false;
              files := {[ "/home/user/.vscode/settings.json" := f ]};
              commands := fun _ => NoSuchCommand; server := []; log := [] |} in
  fst (Diagnostic.check_vscode_config w) = Ret true /\
  In (Print Warning "{} may have incorrect command format: {} {}"
            [JStr "copilot.mcp.servers"; JStr "netcat";
             JArr [JStr "-U"; JStr "/tmp/other.sock"]])
     (log (snd (Diagnostic.check_vscode_config w))).
Proof.
  intros kvs f w.
  assert (Hf : files w !! settings_path w = Some f) by (vm_compute; reflexivity).
  assert (Hok : forall key, In key Diagnostic.server_keys -> section_ok kvs key).
  { intros key [<- | [<- | [<- | [<- | []]]]]; try exact I.
    exists ["-U"; "/tmp/other.sock"]. reflexivity. }
  assert (Hreg : exists key, In key Diagnostic.server_keys /\ registered kvs key = true).
  { exists "copilot.mcp.servers". split; [right; left; reflexivity | reflexivity]. }
  split.
  - exact (config_check_passes_whatever_the_command w f kvs Hf eq_refl eq_refl Hok Hreg).
  - vm_compute. repeat first [ left; reflexivity | right ].
Defined.

(** ** vscode_mcp_diagnostic.py: the summary of a run *)

Lemma wp_conj {A} (m : M A) Q1 Q2 E1 E2 H1 H2 w :
  wp m Q1 E1 H1 w -> wp m Q2 E2 H2 w ->
  wp m (fun a w' => Q1 a w' /\ Q2 a w') (fun e w' => E1 e w' /\ E2 e w')
     (fun w' => H1 w' /\ H2 w') w.
Proof. unfold wp. destruct (m w) as [[a | e |] w']; auto. Qed.

(** The six entries in the order the checks are made. *)
Lemma values_of_results r1 r2 r3 r4 r5 r6 :
  Permutation (Diagnostic.values (results_of r1 r2 r3 r4 r5 r6)) [r6; r5; r4; r3; r2; r1].
Proof.
  unfold Diagnostic.values, results_of.
  repeat (rewrite map_to_list_insert;
          [cbn [map snd]; apply Permutation_cons; [reflexivity|]
          | repeat (rewrite lookup_insert_ne by discriminate); apply lookup_empty]).
  rewrite map_to_list_empty. reflexivity.
Qed.

Lemma forallb_perm {A} (f : A -> bool) (l l' : list A) :
  Permutation l l' -> forallb f l = forallb f l'.
Proof.
  induction 1 as [| x l l' _ IH | x y l | l l' l'' _ IH1 _ IH2]; cbn.
  - reflexivity.
  - rewrite IH. reflexivity.
  - destruct (f x), (f y); reflexivity.
  - congruence.
Qed.

Lemma count_perm {A} (f : A -> bool) (l l' : list A) :
  Permutation l l' -> length (List.filter f l) = length (List.filter f l').
Proof.
  induction 1 as [| x l l' _ IH | x y l | l l' l'' _ IH1 _ IH2]; cbn.
  - reflexivity.
  - destruct (f x); cbn; rewrite IH; reflexivity.
  - destruct (f x), (f y); reflexivity.
  - congruence.
Qed.

Lemma size_of_results r1 r2 r3 r4 r5 r6 : size (results_of r1 r2 r3 r4 r5 r6) = 6%nat.
Proof.
  unfold results_of.
  repeat (rewrite map_size_insert_None
            by (repeat (rewrite lookup_insert_ne by discriminate); apply lookup_empty)).
  rewrite map_size_empty. reflexivity.
Qed.

(** How many of the checks passed. *)
Definition passed_checks (rs : list bool) : nat := length (List.filter (fun b => b) rs).

(** The lines the summary ends the run with. *)
Definition summary_lines (r1 r2 r3 r4 r5 r6 : bool) : list event :=
  [Print Header "Diagnostic Summary" [];
   Print Plain "Results: {}/{} checks passed"
         [JNum (Z.of_nat (passed_checks [r1; r2; r3; r4; r5; r6])); JNum 6];
   (if r1 && r2 && r3 then Print Success "MCP server is working correctly!" []
    else Print Error "MCP server has issues - see diagnostics above" []);
   (if r4 && r5 then Print Success "VS Code appears to be properly configured" []
    else Print Warning "VS Code configuration needs attention" [])]
  ++ (if r1 && r2 && r3 && r4 && r5 && r6 then
        [Print Plain "All checks passed! VS Code MCP integration should work." [];
         Print Plain
           "If you're still having issues, follow the manual activation steps above." []]
      else
        [Print Plain "Some checks failed. Follow recommendations above to fix issues." []]).

Lemma diagnostic_summary_lines r1 r2 r3 r4 r5 r6 w :
  wp (Diagnostic.diagnostic_summary (results_of r1 r2 r3 r4 r5 r6))
     (fun _ w' => log w' = (log w ++ summary_lines r1 r2 r3 r4 r5 r6)%list)
     (fun _ _ => False) (fun _ => False) w.
Proof.
  destruct (dict_get_results r1 r2 r3 r4 r5 r6) as (E1 & E2 & E3 & E4 & E5 & E6).
  unfold Diagnostic.diagnostic_summary, Diagnostic.all_values, Diagnostic.and_then, res_bind,
    Diagnostic.print_header, Diagnostic.print_success, Diagnostic.print_error,
    Diagnostic.print_warning.
  rewrite E1, E2, E3, E4, E5. clear E1 E2 E3 E4 E5 E6.
  rewrite (forallb_perm _ _ _ (values_of_results r1 r2 r3 r4 r5 r6)).
  rewrite (count_perm _ _ _ (values_of_results r1 r2 r3 r4 r5 r6)).
  rewrite size_of_results.
  unfold summary_lines, passed_checks.
  destruct r1, r2, r3, r4, r5, r6; cbn [forallb andb]; repeat wp_step;
    cbn [log emit app]; rewrite <- ?app_assoc; reflexivity.
Qed.

(** What each of the six checks answers on a host: the first three by
    what makes them pass, the last three as functions of the host.  The
    sixth opens the test file for writing: a file that is there decides
    by its own write permission, the working directory decides when
    there is none. *)
Definition checks_agree (w : world) (r1 r2 r3 r4 r5 r6 : bool) : Prop :=
  (r1 = true <->
   exists out, commands w pgrep_argv = Exited 0 out /\ strip out <> EmptyString) /\
  (r2 = true <-> exists f, files w !! socket_path = Some f /\ st_size f <> 0%Z) /\
  (r3 = true <-> protocol_ok w) /\
  r4 = config_verdict w /\
  r5 = extensions_verdict w /\
  r6 = match files w !! path_join (cwd w) Diagnostic.test_file with
       | Some old => writable old
       | None => cwd_writable w
       end.

Lemma check_mcp_server_running_server w :
  wp Diagnostic.check_mcp_server_running (fun _ w' => server w' = server w)
     (fun _ _ => False) (fun _ => False) w.
Proof.
  unfold Diagnostic.check_mcp_server_running, Diagnostic.print_header,
    Diagnostic.print_success, Diagnostic.print_error, Diagnostic.print_info.
  repeat wp_step; reflexivity.
Qed.

Lemma protocol_ok_same w0 w :
  files w = files w0 -> backlog_full w = backlog_full w0 -> server w = server w0 ->
  protocol_ok w <-> protocol_ok w0.
Proof. intros Hf Hb Hs. unfold protocol_ok. rewrite Hf, Hb, Hs. reflexivity. Qed.

Lemma config_verdict_same w0 w :
  same_host w0 w -> config_verdict w = config_verdict w0.
Proof.
  intros (Hc & _ & _ & _ & _ & Hf). unfold config_verdict, settings_path.
  rewrite Hc, Hf. reflexivity.
Qed.

Lemma run_checks_verdicts w :
  wp Diagnostic.run_checks
     (fun results _ =>
        exists r1 r2 r3 r4 r5 r6,
          results = results_of r1 r2 r3 r4 r5 r6 /\ checks_agree w r1 r2 r3 r4 r5 r6)
     (fun _ _ => False) (fun _ => False) w.
Proof.
  pose proof (keeps_trivial w) as H0. unfold Diagnostic.run_checks.
  apply wp_bind. eapply wp_mono;
    [ apply wp_conj; [apply wp_conj; [apply check_mcp_server_running_verdict
                                     | apply check_mcp_server_running_server]
                     | apply (check_mcp_server_running_keeps (fun _ => True) (fun _ => True)) with (w0 := w); auto]
    | | intros e w' [[[] _] _] | intros w' [[[] _] _] ].
  intros r1 w1 [[Hr1 Hs1] H1]. cbv beta zeta.
  apply wp_bind. eapply wp_mono;
    [ apply wp_conj; [apply check_unix_socket_spec
                     | apply (check_unix_socket_keeps (fun _ => True) (fun _ => True)) with (w0 := w); auto]
    | | intros e w' [[] _] | intros w' [[] _] ].
  intros r2 w2 [(Hr2 & Hs2 & _) H2]. cbv beta zeta.
  apply wp_bind. eapply wp_mono;
    [ apply wp_conj; [apply diagnostic_protocol_verdict
                     | apply (test_mcp_protocol_keeps (fun _ => True) (fun _ => True)) with (w0 := w); auto]
    | | intros e w' [[] _] | intros w' [[] _] ].
  intros r3 w3 [Hr3 H3]. cbv beta zeta.
  apply wp_bind. eapply wp_mono;
    [ apply wp_conj; [apply check_vscode_config_verdict
                     | apply (check_vscode_config_keeps (fun _ => True) (fun _ => True)) with (w0 := w); auto]
    | | intros e w' [[] _] | intros w' [[] _] ].
  intros r4 w4 [Hr4 H4]. cbv beta zeta.
  apply wp_bind. eapply wp_mono;
    [ apply (check_vscode_extensions_keeps (fun _ => True) (fun _ => True)) with (w0 := w); auto
    | | contradiction | contradiction ].
  intros r5 w5 [Hr5 H5]. cbv beta zeta.
  apply wp_bind. eapply wp_mono;
    [ apply (create_test_file_spec (fun _ => True) (fun _ => True)) with (w0 := w); auto
    | | contradiction | contradiction ].
  intros r6 w6 [Hr6 _]. cbv beta zeta.
  apply wp_ret. exists r1, r2, r3, r4, r5, r6. split; [reflexivity|].
  destruct H1 as [(Hc1 & Hw1 & Hu1 & Hb1 & Hcmd1 & Hf1) _].
  destruct H2 as [(Hc2 & Hw2 & Hu2 & Hb2 & Hcmd2 & Hf2) _].
  repeat split.
  - apply Hr1.
  - apply Hr1.
  - intros Hr. apply Hr2 in Hr. rewrite Hf1 in Hr. exact Hr.
  - intros Hr. apply Hr2. rewrite Hf1. exact Hr.
  - intros Hr. apply Hr3 in Hr.
    apply (protocol_ok_same w w2); [exact Hf2 | exact Hb2 | congruence | exact Hr].
  - intros Hr. apply Hr3.
    apply (protocol_ok_same w w2); [exact Hf2 | exact Hb2 | congruence | exact Hr].
  - rewrite Hr4. apply config_verdict_same. apply H3.
  - rewrite Hr5. apply (extensions_verdict_same (fun _ => True)), H4.
  - exact Hr6.
Qed.

Lemma diagnostic_main_lines w :
  wp Diagnostic.main
     (fun _ w' =>
        exists before r1 r2 r3 r4 r5 r6,
          checks_agree w r1 r2 r3 r4 r5 r6 /\
          log w' = (before ++ summary_lines r1 r2 r3 r4 r5 r6)%list)
     (fun _ _ => False) (fun _ => False) w.
Proof.
  unfold Diagnostic.main.
  apply wp_bind, wp_say. cbv beta.
  apply wp_bind. eapply wp_mono; [apply run_checks_verdicts | | contradiction | contradiction].
  intros results w1 (r1 & r2 & r3 & r4 & r5 & r6 & -> & Hagree). cbv beta.
  unfold Diagnostic.provide_manual_activation_steps, Diagnostic.print_header.
  repeat wp_step.
  eapply wp_mono; [apply diagnostic_summary_lines | | contradiction | contradiction].
  intros [] w2 Hlog. repeat wp_step.
  eexists _, r1, r2, r3, r4, r5, r6. split; [exact Hagree | exact Hlog].
Qed.

(** X15: what the diagnostic ends its run with.  The six checks answer
    as their own criteria say, each judged on the host as it was at the
    start (no check changes what a later one looks at), and the last
    lines of the output are the summary of these six answers: the
    number of checks that passed out of 6, the verdict on the server
    from the first three, the verdict on the editor from the fourth and
    fifth, and [All checks passed!] exactly when all six passed. *)
Theorem diagnostic_summary_reports_the_checks w :
  exists before r1 r2 r3 r4 r5 r6,
    checks_agree w r1 r2 r3 r4 r5 r6 /\
    log (snd (Diagnostic.main w)) = (before ++ summary_lines r1 r2 r3 r4 r5 r6)%list.
Proof.
  destruct (wp_returns _ _ _ (diagnostic_main_lines w)) as (r & _ & Hlines). exact Hlines.
Qed.

(** ** vscode_mcp_diagnostic.py: the test file *)

Lemma create_test_file_files w :
  wp Diagnostic.create_test_file
     (fun r w' =>
        r = may_write w Diagnostic.test_file /\
        cwd w' = cwd w /\ cwd_writable w' = cwd_writable w /\
        files w' = if may_write w Diagnostic.test_file
                   then <[path_join (cwd w) Diagnostic.test_file
                          := written_file w Diagnostic.test_file
                               Diagnostic.test_file_content None]> (files w)
                   else files w)
     (fun _ _ => False) (fun _ => False) w.
Proof.
  eapply wp_mono;
    [ apply (create_test_file_spec (fun _ => True) (fun _ => True)) with (w0 := w);
      auto using keeps_trivial
    | | contradiction | contradiction ].
  intros r w' (Hr & Hc & Hw & _ & _ & Hf). auto.
Qed.

(** The owner may write to a file that was created exactly when the
    umask leaves the bit [0o200]. *)
Lemma created_mode_owner_write w :
  Z.testbit (created_mode w) 7 = negb (Z.testbit (umask w) 7).
Proof.
  unfold created_mode.
  assert (Hno : Z.land 32768 (Z.land 438 (Z.lnot (umask w))) = 0%Z)
    by (rewrite Z.land_assoc; reflexivity).
  rewrite (Z.add_nocarry_lxor _ _ Hno), (Z.lxor_lor _ _ Hno).
  rewrite Z.lor_spec, Z.land_spec, Z.lnot_spec by lia. reflexivity.
Qed.

(** X16: creating the test file twice.  The first call answers [True]
    exactly when [open] lets it write: by the write permission of the
    file when it is already there, by that of the working directory
    when it is not.  It then leaves the file with the text of the
    script, and with the mode it had, or the mode the umask leaves when
    it is new; when it answers [False] no file changes.  The second call
    changes nothing in the files the first one left.  It answers as the
    first, except when the first created the file under a umask that
    takes the owner's write permission away: then the second call finds
    a file it may not write to and answers [False]. *)
Theorem create_test_file_twice w :
  let once := Diagnostic.create_test_file w in
  let twice := Diagnostic.create_test_file (snd once) in
  let path := path_join (cwd w) Diagnostic.test_file in
  fst once = Ret (match files w !! path with
                  | Some old => writable old
                  | None => cwd_writable w
                  end) /\
  fst twice = Ret (match files w !! path with
                   | Some old => writable old
                   | None => cwd_writable w && negb (Z.testbit (umask w) 7)
                   end) /\
  files (snd twice) = files (snd once) /\
  (fst once = Ret true ->
   exists f, files (snd once) = <[path := f]> (files w) /\
             text f = Diagnostic.test_file_content /\
             st_size f = Z.of_nat (String.length Diagnostic.test_file_content) /\
             st_mode f = match files w !! path with
                         | Some old => st_mode old
                         | None => (32768 + Z.land 438 (Z.lnot (umask w)))%Z
                         end) /\
  (fst once = Ret false -> files (snd once) = files w).
Proof.
  cbv zeta.
  destruct (wp_returns _ _ _ (create_test_file_files w)) as (r1 & Hr1 & -> & Hc1 & Hw1 & Hf1).
  destruct (wp_returns _ _ _ (create_test_file_files (snd (Diagnostic.create_test_file w))))
    as (r2 & Hr2 & -> & Hc2 & Hw2 & Hf2).
  rewrite Hr1, Hr2, Hf2. clear Hr1 Hr2 Hf2 Hc2 Hw2.
  unfold may_write, written_file in *.
  change (resolve (snd (Diagnostic.create_test_file w)) Diagnostic.test_file)
    with (path_join (cwd (snd (Diagnostic.create_test_file w))) Diagnostic.test_file).
  change (resolve w Diagnostic.test_file)
    with (path_join (cwd w) Diagnostic.test_file) in *.
  rewrite Hc1, Hw1, Hf1. clear Hc1 Hw1 Hf1.
  destruct (files w !! path_join (cwd w) Diagnostic.test_file) as [old|] eqn:Hold.
  - destruct (writable old) eqn:Hwr.
    + rewrite lookup_insert_eq. cbn [rewritten_file writable]. rewrite Hwr.
      split; [reflexivity | split; [reflexivity | split; [apply insert_insert_eq|]]].
      split; [|discriminate]. intros _. eexists. split; [reflexivity|]. repeat split.
    + rewrite ?Hold, ?Hwr.
      split; [reflexivity | split; [reflexivity | split; [reflexivity|]]].
      split; [discriminate | reflexivity].
  - destruct (cwd_writable w) eqn:Hcw.
    + rewrite lookup_insert_eq. cbn [created_file writable andb].
      rewrite created_mode_owner_write.
      split; [reflexivity | split; [reflexivity | split]].
      * destruct (negb (Z.testbit (umask w) 7)); [|reflexivity].
        cbn [rewritten_file]. apply insert_insert_eq.
      * split; [|discriminate]. intros _. eexists. split; [reflexivity|]. repeat split.
    + rewrite ?Hold, ?Hcw.
      split; [reflexivity | split; [reflexivity | split; [reflexivity|]]].
      split; [discriminate | reflexivity].
Qed.

(** ** vscode_mcp_diagnostic.py: the permissions of the socket *)

(** X17: on a socket file that exists with a size other than 0 the
    socket check passes whatever the permission bits are.  Its output is
    the header, then a warning with the bits exactly when they are not
    [0o755], then the success line. *)
Theorem socket_permissions_only_warn w f :
  files w !! socket_path = Some f ->
  st_size f <> 0%Z ->
  let run := Diagnostic.check_unix_socket w in
  let bits := Z.land (st_mode f) 511 in
  fst run = Ret true /\
  log (snd run)
  = (log w ++ [Print Header "Checking Unix Socket" []]
       ++ (if (bits =? 493)%Z then []
           else [Print Warning "Socket has unusual permissions: {}" [JNum bits]])
       ++ [Print Success "Unix socket exists: {}" [JStr socket_path]])%list.
Proof.
  intros Hf Hsize. cbv zeta.
  assert (Hwp : wp Diagnostic.check_unix_socket
            (fun r w' =>
               r = true /\
               log w'
               = (log w ++ [Print Header "Checking Unix Socket" []]
                    ++ (if (Z.land (st_mode f) 511 =? 493)%Z then []
                        else [Print Warning "Socket has unusual permissions: {}"
                                    [JNum (Z.land (st_mode f) 511)]])
                    ++ [Print Success "Unix socket exists: {}" [JStr socket_path]])%list)
            (fun _ _ => False) (fun _ => False) w).
  { unfold Diagnostic.check_unix_socket, Diagnostic.print_header, Diagnostic.print_success,
      Diagnostic.print_error, Diagnostic.print_warning.
    apply Z.eqb_neq in Hsize.
    repeat wp_step; simplify_eq; try congruence.
    all: split; [reflexivity|]; cbn [log emit negb] in *.
    all: destruct (Z.land (st_mode f) 511 =? 493)%Z; try discriminate.
    all: rewrite <- ?app_assoc; reflexivity. }
  apply wp_returns in Hwp. destruct Hwp as (r & Hr & -> & Hlog).
  split; assumption.
Qed.

Lemma socket_permissions_only_warn_witness :
  let f := {| st_size := 1; st_mode := 49590; readable := true; writable := true;
              text := EmptyString; as_json := None |} in
  let w := {| cwd := "/"; cwd_writable := false; umask := 18; backlog_full := false;
              files := {[ socket_path := f ]};
              commands := fun _ => NoSuchCommand; server := []; log := [] |} in
  fst (Diagnostic.check_unix_socket w) = Ret true /\
  log (snd (Diagnostic.check_unix_socket w))
  = [Print Header "Checking Unix Socket" [];
     Print Warning "Socket has unusual permissions: {}" [JNum 438];
     Print Success "Unix socket exists: {}" [JStr socket_path]].
Proof.
  intros f w.
  assert (Hf : files w !! socket_path = Some f) by (vm_compute; reflexivity).
  assert (Hsize : st_size f <> 0%Z) by discriminate.
  exact (socket_permissions_only_warn w f Hf Hsize).
Defined.

(** ** vscode_mcp_diagnostic.py: the extensions that are reported *)

(** The entry of [missing_extensions] for a required extension. *)
Definition missing_label (ext : string * string) : string :=
  snd ext ++ " (" ++ fst ext ++ ")".

Lemma not_installed_iff (extensions : list string) (ext_id : string) :
  Diagnostic.installed extensions ext_id = false <->
  ~ exists e, In e extensions /\ lower e = lower ext_id.
Proof.
  rewrite <- installed_iff. destruct (Diagnostic.installed extensions ext_id);
    split; intros H; try discriminate; try reflexivity; try (intros H'; discriminate).
  exfalso. apply H. reflexivity.
Qed.

Ltac nodup_done :=
  repeat first [ apply List.NoDup_nil
               | apply List.NoDup_cons;
                 [let H := fresh in intros H; vm_compute in H; intuition discriminate|] ].

Lemma extensions_by_installed (extensions : list string) :
  let found := Diagnostic.found_extensions extensions in
  let missing := Diagnostic.missing_extensions extensions in
  (length found + length missing = 3)%nat /\
  List.NoDup found /\ List.NoDup missing /\
  (forall ext, In ext Diagnostic.required_extensions ->
     (In (snd ext) found <-> Diagnostic.installed extensions (fst ext) = true) /\
     (In (missing_label ext) missing <-> Diagnostic.installed extensions (fst ext) = false)).
Proof.
  cbv zeta. unfold Diagnostic.found_extensions, Diagnostic.missing_extensions,
    Diagnostic.required_extensions, missing_label.
  cbn [List.filter fst snd In].
  destruct (Diagnostic.installed extensions "automatalabs.copilot-mcp") eqn:H1,
           (Diagnostic.installed extensions "zebradev.mcp-server-runner") eqn:H2,
           (Diagnostic.installed extensions "saoudrizwan.claude-dev") eqn:H3;
    cbn [negb map length fst snd In Nat.add].
  all: split; [reflexivity|].
  all: split; [nodup_done|].
  all: split; [nodup_done|].
  all: intros ext [<- | [<- | [<- | []]]]; cbn [fst snd]; rewrite ?H1, ?H2, ?H3.
  all: split; split; intros H; try reflexivity; try discriminate H; cbn [In] in *.
  all: repeat (destruct H as [H | H]; try discriminate H); try contradiction.
  all: auto 6.
Qed.

(** X18: whatever the editor lists, each of the three required
    extensions is reported exactly once: under its name among the found
    ones when the listing holds an identifier that equals its
    identifier, letter case aside, and with name and identifier among
    the missing ones when there is no such identifier.  Neither list
    repeats an entry and together they have three. *)
Theorem every_required_extension_is_reported (extensions : list string) :
  let found := Diagnostic.found_extensions extensions in
  let missing := Diagnostic.missing_extensions extensions in
  (length found + length missing = 3)%nat /\
  List.NoDup found /\ List.NoDup missing /\
  (forall ext, In ext Diagnostic.required_extensions ->
     (In (snd ext) found <-> exists e, In e extensions /\ lower e = lower (fst ext)) /\
     (In (missing_label ext) missing <->
      ~ exists e, In e extensions /\ lower e = lower (fst ext))).
Proof.
  cbv zeta. destruct (extensions_by_installed extensions) as (Hlen & Hf & Hm & Hall).
  split; [exact Hlen | split; [exact Hf | split; [exact Hm|]]].
  intros ext Hin. destruct (Hall ext Hin) as [Hfound Hmissing].
  rewrite Hfound, Hmissing, installed_iff, not_installed_iff. split; reflexivity.
Qed.

(** ** tests/mcp/test_mcp_protocol.py: the tools that are listed *)

(** What step 2 prints for one tool: its [name], or [unknown]. *)
Definition tool_line (tool : list (string * json)) : event :=
  Print Plain "  - {}"
        [match assoc "name" tool with Some name => name | None => JStr "unknown" end].

Lemma tools_are_listed (tools : list (list (string * json))) (E : exn -> world -> Prop) w :
  wp (for_each (map JObj tools) (fun tool =>
        let* name := lift (py_get tool "name" (JStr "unknown")) in
        say Plain "  - {}" [name]))
     (fun _ w' => w' = fold_left (fun w0 tool => emit (tool_line tool) w0) tools w)
     E (fun _ => False) w.
Proof.
  revert w. induction tools as [|tool tools IH]; intros w.
  - reflexivity.
  - cbn [map for_each fold_left]. unfold tool_line at 2.
    repeat wp_eval; apply IH.
Qed.

Lemma log_fold_emit (evs : list event) w :
  log (fold_left (fun w0 e => emit e w0) evs w) = (log w ++ evs)%list.
Proof.
  revert w. induction evs as [|e evs IH]; intros w; cbn [fold_left].
  - rewrite app_nil_r. reflexivity.
  - rewrite IH. cbn [log emit]. rewrite <- app_assoc. reflexivity.
Qed.

Lemma fold_left_map {A B C} (f : C -> B -> C) (g : A -> B) (l : list A) (c : C) :
  fold_left f (map g l) c = fold_left (fun c a => f c (g a)) l c.
Proof. revert c. induction l as [|a l IH]; intros c; [reflexivity | apply IH]. Qed.

(** X19: step 2 of the protocol test on a reply that lists tools.  When
    the reply is an object whose [result] is an object whose [tools] is
    a list of objects, the step prints the number of tools and then one
    line for each tool, in the order of the list, with the tool's [name]
    or [unknown] when it has none; the step returns and the connection
    goes on with what follows the reply. *)
Theorem test2_lists_every_tool s kvs result tools rest w :
  peer s = reply (JObj kvs) :: rest ->
  assoc "result" kvs = Some (JObj result) ->
  assoc "tools" result = Some (JArr (map JObj tools)) ->
  let run := TestMcpProtocol.test2 s w in
  fst run = Ret (advanced s rest) /\
  log (snd run)
  = (log w
       ++ [Print Plain "Test 2: Tools List Request" [];
           Send (line TestMcpProtocol.tools_request);
           Recv 4096;
           Print Plain "Received tools list response" [];
           Print Plain "Found {} tools:" [JNum (Z.of_nat (length tools))]]
       ++ map tool_line tools)%list.
Proof.
  intros Hp Hresult Htools. cbv zeta.
  assert (Hwp : wp (TestMcpProtocol.test2 s)
            (fun s' w' =>
               s' = advanced s rest /\
               log w'
               = (log w
                    ++ [Print Plain "Test 2: Tools List Request" [];
                        Send (line TestMcpProtocol.tools_request);
                        Recv 4096;
                        Print Plain "Received tools list response" [];
                        Print Plain "Found {} tools:" [JNum (Z.of_nat (length tools))]]
                    ++ map tool_line tools)%list)
            (fun _ _ => False) (fun _ => False) w).
  { assert (Hin : has_key "result" kvs = true) by (unfold has_key; rewrite Hresult; reflexivity).
    assert (Hin' : has_key "tools" result = true)
      by (unfold has_key; rewrite Htools; reflexivity).
    unfold TestMcpProtocol.test2, advanced, line, reply in *.
    wp_run.
    eapply wp_mono; [apply tools_are_listed | | | contradiction]; wp_simpl.
    - intros [] w' ->. repeat wp_step. split; [reflexivity|].
      rewrite <- (fold_left_map (fun w0 e => emit e w0) tool_line), log_fold_emit.
      cbn [log emit]. rewrite length_map, <- !app_assoc. reflexivity.
    - intros e' w' He. exact He. }
  apply wp_returns in Hwp. destruct Hwp as (s' & Hs' & -> & Hlog).
  split; assumption.
Qed.

Lemma test2_lists_every_tool_witness :
  let tools := [[("name", JStr "query_nixos_docs"); ("description", JStr "Query docs")];
                [("description", JStr "no name")]] in
  let result := [("tools", JArr (map JObj tools))] in
  let kvs := [("jsonrpc", JStr "2.0"); ("id", JNum 2); ("result", JObj result)] in
  let s := {| timeout := None; peer := [reply (JObj kvs)] |} in
  let run := TestMcpProtocol.test2 s (Fixtures.host []) in
  fst run = Ret (advanced s []) /\
  log (snd run)
  = [Print Plain "Test 2: Tools List Request" [];
     Send (line TestMcpProtocol.tools_request);
     Recv 4096;
     Print Plain "Received tools list response" [];
     Print Plain "Found {} tools:" [JNum 2];
     Print Plain "  - {}" [JStr "query_nixos_docs"];
     Print Plain "  - {}" [JStr "unknown"]].
Proof.
  intros tools result kvs s.
  exact (test2_lists_every_tool s kvs result tools [] (Fixtures.host [])
           eq_refl eq_refl eq_refl).
Defined.

(** ** tests/vscode/test_vscode_mcp_integration.py

    The functions that talk to the socket and read the settings; the
    sockets are created and never given a timeout. *)
Module VscodeIntegration.

Definition test_socket_connection : M bool :=
  say Plain "Testing Unix socket connection..." [] >>
  try_except
    (let* sock0 := connect socket_new socket_path in
     say Plain "Unix socket connection successful" [] >>
     close sock0 >>
     ret true)
    any_exception
    (fun _ => say Plain "Socket connection failed: {}" [] >> ret false).

Definition init_request : json :=
  request 1 "initialize"
    (initialize_params
       (JObj [("roots", JObj [("listChanged", JBool true)]); ("sampling", JObj [])])
       "vscode-test").

Definition test_mcp_protocol : M bool :=
  say Plain "Testing MCP protocol..." [] >>
  try_except
    (let* sock0 := connect socket_new socket_path in
     let message := json_dumps init_request ++ str1 LF in
     sendall sock0 message >>
     let* '(received, sock1) := recv sock0 4096 in
     let* response := lift (decode received) in
     let* data := lift (json_loads response) in
     let* has_result := lift (py_in "result" data) in
     if has_result then
       say Plain "MCP protocol initialization successful" [] >>
       close sock1 >>
       ret true
     else
       say Plain "MCP protocol failed: {}" [data] >>
       close sock1 >>
       ret false)
    any_exception
    (fun _ => say Plain "MCP protocol test failed: {}" [] >> ret false).

(** The list literal of lines 75-79. *)
Definition settings_files : list string :=
  ["/home/olafkfreund/Source/NIX/nix-ai-help/.vscode/settings.json";
   "/home/olafkfreund/Source/NIX/nix-ai-help/.vscode/mcp-settings.json";
   "/home/olafkfreund/.config/Code/User/mcp-settings.json"].

(** ['mcpServers' in config or 'mcp.servers' in config]. *)
Definition has_mcp_configuration (config : json) : res bool :=
  res_bind (py_in "mcpServers" config) (fun found =>
    if found then Ok true else py_in "mcp.servers" config).

(** Lines 82-94: the body of the loop. *)
Definition check_settings_file (settings_file : string) : M unit :=
  let* present := path_exists settings_file in
  if present then
    say Plain "Found: {}" [JStr settings_file] >>
    try_except
      (let* config := load_json_file settings_file in
       let* configured := lift (has_mcp_configuration config) in
       if configured then say Plain "MCP configuration found in {}" [JStr settings_file]
       else say Plain "No MCP configuration in {}" [JStr settings_file])
      any_exception
      (fun _ => say Plain "Error reading {}: {}" [JStr settings_file])
  else say Plain "Missing: {}" [JStr settings_file].

Definition check_vscode_settings : M pyval :=
  say Plain "Checking VS Code MCP configuration..." [] >>
  for_each settings_files check_settings_file >>
  ret VNone.

End VscodeIntegration.

(** The server accepts the connection and the first answer on it holds
    ['result']. *)
Definition answers_with_result (w : world) : Prop :=
  exists f data c rest,
    files w !! socket_path = Some f /\
    server w = (reply data :: c) :: rest /\
    backlog_full w = false /\
    py_in "result" data = Ok true.

Lemma integration_socket_verdict w :
  wp VscodeIntegration.test_socket_connection
     (fun r _ => r = true <-> accepting w) (fun _ _ => False)
     (fun _ => never_accepted w) w.
Proof.
  unfold VscodeIntegration.test_socket_connection.
  repeat wp_eval.
  all: try (split; [intros Hr; try discriminate
                   | intros (f' & c' & rest' & Hf' & Hs' & Hb')]; congruence).
  - exists f, c, l. auto.
  - split; [intros _; exists f, c, l; auto | reflexivity].
Qed.

Lemma integration_socket_blocks w :
  never_accepted w ->
  wp VscodeIntegration.test_socket_connection
     (fun _ _ => False) (fun _ _ => False) (fun _ => True) w.
Proof.
  intros (f & c & rest & Hf & Hs & Hb). unfold VscodeIntegration.test_socket_connection.
  repeat wp_step; simplify_eq. exact I.
Qed.

Lemma integration_protocol_verdict w :
  wp VscodeIntegration.test_mcp_protocol
     (fun r _ => r = true <-> answers_with_result w)
     (fun _ _ => False)
     (fun _ => never_accepted w \/ unanswered w) w.
Proof.
  unfold VscodeIntegration.test_mcp_protocol, answers_with_result, unanswered,
    never_accepted, reply.
  wp_bytes.
  all: try (split; [discriminate |
                    intros (f' & data' & c' & rest' & Hf' & Hs' & Hb' & Hin'); congruence]).
  - left. exists f, c, l. auto.
  - split; [intros _; exists f, j, c0, l; auto | reflexivity].
  - right. exists f, c0, l. auto.
Qed.

Lemma integration_protocol_blocks w :
  never_accepted w \/ unanswered w ->
  wp VscodeIntegration.test_mcp_protocol
     (fun _ _ => False) (fun _ _ => False) (fun _ => True) w.
Proof.
  intros [(f & c & rest & Hf & Hs & Hb) | (f & c & rest & Hf & Hs & Hb)];
    unfold VscodeIntegration.test_mcp_protocol;
    repeat wp_step; simplify_eq; exact I.
Qed.

Lemma hang_iff {A} (m : M A) (P : Prop) w :
  wp m (fun _ _ => True) (fun _ _ => True) (fun _ => P) w ->
  (P -> wp m (fun _ _ => False) (fun _ _ => False) (fun _ => True) w) ->
  fst (m w) = Hang <-> P.
Proof.
  intros Honly Hdoes. split.
  - intros Hh. apply wp_elim in Honly. rewrite Hh in Honly. exact Honly.
  - intros HP. apply Hdoes, wp_elim in HP.
    destruct (fst (m w)); [contradiction | contradiction | reflexivity].
Qed.

(** X20: the two socket tests of [test_vscode_mcp_integration.py], which
    set no timeout on their sockets.  [test_socket_connection] returns
    [True] exactly when the socket path exists, somebody listens and the
    queue of the listener has room; it never comes back exactly when
    somebody listens and the queue is full, [connect] waiting for room.
    [test_mcp_protocol] returns [True] exactly when the connection is
    accepted and the first answer on it decodes to a JSON value on which
    ['result' in data] is true; this holds for an object with the key
    [result], and also for a JSON string that has [result] as a
    substring.  It never comes back exactly when the queue is full or
    the server accepts the connection and leaves the request
    unanswered.  Neither lets an exception escape. *)
Theorem integration_socket_tests w :
  let connection := VscodeIntegration.test_socket_connection w in
  let protocol := VscodeIntegration.test_mcp_protocol w in
  (fst connection = Ret true <-> accepting w) /\
  (fst connection = Hang <-> never_accepted w) /\
  (fst connection = Ret true \/ fst connection = Ret false \/ fst connection = Hang) /\
  (fst protocol = Ret true <-> answers_with_result w) /\
  (fst protocol = Hang <-> never_accepted w \/ unanswered w) /\
  (fst protocol = Ret true \/ fst protocol = Ret false \/ fst protocol = Hang) /\
  (forall f text c rest,
     files w !! socket_path = Some f ->
     server w = (reply (JStr text) :: c) :: rest ->
     backlog_full w = false ->
     contains "result" text = true ->
     fst protocol = Ret true).
Proof.
  cbv zeta.
  pose proof (wp_elim _ _ _ _ _ (integration_socket_verdict w)) as Hc.
  pose proof (wp_elim _ _ _ _ _ (integration_protocol_verdict w)) as Hp.
  assert (Hcpass : fst (VscodeIntegration.test_socket_connection w) = Ret true
                   <-> accepting w).
  { destruct (fst (VscodeIntegration.test_socket_connection w)) as [b | e |].
    - rewrite <- Hc. split; [intros [= ->]; reflexivity | intros ->; reflexivity].
    - contradiction.
    - split; [discriminate|]. intros (f & c & rest & _ & _ & Hb).
      destruct Hc as (f' & c' & rest' & _ & _ & Hb'). congruence. }
  assert (Hpass : fst (VscodeIntegration.test_mcp_protocol w) = Ret true
                  <-> answers_with_result w).
  { destruct (fst (VscodeIntegration.test_mcp_protocol w)) as [b | e |].
    - rewrite <- Hp. split; [intros [= ->]; reflexivity | intros ->; reflexivity].
    - contradiction.
    - split; [discriminate|]. intros (f & data & c & rest & _ & Hs & Hb & _).
      destruct Hp as [(f' & c' & rest' & _ & _ & Hb') | (f' & c' & rest' & _ & Hs' & _)];
        [congruence | unfold reply in Hs; congruence]. }
  split; [exact Hcpass|]. split; [| split; [| split; [exact Hpass|]]].
  - apply hang_iff; [| apply integration_socket_blocks].
    eapply wp_mono; [apply integration_socket_verdict | | |]; auto.
  - destruct (fst (VscodeIntegration.test_socket_connection w)) as [[] | e |];
      [auto | auto | contradiction | auto].
  - split; [| split].
    + apply hang_iff; [| apply integration_protocol_blocks].
      eapply wp_mono; [apply integration_protocol_verdict | | |]; auto.
    + destruct (fst (VscodeIntegration.test_mcp_protocol w)) as [[] | e |];
        [auto | auto | contradiction | auto].
    + intros f text c rest Hf Hs Hb Hcont. apply Hpass.
      exists f, (JStr text), c, rest. repeat split; try assumption.
      cbn [py_in]. rewrite Hcont. reflexivity.
Qed.


(** *** The settings files *)

(** A run that only prints. *)
Definition printing (evs : list event) (w : world) : world :=
  fold_left (fun w0 e => emit e w0) evs w.

Lemma printing_files evs w : files (printing evs w) = files w.
Proof.
  revert w. induction evs as [|e evs IH]; intros w; [reflexivity|].
  unfold printing in *. cbn [fold_left]. rewrite IH. reflexivity.
Qed.

Lemma printing_app evs1 evs2 w : printing (evs1 ++ evs2) w = printing evs2 (printing evs1 w).
Proof. apply fold_left_app. Qed.

(** What [check_vscode_settings] prints about one path. *)
Definition settings_report (w : world) (settings_file : string) : list event :=
  match files w !! settings_file with
  | None => [Print Plain "Missing: {}" [JStr settings_file]]
  | Some f =>
      [Print Plain "Found: {}" [JStr settings_file];
       match (if readable f then as_json f else None) with
       | Some config =>
           match VscodeIntegration.has_mcp_configuration config with
           | Ok true => Print Plain "MCP configuration found in {}" [JStr settings_file]
           | Ok false => Print Plain "No MCP configuration in {}" [JStr settings_file]
           | Err _ => Print Plain "Error reading {}: {}" [JStr settings_file]
           end
       | None => Print Plain "Error reading {}: {}" [JStr settings_file]
       end]
  end.

Lemma settings_report_same w1 w2 p :
  files w1 !! p = files w2 !! p -> settings_report w1 p = settings_report w2 p.
Proof. intros Hf. unfold settings_report. rewrite Hf. reflexivity. Qed.

Lemma check_settings_file_report p w :
  wp (VscodeIntegration.check_settings_file p)
     (fun _ w' => w' = printing (settings_report w p) w)
     (fun _ _ => False) (fun _ => False) w.
Proof.
  unfold VscodeIntegration.check_settings_file, settings_report, printing.
  repeat wp_step; use_known; reflexivity.
Qed.

Lemma check_settings_files_report (paths : list string) w :
  wp (for_each paths VscodeIntegration.check_settings_file)
     (fun _ w' => w' = printing (concat (map (settings_report w) paths)) w)
     (fun _ _ => False) (fun _ => False) w.
Proof.
  revert w. induction paths as [|p paths IH]; intros w; [reflexivity|].
  cbn [for_each map concat]. apply wp_bind.
  eapply wp_mono; [apply check_settings_file_report | | contradiction | contradiction].
  intros [] w1 ->. eapply wp_mono; [apply IH | | contradiction | contradiction].
  intros [] w2 ->. rewrite printing_app. f_equal. f_equal. apply map_ext.
  intros q. apply settings_report_same. rewrite printing_files. reflexivity.
Qed.

Lemma check_vscode_settings_report w :
  wp VscodeIntegration.check_vscode_settings
     (fun r w' =>
        r = VNone /\
        w' = printing (Print Plain "Checking VS Code MCP configuration..." []
                         :: concat (map (settings_report w) VscodeIntegration.settings_files))
                      w)
     (fun _ _ => False) (fun _ => False) w.
Proof.
  unfold VscodeIntegration.check_vscode_settings. repeat wp_step.
  eapply wp_mono; [apply check_settings_files_report | | contradiction | contradiction].
  intros [] w1 ->. repeat wp_step. split; reflexivity.
Qed.

(** Two hosts hold the same thing at each of the three paths. *)
Definition same_settings_files (w1 w2 : world) : Prop :=
  forall p, In p VscodeIntegration.settings_files -> files w1 !! p = files w2 !! p.

(** X21: [check_vscode_settings] looks at three absolute paths written
    into the script and at nothing else: on two hosts that hold the same
    thing at these paths it prints the same lines, whatever the working
    directory is and whatever else differs.  It returns [None] on every
    host, lets no exception escape, changes no file, and prints
    [Missing] for each of the three paths that does not exist. *)
Theorem settings_check_reads_three_fixed_paths w1 w2 :
  same_settings_files w1 w2 ->
  let run1 := VscodeIntegration.check_vscode_settings w1 in
  let run2 := VscodeIntegration.check_vscode_settings w2 in
  fst run1 = Ret VNone /\
  files (snd run1) = files w1 /\
  (exists evs,
     log (snd run1) = (log w1 ++ evs)%list /\ log (snd run2) = (log w2 ++ evs)%list) /\
  (forall p, In p VscodeIntegration.settings_files -> files w1 !! p = None ->
     In (Print Plain "Missing: {}" [JStr p]) (log (snd run1))).
Proof.
  intros Hsame. cbv zeta.
  destruct (wp_returns _ _ _ (check_vscode_settings_report w1)) as (r1 & Hr1 & -> & Hw1).
  destruct (wp_returns _ _ _ (check_vscode_settings_report w2)) as (r2 & Hr2 & _ & Hw2).
  rewrite Hr1, Hw1, Hw2. unfold printing. rewrite !log_fold_emit.
  split; [reflexivity | split; [apply printing_files | split]].
  - eexists. split; [reflexivity|]. do 3 f_equal.
    apply map_ext_in. intros p Hp. symmetry. apply settings_report_same, Hsame, Hp.
  - intros p Hp Hnone. apply in_or_app. right. right.
    apply in_concat. exists (settings_report w1 p). split.
    + apply in_map, Hp.
    + unfold settings_report. rewrite Hnone. left. reflexivity.
Qed.

Lemma settings_check_reads_three_fixed_paths_witness :
  let f := {| st_size := 2; st_mode := 33188; readable := true; writable := true;
              text := "{}"; as_json := Some (JObj []) |} in
  let w1 := {| cwd := "/home/user"; cwd_writable := true; umask := 18; backlog_full := false;
               files := {[ "/home/user/.vscode/settings.json" := f ]};
               commands := fun _ => NoSuchCommand; server := []; log := [] |} in
  let w2 := {| cwd := "/srv/other"; cwd_writable := false; umask := 18; backlog_full := false;
               files := ∅;
               commands := fun _ => Exited 0 EmptyString; server := [[Silence]]; log := [] |} in
  same_settings_files w1 w2 /\
  fst (VscodeIntegration.check_vscode_settings w1) = Ret VNone /\
  files (snd (VscodeIntegration.check_vscode_settings w1)) = files w1.
Proof.
  intros f w1 w2.
  assert (Hsame : same_settings_files w1 w2).
  { intros p [<- | [<- | [<- | []]]]; vm_compute; reflexivity. }
  destruct (settings_check_reads_three_fixed_paths w1 w2 Hsame) as (Hr & Hf & _).
  split; [exact Hsame | split; [exact Hr | exact Hf]].
Defined.
